(** * oximachinetool: the structure-processing pipeline of [webservice/run_app.py]

    A shallow embedding of [get_json_for_visualizer], [process_precomputed_core],
    [process_structure_core] and the [process_structure] / [process_precomputed]
    views, with the properties of the pipeline stated and proved over it; the
    [process_example_structure] view and the version detection of [setup.py]
    follow.

    A function body runs in a frame of local bindings: an assignment to a
    variable that is read outside the [try] block that assigns it writes the
    frame, a read of such a variable goes through the frame and raises
    [UnboundLocalError] when nothing was bound; temporaries of one block are
    plain lets.  Exceptions are values threaded through a state-and-error monad
    whose state survives a raise, and coordinates are binary64 floats. *)

From Stdlib Require Import ZArith List String Ascii Bool Lia.
From Stdlib Require Import Floats DecimalString.
Import ListNotations.
Open Scope string_scope.

(** ** Python exceptions *)

(** The exception classes the pipeline raises or catches.  The first three are
    declared in [compute.utils], [FlaskRedirectException] in [conf]; all four
    derive from [Exception].  [KeyboardInterrupt] stands for the classes that
    derive from [BaseException] only, which [except Exception] lets through. *)
Inductive exc_type : Type :=
| UnknownFormatError
| OverlapError
| LargeStructureError
| FlaskRedirectException
| UnboundLocalError
| IndexError
| KeyError
| ValueError
| OtherError (class_name : string)
| KeyboardInterrupt.

(** An exception instance: its class and [str(e)]. *)
Record exc : Type := Exc { exc_class : exc_type; exc_str : string }.

Definition exc_type_eqb (a b : exc_type) : bool :=
  match a, b with
  | UnknownFormatError, UnknownFormatError
  | OverlapError, OverlapError
  | LargeStructureError, LargeStructureError
  | FlaskRedirectException, FlaskRedirectException
  | UnboundLocalError, UnboundLocalError
  | IndexError, IndexError
  | KeyError, KeyError
  | ValueError, ValueError
  | KeyboardInterrupt, KeyboardInterrupt => true
  | OtherError x, OtherError y => String.eqb x y
  | _, _ => false
  end.

(** [isinstance(e, Exception)]. *)
Definition is_Exception (e : exc) : bool :=
  match exc_class e with
  | KeyboardInterrupt => false
  | _ => true
  end.

(** What CPython (up to 3.10) puts in an [UnboundLocalError]. *)
Definition unbound_local (name : string) : exc :=
  Exc UnboundLocalError
      ("local variable '" ++ name ++ "' referenced before assignment").

(** The outcome of a call: a value, or a raised exception. *)
Inductive result (A : Type) : Type :=
| Ok (a : A)
| Raise (e : exc).
Arguments Ok {A} a.
Arguments Raise {A} e.

(** ** numpy arithmetic on binary64 *)

Record vec3 : Type := V3 { v0 : float; v1 : float; v2 : float }.

(** A 3x3 matrix, by rows ([lattice.matrix]). *)
Record lattice : Type := Lattice { row1 : vec3; row2 : vec3; row3 : vec3 }.

Definition lattice_rows (c : lattice) : list vec3 := [row1 c; row2 c; row3 c].

(** [r * 2^e] for [0 < r < 2^-e], with the mantissa aligned on the binary64
    exponent grid (the alignment [binary_round] does before rounding; nothing is
    lost, the residue of a binary64 has at most 53 bits). *)
Definition aligned (s : bool) (r : positive) (e : Z) : spec_float :=
  let '(m', e') :=
    shl_align r e (fexp prec emax (Z.pos (digits2_pos r) + e)) in
  S754_finite s m' e'.

Definition signed_zero (s : bool) : float := if s then neg_zero else zero.

(** C's [fmod(x, 1.0)], which numpy's remainder calls first: the exact
    remainder of the truncated quotient, with the sign of [x]. *)
Definition fmod1 (x : float) : float :=
  match Prim2SF x with
  | S754_nan | S754_infinity _ => nan
  | S754_zero _ => x
  | S754_finite s m e =>
      if (0 <=? e)%Z then signed_zero s
      else match (Z.pos m mod 2 ^ (- e))%Z with
           | Z.pos r => SF2Prim (aligned s r e)
           | _ => signed_zero s
           end
  end.

(** numpy's [a % 1.0] on float64 ([npy_divmod]): [fmod], then the Python sign
    convention: a zero residue becomes [copysign(0, 1.0)], a negative one gets
    the divisor added (a rounded binary64 addition). *)
Definition remainder1 (a : float) : float :=
  let m := fmod1 a in
  if (m =? 0)%float then zero
  else if (m <? 0)%float then (m + 1)%float
  else m.

(** The mantissa of 1.0, [2^52]. *)
Definition two52 : positive := 4503599627370496.

Definition components (p : vec3) : list float := [v0 p; v1 p; v2 p].

Definition vec3_remainder1 (p : vec3) : vec3 :=
  V3 (remainder1 (v0 p)) (remainder1 (v1 p)) (remainder1 (v2 p)).

(** The fused multiply-add [x * y + z] of IEEE 754 on the specification
    floats: the product is kept exact and the sum is rounded once, to nearest
    even.  A product of zero or infinity is added as such. *)
Definition SFfma (x y z : spec_float) : spec_float :=
  match x, y with
  | S754_nan, _ | _, S754_nan => S754_nan
  | S754_infinity _, S754_zero _ | S754_zero _, S754_infinity _ => S754_nan
  | S754_infinity sx, S754_infinity sy
  | S754_infinity sx, S754_finite sy _ _
  | S754_finite sx _ _, S754_infinity sy =>
      SpecFloat.SFadd prec emax (S754_infinity (xorb sx sy)) z
  | S754_zero sx, S754_zero sy
  | S754_zero sx, S754_finite sy _ _
  | S754_finite sx _ _, S754_zero sy =>
      SpecFloat.SFadd prec emax (S754_zero (xorb sx sy)) z
  | S754_finite sx mx ex, S754_finite sy my ey =>
      let s := xorb sx sy in
      let m := (mx * my)%positive in
      let e := (ex + ey)%Z in
      match z with
      | S754_nan => S754_nan
      | S754_infinity _ => z
      | S754_zero _ => binary_round prec emax s m e
      | S754_finite sz mz ez =>
          let e' := Z.min e ez in
          binary_normalize prec emax
            (cond_Zopp s (Zpos (fst (shl_align m e e')))
             + cond_Zopp sz (Zpos (fst (shl_align mz ez e'))))%Z
            e' false
      end
  end.

Definition fma (x y z : float) : float :=
  SF2Prim (SFfma (Prim2SF x) (Prim2SF y) (Prim2SF z)).

(** One entry of a matrix product as the BLAS kernel behind [np.dot]
    accumulates it: from an accumulator at [+0], one fused multiply-add per
    term, in the order of the terms. *)
Definition blas_dot3 (x y z a b g : float) : float :=
  fma z g (fma y b (fma x a zero)).

(** One row of [np.dot(positions, cell)]: the row vector times the matrix. *)
Definition row_dot (p : vec3) (c : lattice) : vec3 :=
  let '(V3 x y z) := p in
  let '(Lattice a b g) := c in
  V3 (blas_dot3 x y z (v0 a) (v0 b) (v0 g))
     (blas_dot3 x y z (v1 a) (v1 b) (v1 g))
     (blas_dot3 x y z (v2 a) (v2 b) (v2 g)).

(** [np.dot(np.array(positions), np.array(cell))].  A non-empty list of
    triples is an (N, 3) array; the empty list is an array of shape (0,), which
    does not align with the (3, 3) cell. *)
Definition np_dot (positions : list vec3) (c : lattice) : result (list vec3) :=
  match positions with
  | [] => Raise (Exc ValueError
                     "shapes (0,) and (3,3) not aligned: 0 (dim 0) != 3 (dim 0)")
  | _ => Ok (map (fun p => row_dot p c) positions)
  end.

(** ** Strings *)

Definition newline : string := String (ascii_of_nat 10) EmptyString.

(** [s.replace(old, new)] for a one-character [old]. *)
Fixpoint str_replace (old : ascii) (new : string) (s : string) : string :=
  match s with
  | EmptyString => EmptyString
  | String c rest =>
      if Ascii.eqb c old then new ++ str_replace old new rest
      else String c (str_replace old new rest)
  end.

(** [sub in s]. *)
Fixpoint str_contains (sub s : string) : bool :=
  if String.prefix sub s then true
  else match s with
       | EmptyString => false
       | String _ rest => str_contains sub rest
       end.

(** [s.endswith(suffix)]. *)
Definition str_ends_with (suffix s : string) : bool :=
  String.eqb
    (substring (String.length s - String.length suffix) (String.length suffix) s)
    suffix
  && (String.length suffix <=? String.length s)%nat.

(** ['{}'.format(n)] for an integer. *)
Definition str_int (z : Z) : string := NilZero.string_of_int (Z.to_int z).

(** The integer a finite float [m * 2^e] holds, if it holds one. *)
Definition integral_value (m : positive) (e : Z) : option Z :=
  if (0 <=? e)%Z then Some (Z.pos m * 2 ^ e)%Z
  else if (Z.pos m mod 2 ^ (- e) =? 0)%Z then Some (Z.pos m / 2 ^ (- e))%Z
  else None.

Section FloatRepr.

(** The digits of a finite float that is not a whole number below 10^16
    (shortest round-trip digit generation, fixed or exponent notation). *)
Variable repr_digits : float -> string.

(** ['{}'.format(x)] for a float ([float.__repr__]; numpy's float64 scalars
    print the same from numpy 1.14 on): a whole number below 10^16 prints
    as its integer digits followed by [.0]. *)
Definition str_float (x : float) : string :=
  match Prim2SF x with
  | S754_nan => "nan"
  | S754_infinity s => if s then "-inf" else "inf"
  | S754_zero s => if s then "-0.0" else "0.0"
  | S754_finite s m e =>
      match integral_value m e with
      | Some z =>
          if (z <? 10 ^ 16)%Z
          then (if s then "-" else "") ++ str_int z ++ ".0"
          else repr_digits x
      | None => repr_digits x
      end
  end.

End FloatRepr.

(** ** Structures and tables *)

(** The tuple [(cell, scaled_coords, atomic_numbers)] that
    [tuple_from_pymatgen] and [get_structure_tuple] hand over. *)
Record structure_tuple : Type := StructureTuple {
  st_cell : lattice;
  st_scaled_coords : list vec3;
  st_atomic_numbers : list Z
}.

(** The dictionary [get_json_for_visualizer] returns. *)
Record path_results : Type := PathResults {
  primitive_positions : list vec3;
  primitive_lattice : lattice;
  primitive_types : list Z
}.

(** [raw_code_dict], in key order, as handed to [json.dumps]. *)
Record raw_code_dict : Type := RawCodeDict {
  rc_primitive_positions : list vec3;
  rc_primitive_lattice : lattice;
  rc_primitive_types : list Z;
  rc_primitive_positions_cartesian : list vec3;
  rc_primitive_symbols : list string
}.

(** A row [[label, coords[0], coords[1], coords[2]]] of an atom table. *)
Record atom_row : Type := AtomRow {
  ar_label : string; ar_x : float; ar_y : float; ar_z : float
}.

(** A row [[idx, coords[0], coords[1], coords[2]]] of a cell-vector table. *)
Record vector_row : Type := VectorRow {
  vr_idx : Z; vr_x : float; vr_y : float; vr_z : float
}.

Definition atom_table (labels : list string) (coords : list vec3) : list atom_row :=
  map (fun lc => AtomRow (fst lc) (v0 (snd lc)) (v1 (snd lc)) (v2 (snd lc)))
      (combine labels coords).

(** [enumerate(rows, start)]. *)
Fixpoint enumerate {A : Type} (start : Z) (rows : list A) : list (Z * A) :=
  match rows with
  | [] => []
  | r :: rest => (start, r) :: enumerate (start + 1) rest
  end.

Definition vector_table (rows : list vec3) : list vector_row :=
  map (fun ic => VectorRow (fst ic) (v0 (snd ic)) (v1 (snd ic)) (v2 (snd ic)))
      (enumerate 1 rows).

(** [table[num]] on a Python list: negative indices count from the end. *)
Definition list_getitem (table : list string) (num : Z) : result string :=
  let n := Z.of_nat (List.length table) in
  let i := if (num <? 0)%Z then (num + n)%Z else num in
  if ((0 <=? i) && (i <? n))%Z%bool
  then match nth_error table (Z.to_nat i) with
       | Some x => Ok x
       | None => Raise (Exc IndexError "list index out of range")
       end
  else Raise (Exc IndexError "list index out of range").

(** [[f(x) for x in xs]]: stops at the first element that raises. *)
Fixpoint list_comprehension {A B : Type} (f : A -> result B) (xs : list A)
  : result (list B) :=
  match xs with
  | [] => Ok []
  | x :: rest =>
      match f x with
      | Raise e => Raise e
      | Ok y => match list_comprehension f rest with
                | Raise e => Raise e
                | Ok ys => Ok (y :: ys)
                end
      end
  end.

(** [d[key]] on a dictionary kept as an association list; [str(KeyError(k))]
    is the repr of the key. *)
Fixpoint dict_getitem {V : Type} (d : list (string * V)) (key : string) : result V :=
  match d with
  | [] => Raise (Exc KeyError ("'" ++ key ++ "'"))
  | (k, v) :: rest => if String.eqb k key then Ok v else dict_getitem rest key
  end.

(** ** The collaborators

    Everything [run_app.py] imports and calls: the pymatgen structure and its
    methods, [compute.utils], [compute.featurize], [compute.predict], [conf],
    [ase.data], [json], [jinja2] and the UTF-8 codec.  An opaque Python object
    has type [pyobj]. *)
Class World : Type := {
  pyobj : Type;
  Structure : Type;
  THIS_DIR : string;
  MAX_NUMBER_OF_ATOMS : Z;
  MODEL_VERSION : string;
  DEFAULT_APPROXIMATE : pyobj;
  chemical_symbols : list string;
  get_structure_tuple : string -> string -> result (structure_tuple * Structure);
  tuple_from_pymatgen : Structure -> structure_tuple;
  get_primitive_structure : Structure -> result Structure;
  (** [CifParser(path, occupancy_tolerance=100).get_structures()[0]] *)
  CifParser_get_structures_0 : string -> result Structure;
  load_pickle : string -> result (list (string * pyobj));
  _featurize_single : Structure -> result (pyobj * pyobj * pyobj * pyobj);
  (** [list(d.keys())] *)
  dict_keys : pyobj -> pyobj;
  (** [a.shape] *)
  array_shape : pyobj -> pyobj;
  predictions : pyobj -> pyobj -> result (pyobj * pyobj * pyobj);
  get_explanations : pyobj -> pyobj -> pyobj -> pyobj -> pyobj -> result pyobj;
  (** [json.dumps(d, indent=2)] *)
  json_dumps : raw_code_dict -> string;
  (** [str(jinja2.escape(text))] *)
  jinja2_escape : string -> string;
  shortest_repr : float -> string;
  (** [data.decode('utf-8')] on the bytes of an upload: the text, or a
      [UnicodeDecodeError] *)
  decode_utf8 : string -> result string
}.

Section Pipeline.

Context {W : World}.

(** ** Frames, events and the monad of a function body *)

(** What a local variable can hold. *)
Inductive value : Type :=
| VStructureTuple (t : structure_tuple)
| VStructure (s : Structure)
| VObj (o : pyobj)
| VStr (s : string)
| VInt (z : Z)
| VAtoms (rows : list atom_row)
| VVectors (rows : list vector_row)
| VTime.

(** What the pipeline does to the outside: [logger.debug], [logme] with the
    input, the call source, the reason tag and the [extra] dictionary, [print],
    and [flask.flash]. *)
Inductive event : Type :=
| Debug (msg : string)
| LogMe (filecontent fileformat call_source reason : string)
        (extra : list (string * value))
| Print (msg : string)
| Flash (msg : string).

(** The locals of the running function (most recent binding first) and the
    events so far (most recent last). *)
Record state : Type := State {
  vars : list (string * value);
  trace : list event
}.

Definition M (A : Type) : Type := state -> result A * state.

Definition ret {A : Type} (a : A) : M A := fun st => (Ok a, st).

Definition bind {A B : Type} (m : M A) (k : A -> M B) : M B :=
  fun st =>
    match m st with
    | (Ok a, st') => k a st'
    | (Raise e, st') => (Raise e, st')
    end.

Definition raise {A : Type} (e : exc) : M A := fun st => (Raise e, st).

(** A call of a collaborator. *)
Definition call {A : Type} (r : result A) : M A := fun st => (r, st).

(** [try: body  except ...: handler]. The locals bound before the raise stay. *)
Definition try_except {A : Type} (body : M A) (handler : exc -> M A) : M A :=
  fun st =>
    match body st with
    | (Ok a, st') => (Ok a, st')
    | (Raise e, st') => handler e st'
    end.

Definition emit (ev : event) : M unit :=
  fun st => (Ok tt, State (vars st) (trace st ++ [ev])).

(** [name = v]. *)
Definition assign (name : string) (v : value) : M unit :=
  fun st => (Ok tt, State ((name, v) :: vars st) (trace st)).

Fixpoint lookup_var (name : string) (vs : list (string * value)) : option value :=
  match vs with
  | [] => None
  | (k, v) :: rest => if String.eqb k name then Some v else lookup_var name rest
  end.

(** A read of the local [name]. *)
Definition load (name : string) : M value :=
  fun st =>
    match lookup_var name (vars st) with
    | Some v => (Ok v, st)
    | None => (Raise (unbound_local name), st)
    end.

Definition type_error {A : Type} (name : string) : M A :=
  raise (Exc (OtherError "TypeError") ("unexpected type for '" ++ name ++ "'")).

End Pipeline.

Declare Scope py_scope.
Delimit Scope py_scope with py.
Notation "x <- m ;; k" := (bind m (fun x => k))
  (at level 61, m at next level, right associativity) : py_scope.
Notation "m ;; k" := (bind m (fun _ => k))
  (at level 61, right associativity) : py_scope.

Section Body.

Context {W : World}.
Local Open Scope py_scope.

Definition load_structure_tuple (name : string) : M structure_tuple :=
  v <- load name ;;
  match v with VStructureTuple t => ret t | _ => type_error name end.

Definition load_structure (name : string) : M Structure :=
  v <- load name ;;
  match v with VStructure s => ret s | _ => type_error name end.

Definition load_obj (name : string) : M pyobj :=
  v <- load name ;;
  match v with VObj o => ret o | _ => type_error name end.

Definition load_str (name : string) : M string :=
  v <- load name ;;
  match v with VStr s => ret s | _ => type_error name end.

(** A call of a function of this module: it runs in a frame of its own and
    shares the event trace. *)
Definition invoke {A : Type} (body : M A) : M A :=
  fun st =>
    let '(r, st') := body (State [] (trace st)) in
    (r, State (vars st) (trace st')).

End Body.

(** ** [run_app.py] *)

(** What the views read of [flask.request]; [files] holds the bytes of each
    upload. *)
Record flask_request {W : World} : Type := Request {
  method : string;
  environ : list (string * string);
  form : pyobj;
  files : list (string * string)
}.

(** What a view returns: [flask.render_template(template, **data)] or
    [flask.redirect(flask.url_for(endpoint))]. *)
Inductive response {W : World} : Type :=
| Render (template : string) (data : list (string * value))
| Redirect (endpoint : string).

Section RunApp.

Context {W : World}.
Local Open Scope py_scope.

Definition get_style_version (request : flask_request) : string :=
  match dict_getitem (environ request) "HTTP_X_APP_STYLE" with
  | Ok style => style
  | Raise _ => ""
  end.

Definition get_visualizer_template (request : flask_request) : string :=
  if String.eqb (get_style_version request) "lite"
  then "visualizer_lite.html"
  else "visualizer.html".

Definition get_json_for_visualizer (s : Structure) : result path_results :=
  match get_primitive_structure s with
  | Raise e => Raise e
  | Ok s' =>
      let t := tuple_from_pymatgen s' in
      Ok (PathResults (st_scaled_coords t) (st_cell t) (st_atomic_numbers t))
  end.

(** ['{} {} {}'.format(vector[0], vector[1], vector[2])] *)
Definition format_vector (v : vec3) : string :=
  str_float shortest_repr (v0 v) ++ " " ++ str_float shortest_repr (v1 v)
    ++ " " ++ str_float shortest_repr (v2 v).

(** ['{} {} {} {}'.format(atom_num, pos[0], pos[1], pos[2])] *)
Definition format_atom (atom_num : Z) (pos : vec3) : string :=
  str_int atom_num ++ " " ++ format_vector pos.

(** ['{} 1'.format(len(positions))] *)
Definition format_count (positions : list vec3) : string :=
  str_int (Z.of_nat (List.length positions)) ++ " 1".

(** [dict(key=expr, ...)]: the expressions are evaluated in order. *)
Fixpoint build_dict (items : list (string * M value)) : M (list (string * value)) :=
  match items with
  | [] => ret []
  | (k, m) :: rest =>
      v <- m ;;
      d <- build_dict rest ;;
      ret ((k, v) :: d)
  end.

(** The keyword arguments of the final [return dict(...)], the same in both
    functions. *)
Definition output_items : list (string * M value) :=
  [ ("raw_code", load "raw_code");
    ("prediction_labels", load "prediction_labels");
    ("metal_indices", load "metal_indices");
    ("predictions_output", load "predictions_output");
    ("featurization_output", load "featurization_output");
    ("inputstructure_cell_vectors", load "inputstructure_cell_vectors");
    ("inputstructure_atoms_scaled", load "inputstructure_atoms_scaled");
    ("inputstructure_atoms_cartesian", load "inputstructure_atoms_cartesian");
    ("atoms_scaled", load "atoms_scaled");
    ("direct_vectors", load "direct_vectors");
    ("atoms_cartesian", load "atoms_cartesian");
    ("compute_time", load "compute_time");
    ("model_version", ret (VStr MODEL_VERSION));
    ("xsfstructure", load "xsfstructure");
    ("feature_values", load "feature_value_dict") ].

(** *** [process_precomputed_core] *)

(** Lines 116-132: the structure file of the record. *)
Definition precomputed_read_structure (name : string) : M unit :=
  try_except
    (emit (Debug "building path") ;;
     let structurefilepath :=
       THIS_DIR ++ "/compute/precomputed/structures/" ++ name ++ ".cif" in
     emit (Debug ("structurefilepath is " ++ structurefilepath)) ;;
     assign "fileformat" (VStr "cif") ;;
     s <- call (CifParser_get_structures_0 structurefilepath) ;;
     assign "s" (VStructure s) ;;
     emit (Debug "read pymatgen structure") ;;
     s <- load_structure "s" ;;
     assign "structure_tuple" (VStructureTuple (tuple_from_pymatgen s)) ;;
     emit (Debug "generated structure tuple"))
    (fun e =>
       if is_Exception e then
         emit (Debug ("Exception " ++ exc_str e ++ " when parsing the input")) ;;
         fileformat <- load_str "fileformat" ;;
         raise (Exc FlaskRedirectException
                    ("I tried my best, but I wasn't able to load your "
                       ++ "file in format '" ++ fileformat
                       ++ "'... because of " ++ exc_str e))
       else raise e).

(** [x = precomputed_dict['x']] *)
Definition assign_item (d : list (string * pyobj)) (key : string) : M unit :=
  v <- call (dict_getitem d key) ;;
  assign key (VObj v).

(** Lines 138-155: the pickled results of the record. *)
Definition precomputed_read_pickle (name : string) : M unit :=
  try_except
    (emit (Debug "reading pickle") ;;
     precomputed_dict <-
       call (load_pickle
               (THIS_DIR ++ "/compute/precomputed/precomputed/" ++ name ++ ".pkl")) ;;
     assign_item precomputed_dict "feature_array" ;;
     assign_item precomputed_dict "feature_value_dict" ;;
     assign_item precomputed_dict "metal_indices" ;;
     assign_item precomputed_dict "feature_names" ;;
     assign_item precomputed_dict "metal_sites" ;;
     assign_item precomputed_dict "predictions_output" ;;
     assign_item precomputed_dict "prediction_labels" ;;
     assign_item precomputed_dict "featurization_output")
    (fun e =>
       if is_Exception e then
         emit (Debug ("Exception " ++ exc_str e ++ " when parsing the input")) ;;
         raise (Exc FlaskRedirectException
                    ("I tried my best, but I wasn't able to load your "
                       ++ "result for '" ++ name
                       ++ "'... because of " ++ exc_str e))
       else raise e).

(** Lines 160-223: the body of the third [try]. *)
Definition precomputed_assembly : M unit :=
  in_json_data <- load_structure_tuple "structure_tuple" ;;
  s <- load_structure "s" ;;
  path_results <- call (get_json_for_visualizer s) ;;
  inputstructure_positions_cartesian <-
    call (np_dot (st_scaled_coords in_json_data) (st_cell in_json_data)) ;;
  primitive_positions_cartesian <-
    call (np_dot (primitive_positions path_results)
                 (primitive_lattice path_results)) ;;
  primitive_positions_cartesian_refolded <-
    call (np_dot (map vec3_remainder1 (primitive_positions path_results))
                 (primitive_lattice path_results)) ;;
  primitive_symbols <-
    call (list_comprehension (list_getitem chemical_symbols)
                             (primitive_types path_results)) ;;
  let raw_code_dict :=
    RawCodeDict (primitive_positions path_results)
                (primitive_lattice path_results)
                (primitive_types path_results)
                primitive_positions_cartesian
                primitive_symbols in
  assign "raw_code" (VStr (json_dumps raw_code_dict)) ;;
  raw_code <- load_str "raw_code" ;;
  assign "raw_code"
         (VStr (str_replace " " "&nbsp;"
                  (str_replace (ascii_of_nat 10) "<br>" (jinja2_escape raw_code)))) ;;
  assign "inputstructure_cell_vectors"
         (VVectors (vector_table (lattice_rows (st_cell in_json_data)))) ;;
  inputstructure_symbols <-
    call (list_comprehension (list_getitem chemical_symbols)
                             (st_atomic_numbers in_json_data)) ;;
  assign "inputstructure_atoms_scaled"
         (VAtoms (atom_table inputstructure_symbols
                             (st_scaled_coords in_json_data))) ;;
  assign "inputstructure_atoms_cartesian"
         (VAtoms (atom_table inputstructure_symbols
                             inputstructure_positions_cartesian)) ;;
  assign "atoms_scaled"
         (VAtoms (atom_table primitive_symbols
                             (primitive_positions path_results))) ;;
  assign "atoms_cartesian"
         (VAtoms (atom_table primitive_symbols primitive_positions_cartesian)) ;;
  assign "direct_vectors"
         (VVectors (vector_table (lattice_rows (primitive_lattice path_results)))) ;;
  let xsfstructure :=
    (["CRYSTAL"; "PRIMVEC"]
       ++ map format_vector (lattice_rows (primitive_lattice path_results))
       ++ ["PRIMCOORD"; format_count primitive_positions_cartesian_refolded]
       ++ map (fun np => format_atom (fst np) (snd np))
              (combine (primitive_types path_results)
                       primitive_positions_cartesian_refolded))%list in
  assign "xsfstructure" (VStr (String.concat newline xsfstructure)) ;;
  _ <- load "start_time" ;;
  assign "compute_time" VTime.

Definition process_precomputed_core (name : string) : M (list (string * value)) :=
  emit (Debug ("dealing with " ++ name)) ;;
  assign "start_time" VTime ;;
  precomputed_read_structure name ;;
  _ <- load "start_time" ;;
  emit (Debug "Successfully read structure in {}") ;;
  precomputed_read_pickle name ;;
  emit (Debug "Successfully read pickle with precomputed results") ;;
  try_except precomputed_assembly
    (fun e =>
       if is_Exception e then
         emit (Debug ("Exception " ++ exc_str e ++ " when parsing the input"))
       else raise e) ;;
  build_dict output_items.

(** *** [process_structure_core] *)

Definition featurization_message : string :=
  "Sorry, the featurization failed. Make sure that your structure is not "
    ++ "pathological (e.g. containing overlapping atoms).".

Definition prediction_message : string :=
  "Sorry, the featurization failed. Make sure that your structure is not "
    ++ "pathological (e.g., containing overlapping atoms).".

(** Lines 276-335: reading and validating the input. *)
Definition structure_read (filecontent fileformat call_source : string) : M unit :=
  try_except
    (r <- call (get_structure_tuple filecontent fileformat) ;;
     assign "structure_tuple" (VStructureTuple (fst r)) ;;
     assign "s" (VStructure (snd r)))
    (fun e =>
       match exc_class e with
       | UnknownFormatError =>
           form_data <- load "form_data" ;;
           emit (LogMe filecontent fileformat call_source "unknownformat"
                       [("form_data", form_data)]) ;;
           raise (Exc FlaskRedirectException
                      ("Unknown format '" ++ fileformat ++ "'"))
       | OverlapError =>
           form_data <- load "form_data" ;;
           emit (LogMe filecontent fileformat call_source "overlap"
                       [("form_data", form_data)]) ;;
           raise (Exc FlaskRedirectException
                      "Sorry, there seem to be overlapping errors in the input structure")
       | LargeStructureError =>
           structure_tuple <- load_structure_tuple "structure_tuple" ;;
           form_data <- load "form_data" ;;
           emit (LogMe filecontent fileformat call_source "toolarge"
                       [("number_of_atoms",
                         VInt (Z.of_nat (List.length (st_scaled_coords structure_tuple))));
                        ("form_data", form_data)]) ;;
           structure_tuple <- load_structure_tuple "structure_tuple" ;;
           raise (Exc FlaskRedirectException
                      ("Sorry, this online visualizer is limited to "
                         ++ str_int MAX_NUMBER_OF_ATOMS ++ " atoms "
                         ++ "in the input cell, while your structure has "
                         ++ str_int (Z.of_nat (List.length (st_scaled_coords structure_tuple)))
                         ++ " atoms."))
       | _ =>
           if is_Exception e then
             form_data <- load "form_data" ;;
             emit (LogMe filecontent fileformat call_source "exception"
                         [("exception", VStr (exc_str e));
                          ("form_data", form_data)]) ;;
             raise (Exc FlaskRedirectException
                        ("I tried my best, but I wasn't able to load your "
                           ++ "file in format '" ++ fileformat
                           ++ "'... because of " ++ exc_str e))
           else raise e
       end).

(** Lines 355-374: featurization. *)
Definition structure_featurize (filecontent fileformat call_source : string) : M unit :=
  try_except
    (s <- load_structure "s" ;;
     r <- call (_featurize_single s) ;;
     let '(feature_array, feature_value_dict, metal_indices, feature_names) := r in
     assign "feature_array" (VObj feature_array) ;;
     assign "feature_value_dict" (VObj feature_value_dict) ;;
     assign "metal_indices" (VObj metal_indices) ;;
     assign "feature_names" (VObj feature_names))
    (fun e =>
       if is_Exception e then
         emit (LogMe filecontent fileformat call_source "featurizationexception"
                     [("exception", VStr (exc_str e))]) ;;
         raise (Exc FlaskRedirectException featurization_message)
       else raise e).

(** Lines 393-430: prediction and explanation. *)
Definition structure_predict (filecontent fileformat call_source : string) : M unit :=
  try_except
    (feature_value_dict <- load_obj "feature_value_dict" ;;
     assign "metal_sites" (VObj (dict_keys feature_value_dict)) ;;
     feature_array <- load_obj "feature_array" ;;
     metal_sites <- load_obj "metal_sites" ;;
     r <- call (predictions feature_array metal_sites) ;;
     let '(predictions_output, prediction_labels, class_idx) := r in
     assign "predictions_output" (VObj predictions_output) ;;
     assign "prediction_labels" (VObj prediction_labels) ;;
     assign "class_idx" (VObj class_idx) ;;
     feature_array <- load_obj "feature_array" ;;
     prediction_labels <- load_obj "prediction_labels" ;;
     class_idx <- load_obj "class_idx" ;;
     feature_names <- load_obj "feature_names" ;;
     featurization_output <-
       call (get_explanations feature_array prediction_labels class_idx
                              feature_names DEFAULT_APPROXIMATE) ;;
     assign "featurization_output" (VObj featurization_output))
    (fun e =>
       match exc_class e with
       | UnboundLocalError =>
           emit (LogMe filecontent fileformat call_source "predictionexception"
                       [("exception", VStr (exc_str e))]) ;;
           raise (Exc FlaskRedirectException prediction_message)
       | _ =>
           if is_Exception e then
             emit (Print (exc_str e)) ;;
             feature_array <- load_obj "feature_array" ;;
             emit (LogMe filecontent fileformat call_source "predictionexception"
                         [("exception", VStr (exc_str e));
                          ("shape_array", VObj (array_shape feature_array))])
           else raise e
       end).

(** Lines 435-498: the body of the last [try]. *)
Definition structure_assembly : M unit :=
  in_json_data <- load_structure_tuple "structure_tuple" ;;
  s <- load_structure "s" ;;
  path_results <- call (get_json_for_visualizer s) ;;
  inputstructure_positions_cartesian <-
    call (np_dot (st_scaled_coords in_json_data) (st_cell in_json_data)) ;;
  primitive_positions_cartesian <-
    call (np_dot (primitive_positions path_results)
                 (primitive_lattice path_results)) ;;
  primitive_positions_cartesian_refolded <-
    call (np_dot (map vec3_remainder1 (primitive_positions path_results))
                 (primitive_lattice path_results)) ;;
  primitive_symbols <-
    call (list_comprehension (list_getitem chemical_symbols)
                             (primitive_types path_results)) ;;
  let raw_code_dict :=
    RawCodeDict (primitive_positions path_results)
                (primitive_lattice path_results)
                (primitive_types path_results)
                primitive_positions_cartesian
                primitive_symbols in
  assign "raw_code" (VStr (json_dumps raw_code_dict)) ;;
  raw_code <- load_str "raw_code" ;;
  assign "raw_code"
         (VStr (str_replace " " "&nbsp;"
                  (str_replace (ascii_of_nat 10) "<br>" (jinja2_escape raw_code)))) ;;
  assign "inputstructure_cell_vectors"
         (VVectors (vector_table (lattice_rows (st_cell in_json_data)))) ;;
  inputstructure_symbols <-
    call (list_comprehension (list_getitem chemical_symbols)
                             (st_atomic_numbers in_json_data)) ;;
  assign "inputstructure_atoms_scaled"
         (VAtoms (atom_table inputstructure_symbols
                             (st_scaled_coords in_json_data))) ;;
  assign "inputstructure_atoms_cartesian"
         (VAtoms (atom_table inputstructure_symbols
                             inputstructure_positions_cartesian)) ;;
  assign "atoms_scaled"
         (VAtoms (atom_table primitive_symbols
                             (primitive_positions path_results))) ;;
  assign "atoms_cartesian"
         (VAtoms (atom_table primitive_symbols primitive_positions_cartesian)) ;;
  assign "direct_vectors"
         (VVectors (vector_table (lattice_rows (primitive_lattice path_results)))) ;;
  let xsfstructure :=
    (["CRYSTAL"; "PRIMVEC"]
       ++ map format_vector (lattice_rows (primitive_lattice path_results))
       ++ ["PRIMCOORD"; format_count primitive_positions_cartesian_refolded]
       ++ map (fun np => format_atom (fst np) (snd np))
              (combine (primitive_types path_results)
                       primitive_positions_cartesian_refolded))%list in
  assign "xsfstructure" (VStr (String.concat newline xsfstructure)) ;;
  _ <- load "start_time" ;;
  assign "compute_time" VTime.

(** Lines 434-514: the assembly with its handler, which logs and re-raises. *)
Definition structure_assemble (filecontent fileformat call_source : string) : M unit :=
  try_except structure_assembly
    (fun e =>
       if is_Exception e then
         form_data <- load "form_data" ;;
         emit (LogMe filecontent fileformat call_source "codeexception"
                     [("exception", VStr (exc_str e));
                      ("form_data", form_data)]) ;;
         raise e
       else raise e).

Definition process_structure_core
    (filecontent fileformat call_source : string) (request : flask_request)
  : M (list (string * value)) :=
  assign "start_time" VTime ;;
  assign "form_data" (VObj (form request)) ;;
  structure_read filecontent fileformat call_source ;;
  _ <- load "start_time" ;;
  emit (Debug "Successfully read structure in {}") ;;
  structure_featurize filecontent fileformat call_source ;;
  emit (Debug "Featurization completed in {}") ;;
  structure_predict filecontent fileformat call_source ;;
  emit (Debug "Prediction done in {}") ;;
  structure_assemble filecontent fileformat call_source ;;
  build_dict output_items.

(** *** The views *)

(** The [except] clauses shared by [process_structure] and
    [process_example_structure]. *)
Definition structure_view_handler (e : exc) : M response :=
  match exc_class e with
  | FlaskRedirectException =>
      emit (Flash (exc_str e)) ;; ret (Redirect "input_structure")
  | OverlapError =>
      emit (Flash "Maybe you have overlapping atoms?") ;;
      ret (Redirect "input_structure")
  | LargeStructureError =>
      emit (Flash "You seem to have too many atoms in your structure to run on the web") ;;
      ret (Redirect "input_structure")
  | _ =>
      if is_Exception e then
        emit (Flash ("Unable to process the structure, sorry... " ++ exc_str e)) ;;
        ret (Redirect "input_structure")
      else raise e
  end.

(** Lines 587-623.  The upload is read and decoded (line 598) before the
    [try], so a failure to decode is not handled by the view. *)
Definition process_structure (request : flask_request) : M response :=
  if String.eqb (method request) "POST" then
    match dict_getitem (files request) "structurefile" with
    | Raise _ => ret (Redirect "input_structure")
    | Ok structurefile =>
        filecontent <- call (decode_utf8 structurefile) ;;
        try_except
          (data_for_template <-
             invoke (process_structure_core filecontent "cif"
                                            "process_structure" request) ;;
           ret (Render (get_visualizer_template request) data_for_template))
          structure_view_handler
    end
  else ret (Redirect "input_structure").

Definition process_precomputed (name : string) (request : flask_request) : M response :=
  if String.eqb (method request) "GET" then
    try_except
      (data_for_template <- invoke (process_precomputed_core name) ;;
       ret (Render (get_visualizer_template request) data_for_template))
      (fun e =>
         match exc_class e with
         | FlaskRedirectException =>
             emit (Flash (exc_str e)) ;; ret (Redirect "input_structure")
         | _ =>
             if is_Exception e then
               emit (Flash ("Unable to process the structure, sorry... " ++ exc_str e)) ;;
               ret (Redirect "input_structure")
             else raise e
         end)
  else ret (Redirect "input_structure").

(** A request served from scratch: an empty frame and no events yet. *)
Definition run {A : Type} (m : M A) : result A * list event :=
  let '(r, st) := m (State [] []) in (r, trace st).

End RunApp.

(** ** The validator the reader runs *)

(** Modelled from the spec: [compute.utils.get_structure_tuple] is not among
    the sources.  The Structure Reader accepts the closed set of formats
    (["cif"]) and fails with [UnknownFormatError] on any other; the Structure
    Validator then checks, in order, the atom count against the ceiling
    ([LargeStructureError], carrying the count) and the absence of overlapping
    atoms ([OverlapError]).  The parser and the overlap test are the caller's. *)
Definition validated_structure_tuple {S : Type}
    (max_atoms : Z) (parse : string -> result S)
    (to_tuple : S -> structure_tuple) (overlapping : S -> bool)
    (filecontent fileformat : string) : result (structure_tuple * S) :=
  if String.eqb fileformat "cif" then
    match parse filecontent with
    | Raise e => Raise e
    | Ok s =>
        let n := Z.of_nat (List.length (st_scaled_coords (to_tuple s))) in
        if (max_atoms <? n)%Z then Raise (Exc LargeStructureError (str_int n))
        else if overlapping s then Raise (Exc OverlapError "")
        else Ok (to_tuple s, s)
    end
  else Raise (Exc UnknownFormatError fileformat).

(** ** Concrete collaborators for the examples *)

(** [ase.data.chemical_symbols]. *)
Definition ase_chemical_symbols : list string :=
  [ "X"; "H"; "He"; "Li"; "Be"; "B"; "C"; "N"; "O"; "F"; "Ne";
    "Na"; "Mg"; "Al"; "Si"; "P"; "S"; "Cl"; "Ar"; "K"; "Ca";
    "Sc"; "Ti"; "V"; "Cr"; "Mn"; "Fe"; "Co"; "Ni"; "Cu"; "Zn";
    "Ga"; "Ge"; "As"; "Se"; "Br"; "Kr"; "Rb"; "Sr"; "Y"; "Zr";
    "Nb"; "Mo"; "Tc"; "Ru"; "Rh"; "Pd"; "Ag"; "Cd"; "In"; "Sn";
    "Sb"; "Te"; "I"; "Xe"; "Cs"; "Ba"; "La"; "Ce"; "Pr"; "Nd";
    "Pm"; "Sm"; "Eu"; "Gd"; "Tb"; "Dy"; "Ho"; "Er"; "Tm"; "Yb";
    "Lu"; "Hf"; "Ta"; "W"; "Re"; "Os"; "Ir"; "Pt"; "Au"; "Hg";
    "Tl"; "Pb"; "Bi"; "Po"; "At"; "Rn"; "Fr"; "Ra"; "Ac"; "Th";
    "Pa"; "U"; "Np"; "Pu"; "Am"; "Cm"; "Bk"; "Cf"; "Es"; "Fm";
    "Md"; "No"; "Lr"; "Rf"; "Db"; "Sg"; "Bh"; "Hs"; "Mt"; "Ds";
    "Rg"; "Cn"; "Nh"; "Fl"; "Mc"; "Lv"; "Ts"; "Og" ].

(** The behaviour of the collaborators in one scenario: what the parser makes
    of each input, how each stage answers, what decoding an upload gives.
    Opaque objects are named by strings, a structure is its tuple. *)
Record scenario : Type := Scenario {
  sc_max_atoms : Z;
  sc_parse : string -> result structure_tuple;
  sc_overlapping : structure_tuple -> bool;
  sc_primitive : structure_tuple -> result structure_tuple;
  sc_cif_file : string -> result structure_tuple;
  sc_pickle : string -> result (list (string * string));
  sc_featurize : structure_tuple -> result (string * string * string * string);
  sc_predictions : result (string * string * string);
  sc_explanations : result string;
  sc_decode : string -> result string
}.

Definition scenario_world (sc : scenario) : World := {|
  pyobj := string;
  Structure := structure_tuple;
  THIS_DIR := "/app";
  MAX_NUMBER_OF_ATOMS := sc_max_atoms sc;
  MODEL_VERSION := "model";
  DEFAULT_APPROXIMATE := "approximate";
  chemical_symbols := ase_chemical_symbols;
  get_structure_tuple :=
    validated_structure_tuple (sc_max_atoms sc) (sc_parse sc) (fun s => s)
                              (sc_overlapping sc);
  tuple_from_pymatgen := fun s => s;
  get_primitive_structure := sc_primitive sc;
  CifParser_get_structures_0 := sc_cif_file sc;
  load_pickle := sc_pickle sc;
  _featurize_single := sc_featurize sc;
  dict_keys := fun d => "keys(" ++ d ++ ")";
  array_shape := fun a => "shape(" ++ a ++ ")";
  predictions := fun _ _ => sc_predictions sc;
  get_explanations := fun _ _ _ _ _ => sc_explanations sc;
  json_dumps := fun _ => "{ }";
  jinja2_escape := fun text => text;
  shortest_repr := fun _ => "?";
  decode_utf8 := sc_decode sc
|}.

(** Lattice diag(1,1,1), one iron atom at the origin. *)
Definition fe_cubic : structure_tuple :=
  StructureTuple
    (Lattice (V3 1 0 0) (V3 0 1 0) (V3 0 0 1))
    [V3 0 0 0]
    [26%Z].

Definition stored_payload : list (string * string) :=
  [ ("feature_array", "feature_array");
    ("feature_value_dict", "feature_value_dict");
    ("metal_indices", "metal_indices");
    ("feature_names", "feature_names");
    ("metal_sites", "metal_sites");
    ("predictions_output", "predictions_output");
    ("prediction_labels", "prediction_labels");
    ("featurization_output", "featurization_output") ].

(** Every stage succeeds on the iron cell, which is its own primitive cell.
    The uploads of the scenarios are ASCII text, which decodes to itself. *)
Definition fe_scenario : scenario := {|
  sc_max_atoms := 500;
  sc_parse := fun _ => Ok fe_cubic;
  sc_overlapping := fun _ => false;
  sc_primitive := fun s => Ok s;
  sc_cif_file := fun _ => Ok fe_cubic;
  sc_pickle := fun _ => Ok stored_payload;
  sc_featurize := fun _ =>
    Ok ("feature_array", "feature_value_dict", "metal_indices", "feature_names");
  sc_predictions := Ok ("predictions_output", "prediction_labels", "class_idx");
  sc_explanations := Ok "featurization_output";
  sc_decode := fun upload => Ok upload
|}.

Definition post_request (sc : scenario) : @flask_request (scenario_world sc) :=
  @Request (scenario_world sc) "POST" [] "form" [("structurefile", "data_fe")].

Definition get_request (sc : scenario) : @flask_request (scenario_world sc) :=
  @Request (scenario_world sc) "GET" [] "form" [].

(** The primitive cell [get_json_for_visualizer] returns for the iron cell. *)
Definition fe_path_results : path_results :=
  PathResults (st_scaled_coords fe_cubic) (st_cell fe_cubic)
              (st_atomic_numbers fe_cubic).

(** One atom a hair below the origin: the first coordinate is [-2^-60]. *)
Definition fe_below_origin : structure_tuple :=
  StructureTuple
    (Lattice (V3 1 0 0) (V3 0 1 0) (V3 0 0 1))
    [V3 (-0x1p-60) 0 0]
    [26%Z].

Definition below_origin : scenario := {|
  sc_max_atoms := 500;
  sc_parse := fun _ => Ok fe_below_origin;
  sc_overlapping := fun _ => false;
  sc_primitive := fun s => Ok s;
  sc_cif_file := fun _ => Ok fe_below_origin;
  sc_pickle := fun _ => Ok stored_payload;
  sc_featurize := fun _ =>
    Ok ("feature_array", "feature_value_dict", "metal_indices", "feature_names");
  sc_predictions := Ok ("predictions_output", "prediction_labels", "class_idx");
  sc_explanations := Ok "featurization_output";
  sc_decode := sc_decode fe_scenario
|}.

Definition three_atoms : structure_tuple :=
  StructureTuple
    (Lattice (V3 4 0 0) (V3 0 4 0) (V3 0 0 4))
    [V3 0 0 0; V3 0.5 0.5 0; V3 0.25 0 0.75]
    [26%Z; 8%Z; 8%Z].

(** The ceiling is two atoms and the input holds three. *)
Definition large_scenario : scenario := {|
  sc_max_atoms := 2;
  sc_parse := fun _ => Ok three_atoms;
  sc_overlapping := fun _ => false;
  sc_primitive := fun s => Ok s;
  sc_cif_file := fun _ => Ok three_atoms;
  sc_pickle := fun _ => Ok stored_payload;
  sc_featurize := sc_featurize fe_scenario;
  sc_predictions := sc_predictions fe_scenario;
  sc_explanations := sc_explanations fe_scenario;
  sc_decode := sc_decode fe_scenario
|}.

Definition with_predictions (r : result (string * string * string))
    (e : result string) : scenario := {|
  sc_max_atoms := sc_max_atoms fe_scenario;
  sc_parse := sc_parse fe_scenario;
  sc_overlapping := sc_overlapping fe_scenario;
  sc_primitive := sc_primitive fe_scenario;
  sc_cif_file := sc_cif_file fe_scenario;
  sc_pickle := sc_pickle fe_scenario;
  sc_featurize := sc_featurize fe_scenario;
  sc_predictions := r;
  sc_explanations := e;
  sc_decode := sc_decode fe_scenario
|}.

(** The model rejects the feature array. *)
Definition prediction_fails : scenario :=
  with_predictions (Raise (Exc ValueError "bad features"))
                   (sc_explanations fe_scenario).

(** The explainer fails after a successful prediction. *)
Definition explanation_fails : scenario :=
  with_predictions (sc_predictions fe_scenario)
                   (Raise (Exc ValueError "no explainer")).

(** The prediction code trips over an unbound local of its own. *)
Definition prediction_unbound : scenario :=
  with_predictions (Raise (unbound_local "prediction")) (sc_explanations fe_scenario).

Definition featurization_fails : scenario := {|
  sc_max_atoms := sc_max_atoms fe_scenario;
  sc_parse := sc_parse fe_scenario;
  sc_overlapping := sc_overlapping fe_scenario;
  sc_primitive := sc_primitive fe_scenario;
  sc_cif_file := sc_cif_file fe_scenario;
  sc_pickle := sc_pickle fe_scenario;
  sc_featurize := fun _ => Raise (Exc ValueError "no metal site");
  sc_predictions := sc_predictions fe_scenario;
  sc_explanations := sc_explanations fe_scenario;
  sc_decode := sc_decode fe_scenario
|}.

(** The symmetry search of the primitive reduction fails. *)
Definition primitive_fails : scenario := {|
  sc_max_atoms := sc_max_atoms fe_scenario;
  sc_parse := sc_parse fe_scenario;
  sc_overlapping := sc_overlapping fe_scenario;
  sc_primitive := fun _ => Raise (Exc ValueError "no primitive cell");
  sc_cif_file := sc_cif_file fe_scenario;
  sc_pickle := sc_pickle fe_scenario;
  sc_featurize := sc_featurize fe_scenario;
  sc_predictions := sc_predictions fe_scenario;
  sc_explanations := sc_explanations fe_scenario;
  sc_decode := sc_decode fe_scenario
|}.

Definition with_record (cif : string -> result structure_tuple)
    (pickle : string -> result (list (string * string))) : scenario := {|
  sc_max_atoms := sc_max_atoms fe_scenario;
  sc_parse := sc_parse fe_scenario;
  sc_overlapping := sc_overlapping fe_scenario;
  sc_primitive := sc_primitive fe_scenario;
  sc_cif_file := cif;
  sc_pickle := pickle;
  sc_featurize := sc_featurize fe_scenario;
  sc_predictions := sc_predictions fe_scenario;
  sc_explanations := sc_explanations fe_scenario;
  sc_decode := sc_decode fe_scenario
|}.

(** The structure file of the record holds no structure. *)
Definition unreadable_cif : scenario :=
  with_record (fun _ => Raise (Exc ValueError "Invalid cif file with no structures!"))
              (sc_pickle fe_scenario).

(** What [open] raises for a file that is not there. *)
Definition file_not_found (path : string) : exc :=
  Exc (OtherError "FileNotFoundError")
      ("[Errno 2] No such file or directory: '" ++ path ++ "'").

(** The structure file is there, the pickle is not. *)
Definition missing_pickle : scenario :=
  with_record (sc_cif_file fe_scenario) (fun path => Raise (file_not_found path)).

(** The structure file of the record is not there. *)
Definition missing_cif : scenario :=
  with_record (fun path => Raise (file_not_found path)) (sc_pickle fe_scenario).

(** ** Statements about the stages, used by the theorems below *)

Section Statements.

Context {W : World}.

Definition structures_path (name : string) : string :=
  THIS_DIR ++ "/compute/precomputed/structures/" ++ name ++ ".cif".

Definition precomputed_path (name : string) : string :=
  THIS_DIR ++ "/compute/precomputed/precomputed/" ++ name ++ ".pkl".

Definition payload_keys : list string :=
  [ "feature_array"; "feature_value_dict"; "metal_indices"; "feature_names";
    "metal_sites"; "predictions_output"; "prediction_labels";
    "featurization_output" ].

(** The reads of the second [try] of [process_precomputed_core], without the
    bindings: the pickle, then its eight keys in order. *)
Definition read_payload (name : string) : result (list pyobj) :=
  match load_pickle (precomputed_path name) with
  | Raise e => Raise e
  | Ok d => list_comprehension (dict_getitem d) payload_keys
  end.

(** The prediction stage raises [e]: in [predictions], or in
    [get_explanations] after [predictions] returned. *)
Definition prediction_stage_raises (feature_array feature_value_dict feature_names : pyobj)
    (e : exc) : Prop :=
  predictions feature_array (dict_keys feature_value_dict) = Raise e
  \/ exists predictions_output prediction_labels class_idx,
       predictions feature_array (dict_keys feature_value_dict)
         = Ok (predictions_output, prediction_labels, class_idx)
       /\ get_explanations feature_array prediction_labels class_idx
                           feature_names DEFAULT_APPROXIMATE = Raise e.

(** The two messages of [process_precomputed_core]. *)
Definition structure_load_message (e : exc) : string :=
  "I tried my best, but I wasn't able to load your file in format 'cif'... because of "
    ++ exc_str e.

Definition payload_load_message (name : string) (e : exc) : string :=
  "I tried my best, but I wasn't able to load your result for '" ++ name
    ++ "'... because of " ++ exc_str e.

(** The lines of the crystal block and the dictionary a successful
    [process_structure_core] returns, from the values of its stages. *)
Definition xsf_lines (pr : path_results) (refolded : list vec3) : list string :=
  (["CRYSTAL"; "PRIMVEC";
    format_vector (row1 (primitive_lattice pr));
    format_vector (row2 (primitive_lattice pr));
    format_vector (row3 (primitive_lattice pr));
    "PRIMCOORD";
    (str_int (Z.of_nat (List.length (primitive_positions pr))) ++ " 1")%string]
   ++ map (fun np => format_atom (fst np) (snd np))
          (combine (primitive_types pr) refolded))%list.

Definition output_bundle (t : structure_tuple) (pr : path_results)
    (cart pcart refolded : list vec3) (psym isym : list string)
    (pl mi po fo fvd : pyobj) : list (string * value) :=
  [ ("raw_code",
     VStr (str_replace " " "&nbsp;"
             (str_replace (ascii_of_nat 10) "<br>"
                (jinja2_escape
                   (json_dumps
                      (RawCodeDict (primitive_positions pr) (primitive_lattice pr)
                                   (primitive_types pr) pcart psym))))));
    ("prediction_labels", VObj pl);
    ("metal_indices", VObj mi);
    ("predictions_output", VObj po);
    ("featurization_output", VObj fo);
    ("inputstructure_cell_vectors",
     VVectors (vector_table (lattice_rows (st_cell t))));
    ("inputstructure_atoms_scaled", VAtoms (atom_table isym (st_scaled_coords t)));
    ("inputstructure_atoms_cartesian", VAtoms (atom_table isym cart));
    ("atoms_scaled", VAtoms (atom_table psym (primitive_positions pr)));
    ("direct_vectors",
     VVectors (vector_table (lattice_rows (primitive_lattice pr))));
    ("atoms_cartesian", VAtoms (atom_table psym pcart));
    ("compute_time", VTime);
    ("model_version", VStr MODEL_VERSION);
    ("xsfstructure", VStr (String.concat newline (xsf_lines pr refolded)));
    ("feature_values", VObj fvd) ].

Definition crystal_header (pr : path_results) : list string :=
  ["CRYSTAL"; "PRIMVEC";
   format_vector (row1 (primitive_lattice pr));
   format_vector (row2 (primitive_lattice pr));
   format_vector (row3 (primitive_lattice pr));
   "PRIMCOORD";
   (str_int (Z.of_nat (List.length (primitive_positions pr))) ++ " 1")%string].

(** The computation never assigns [name]. *)
Definition preserves {A : Type} (name : string) (m : M A) : Prop :=
  forall st r st', m st = (r, st') ->
    lookup_var name (vars st') = lookup_var name (vars st).

End Statements.

(** ** [process_example_structure] *)

Section ExampleView.

Context {W : World}.
Local Open Scope py_scope.

(** [posixpath.join(a, *p)]: a component that starts with a slash discards
    what precedes it; a separator is added unless the path so far is empty or
    ends with one. *)
Definition os_path_join (a : string) (p : list string) : string :=
  fold_left
    (fun path b =>
       if String.prefix "/" b then b
       else if String.eqb path "" || str_ends_with "/" path then path ++ b
       else path ++ "/" ++ b)
    p a.

(** [form.get(key, default)] on the submitted fields. *)
Definition form_get (fields : list (string * string)) (key default : string) : string :=
  match dict_getitem fields key with
  | Ok v => v
  | Raise _ => default
  end.

(** Lines 626-661.  [EXAMPLEMAPPING] comes from [conf], [open_read path] is
    [open(path, 'r').read()] and [fields] holds the fields of
    [flask.request.form].  The lookup of the example and the read of its file
    stand before the [try]. *)
Definition process_example_structure
    (EXAMPLEMAPPING : list (string * string)) (open_read : string -> result string)
    (fields : list (string * string)) (request : flask_request) : M response :=
  if String.eqb (method request) "POST" then
    let examplestructure := form_get fields "examplestructure" "<none>" in
    example <- call (dict_getitem EXAMPLEMAPPING examplestructure) ;;
    let structurefilepath := os_path_join THIS_DIR ["compute"; "examples"; example] in
    filecontent <- call (open_read structurefilepath) ;;
    try_except
      (data_for_template <-
         invoke (process_structure_core filecontent "cif"
                                        "process_structure" request) ;;
       ret (Render (get_visualizer_template request) data_for_template))
      structure_view_handler
  else ret (Redirect "input_structure").

(** The request that uploads the bytes [upload] as the structure file. *)
Definition with_upload (request : flask_request) (upload : string)
  : flask_request :=
  @Request W (method request) (environ request) (form request)
             [("structurefile", upload)].

End ExampleView.

(** ** What the pipelines write and return *)

(** [c in s] for one character. *)
Fixpoint has_char (c : ascii) (s : string) : bool :=
  match s with
  | EmptyString => false
  | String a rest => Ascii.eqb a c || has_char c rest
  end.

(** The keyword arguments of the final [dict(...)], in order. *)
Definition output_keys : list string :=
  [ "raw_code"; "prediction_labels"; "metal_indices"; "predictions_output";
    "featurization_output"; "inputstructure_cell_vectors";
    "inputstructure_atoms_scaled"; "inputstructure_atoms_cartesian";
    "atoms_scaled"; "direct_vectors"; "atoms_cartesian"; "compute_time";
    "model_version"; "xsfstructure"; "feature_values" ].

(** The keys whose values depend on the structure alone. *)
Definition assembly_keys : list string :=
  [ "raw_code"; "inputstructure_cell_vectors"; "inputstructure_atoms_scaled";
    "inputstructure_atoms_cartesian"; "atoms_scaled"; "direct_vectors";
    "atoms_cartesian"; "model_version"; "xsfstructure" ].

Section Traces.

Context {W : World}.

(** The debug lines of [process_precomputed_core] up to the assembly. *)
Definition precomputed_trace (name : string) : list event :=
  [Debug ("dealing with " ++ name);
   Debug "building path";
   Debug ("structurefilepath is " ++ structures_path name);
   Debug "read pymatgen structure";
   Debug "generated structure tuple";
   Debug "Successfully read structure in {}";
   Debug "reading pickle";
   Debug "Successfully read pickle with precomputed results"].

(** The debug lines of a [process_structure_core] that reaches the assembly. *)
Definition structure_trace : list event :=
  [Debug "Successfully read structure in {}";
   Debug "Featurization completed in {}";
   Debug "Prediction done in {}"].

(** Every event the computation adds to the trace satisfies [P]. *)
Definition emits {A : Type} (P : event -> Prop) (m : M A) : Prop :=
  forall st r st', m st = (r, st') ->
    exists evs, trace st' = (trace st ++ evs)%list /\ Forall P evs.

Definition is_debug (ev : event) : Prop :=
  match ev with Debug _ => True | _ => False end.

Definition not_flash (ev : event) : Prop :=
  match ev with Flash _ => False | _ => True end.

(** The number of messages flashed to the user. *)
Definition count_flash (tr : list event) : nat :=
  List.length (filter (fun ev => match ev with Flash _ => true | _ => false end) tr).

(** The atomic number indexes [chemical_symbols], from either end. *)
Definition indexes_symbols (z : Z) : Prop :=
  (- Z.of_nat (List.length chemical_symbols) <= z
   < Z.of_nat (List.length chemical_symbols))%Z.



Definition debug_or_flash (ev : event) : Prop :=
  match ev with Debug _ | Flash _ => True | _ => False end.

End Traces.




(** The upload is the single byte 0xff, which is not UTF-8. *)
Definition undecodable : scenario := {|
  sc_max_atoms := sc_max_atoms fe_scenario;
  sc_parse := sc_parse fe_scenario;
  sc_overlapping := sc_overlapping fe_scenario;
  sc_primitive := sc_primitive fe_scenario;
  sc_cif_file := sc_cif_file fe_scenario;
  sc_pickle := sc_pickle fe_scenario;
  sc_featurize := sc_featurize fe_scenario;
  sc_predictions := sc_predictions fe_scenario;
  sc_explanations := sc_explanations fe_scenario;
  sc_decode := fun _ =>
    Raise (Exc (OtherError "UnicodeDecodeError")
               ("'utf-8' codec can't decode byte 0xff in position 0: "
                  ++ "invalid start byte"))
|}.

Definition undecodable_request : @flask_request (scenario_world undecodable) :=
  @Request (scenario_world undecodable) "POST" [] "form"
           [("structurefile", String (ascii_of_nat 255) EmptyString)].

(** The parser is interrupted from the keyboard. *)
Definition interrupted : scenario := {|
  sc_max_atoms := sc_max_atoms fe_scenario;
  sc_parse := fun _ => Raise (Exc KeyboardInterrupt "");
  sc_overlapping := sc_overlapping fe_scenario;
  sc_primitive := sc_primitive fe_scenario;
  sc_cif_file := sc_cif_file fe_scenario;
  sc_pickle := sc_pickle fe_scenario;
  sc_featurize := sc_featurize fe_scenario;
  sc_predictions := sc_predictions fe_scenario;
  sc_explanations := sc_explanations fe_scenario;
  sc_decode := sc_decode fe_scenario
|}.

(** ** [setup.py]: the version of the package

    Strings are sequences of code points below 256. *)

Definition dquote : ascii := ascii_of_nat 34.

(** [c.isspace()]. *)
Definition is_space (c : ascii) : bool :=
  let n := nat_of_ascii c in
  ((9 <=? n) && (n <=? 13) || (28 <=? n) && (n <=? 32)
   || (n =? 133) || (n =? 160))%nat.

(** [s.lstrip()], [s.rstrip()] and [s.strip()]. *)
Fixpoint lstrip (s : string) : string :=
  match s with
  | EmptyString => EmptyString
  | String c rest => if is_space c then lstrip rest else s
  end.

Fixpoint rstrip (s : string) : string :=
  match s with
  | EmptyString => EmptyString
  | String c rest =>
      match rstrip rest with
      | EmptyString => if is_space c then EmptyString else String c EmptyString
      | kept => String c kept
      end
  end.

Definition strip (s : string) : string := lstrip (rstrip s).

(** [s.partition(sep)] for a one-character separator. *)
Fixpoint partition (sep : ascii) (s : string) : string * string * string :=
  match s with
  | EmptyString => (EmptyString, EmptyString, EmptyString)
  | String c rest =>
      if Ascii.eqb c sep then (EmptyString, String sep EmptyString, rest)
      else let '(before, found, after) := partition sep rest in
           (String c before, found, after)
  end.

(** Lines 15-27 of [setup.py], on the lines [init.readlines()] returns. *)
Definition detect_version (lines : list string) : result string :=
  let versionlines :=
    map (fun l => fst (fst (partition "#" l)))
        (filter (String.prefix "__version__") lines) in
  match versionlines with
  | [versionline] =>
      Ok (strip (str_replace dquote "" (snd (partition "=" versionline))))
  | _ => Raise (Exc ValueError "Unable to detect the version lines")
  end.

(** The line that declares version [v] in an [__init__.py]. *)
Definition version_line (v : string) : string :=
  "__version__ = " ++ String dquote v ++ String dquote newline.

(** * Properties *)

(** ** binary64: the residue of [% 1.0] *)

Section Binary64.
Local Open Scope Z_scope.

(** [digits2_pos] counts bits as [Pos.size] does. *)
Lemma digits2_size p : digits2_pos p = Pos.size p.
Proof. induction p; cbn; congruence. Qed.

Lemma digits2_bounds p :
  2 ^ (Z.pos (digits2_pos p) - 1) <= Z.pos p < 2 ^ Z.pos (digits2_pos p).
Proof.
  rewrite digits2_size. split.
  - pose proof (Pos.size_le p) as H.
    assert (E : 2 ^ Z.pos (Pos.size p) <= 2 * Z.pos p).
    { rewrite <- Pos2Z.inj_pow. change (2 * Z.pos p) with (Z.pos p~0).
      apply Pos2Z.pos_le_pos. exact H. }
    replace (Z.pos (Pos.size p)) with (Z.pos (Pos.size p) - 1 + 1) in E by lia.
    rewrite Z.pow_add_r in E by lia. lia.
  - pose proof (Pos.size_gt p) as H.
    rewrite <- Pos2Z.inj_pow. apply Pos2Z.pos_lt_pos. exact H.
Qed.

(** The number of bits of a positive number is fixed by its bracket of powers
    of two. *)
Lemma digits2_unique p d :
  2 ^ (d - 1) <= Z.pos p < 2 ^ d -> Z.pos (digits2_pos p) = d.
Proof.
  intros [H1 H2]. pose proof (digits2_bounds p) as [B1 B2].
  assert (0 < d).
  { destruct (Z.ltb_spec 0 d); [assumption|].
    exfalso. assert (2 ^ d <= 1).
    { destruct (Z.eq_dec d 0) as [->|]; [cbn; lia|].
      rewrite Z.pow_neg_r by lia. lia. }
    lia. }
  destruct (Z.lt_trichotomy (Z.pos (digits2_pos p)) d) as [L|[E|G]]; [|exact E|].
  - exfalso. assert (2 ^ Z.pos (digits2_pos p) <= 2 ^ (d - 1))
      by (apply Z.pow_le_mono_r; lia). lia.
  - exfalso. assert (2 ^ d <= 2 ^ (Z.pos (digits2_pos p) - 1))
      by (apply Z.pow_le_mono_r; lia). lia.
Qed.

Lemma iter_xO m d : Z.pos (Pos.iter xO m d) = Z.pos m * 2 ^ Z.pos d.
Proof.
  induction d using Pos.peano_ind.
  - cbn. lia.
  - rewrite Pos.iter_succ, Pos2Z.inj_succ, Z.pow_succ_r by lia.
    change (Z.pos (Pos.iter xO m d)~0) with (2 * Z.pos (Pos.iter xO m d)). lia.
Qed.

Lemma shr_1_m mrs : 0 <= shr_m mrs -> shr_m (shr_1 mrs) = shr_m mrs / 2.
Proof.
  destruct mrs as [m r s]. cbn [shr_m]. intros H.
  destruct m as [|p|p]; [reflexivity| |lia].
  destruct p; cbn [shr_1 shr_m].
  - rewrite Pos2Z.inj_xI. apply Z.div_unique with 1; lia.
  - rewrite Pos2Z.inj_xO. apply Z.div_unique with 0; lia.
  - reflexivity.
Qed.

Lemma pow2_xI n : 2 ^ Z.pos n~1 = 2 * 2 ^ Z.pos n * 2 ^ Z.pos n.
Proof.
  assert (E : Z.pos n~1 = 1 + Z.pos n + Z.pos n) by lia.
  rewrite E, !Z.pow_add_r by lia. reflexivity.
Qed.

Lemma pow2_xO n : 2 ^ Z.pos n~0 = 2 ^ Z.pos n * 2 ^ Z.pos n.
Proof.
  assert (E : Z.pos n~0 = Z.pos n + Z.pos n) by lia.
  rewrite E, !Z.pow_add_r by lia. reflexivity.
Qed.

Lemma iter_shr_1_m n : forall mrs,
  0 <= shr_m mrs ->
  shr_m (iter_pos shr_1 n mrs) = shr_m mrs / 2 ^ Z.pos n.
Proof.
  assert (P : forall k, 0 < 2 ^ Z.pos k) by (intros; apply Z.pow_pos_nonneg; lia).
  induction n as [n IH|n IH|]; intros mrs H; cbn [iter_pos].
  - assert (H1 : 0 <= shr_m (shr_1 mrs))
      by (rewrite shr_1_m by assumption; apply Z.div_pos; lia).
    assert (H2 : 0 <= shr_m (iter_pos shr_1 n (shr_1 mrs)))
      by (rewrite IH by assumption; apply Z.div_pos; [assumption | apply P]).
    rewrite IH, IH, shr_1_m by assumption.
    pose proof (P n). rewrite !Z.div_div by lia.
    rewrite pow2_xI. f_equal. lia.
  - assert (H2 : 0 <= shr_m (iter_pos shr_1 n mrs))
      by (rewrite IH by assumption; apply Z.div_pos; [assumption | apply P]).
    rewrite IH, IH by assumption.
    pose proof (P n). rewrite !Z.div_div by lia.
    rewrite pow2_xO. f_equal.
  - rewrite shr_1_m by assumption. reflexivity.
Qed.

Lemma fexp64 e : fexp prec emax e = Z.max (e - 53) (-1074).
Proof. reflexivity. Qed.

Lemma round_nearest_even_bounds m l :
  m <= round_nearest_even m l <= m + 1.
Proof.
  destruct l as [|[]]; cbn; try lia. destruct (Z.even m); lia.
Qed.

(** Shifting right by [n] bits. *)
Lemma shr_spec m e n :
  0 <= m ->
  exists mrs,
    shr (Build_shr_record m false false) e n = (mrs, if 0 <? n then e + n else e)
    /\ shr_m mrs = if 0 <? n then m / 2 ^ n else m.
Proof.
  intros Hm. destruct n as [|p|p]; cbn [shr Z.ltb Z.compare].
  - eexists. split; reflexivity.
  - eexists. split; [reflexivity|]. rewrite iter_shr_1_m by assumption. reflexivity.
  - eexists. split; reflexivity.
Qed.

Lemma binary_round_aux_le_one m e :
  0 <= fexp prec emax (Z.pos (digits2_pos m) + e) - e ->
  Z.pos m < 2 ^ (- e) ->
  -1074 <= e <= -53 ->
  exists m' e',
    binary_round_aux prec emax false (Z.pos m) e loc_Exact = S754_finite false m' e'
    /\ (e' < -52 \/ (e' = -52 /\ m' = two52)).
Proof.
  intros Hn Hlt He.
  pose proof (digits2_bounds m) as [D1 D2].
  set (d := Z.pos (digits2_pos m)) in *.
  assert (Hd : d <= - e).
  { destruct (Z.le_gt_cases d (- e)); [assumption|exfalso].
    assert (2 ^ (- e) <= 2 ^ (d - 1)) by (apply Z.pow_le_mono_r; lia). lia. }
  unfold binary_round_aux, shr_fexp. cbn [Zdigits2 shr_record_of_loc]. fold d.
  rewrite fexp64 in *.
  destruct (Z.eq_dec (Z.max (d + e - 53) (-1074) - e) 0) as [E0|E0].
  - (* nothing to shift: the input is already on the grid *)
    rewrite E0. cbn [shr loc_of_shr_record shr_m round_nearest_even Zdigits2].
    fold d. rewrite fexp64, E0. cbn [shr shr_m].
    destruct (Z.leb_spec e (emax - prec)) as [_|L]; [|change (emax - prec) with 971 in L; lia].
    exists m, e. split; [reflexivity | left; lia].
  - (* d > 53: the mantissa loses d - 53 bits *)
    assert (Hd53 : 53 < d) by lia.
    assert (En : Z.max (d + e - 53) (-1074) - e = d - 53) by lia.
    rewrite En.
    destruct (shr_spec (Z.pos m) e (d - 53) ltac:(lia)) as (mrs & -> & Hm1).
    destruct (Z.ltb_spec 0 (d - 53)) as [_|]; [|lia].
    set (m1 := shr_m mrs) in *.
    assert (B1 : 2 ^ 52 <= m1 < 2 ^ 53).
    { rewrite Hm1. split.
      - apply Z.div_le_lower_bound; [apply Z.pow_pos_nonneg; lia|].
        rewrite <- Z.pow_add_r by lia. replace (d - 53 + 52) with (d - 1) by lia. lia.
      - apply Z.div_lt_upper_bound; [apply Z.pow_pos_nonneg; lia|].
        rewrite <- Z.pow_add_r by lia. replace (d - 53 + 53) with d by lia. lia. }
    pose proof (round_nearest_even_bounds m1 (loc_of_shr_record mrs)) as B2.
    set (m2 := round_nearest_even m1 (loc_of_shr_record mrs)) in *.
    destruct m2 as [|p2|p2] eqn:Ep2; [lia| |lia].
    cbn [Zdigits2 shr_record_of_loc].
    destruct (Z.eq_dec (Z.pos p2) (2 ^ 53)) as [Top|NTop].
    + (* the rounding carried into the next binade *)
      assert (Ed : Z.pos (digits2_pos p2) = 54)
        by (apply digits2_unique; rewrite Top; cbn; lia).
      rewrite Ed, fexp64.
      replace (Z.max (54 + (e + (d - 53)) - 53) (-1074) - (e + (d - 53))) with 1 by lia.
      assert (Ep : p2 = 9007199254740992%positive) by (cbn in Top; lia).
      subst p2. cbn [shr iter_pos shr_1 shr_m].
      destruct (Z.leb_spec (e + (d - 53) + 1) (emax - prec)) as [_|L]; [|change (emax - prec) with 971 in L; lia].
      exists two52, (e + (d - 53) + 1). split; [reflexivity|]. lia.
    + assert (Ed : Z.pos (digits2_pos p2) = 53)
        by (apply digits2_unique; cbn; lia).
      rewrite Ed, fexp64.
      replace (Z.max (53 + (e + (d - 53)) - 53) (-1074) - (e + (d - 53))) with 0 by lia.
      cbn [shr shr_m].
      destruct (Z.leb_spec (e + (d - 53)) (emax - prec)) as [_|L]; [|change (emax - prec) with 971 in L; lia].
      exists p2, (e + (d - 53)). split; [reflexivity|]. lia.
Qed.

Lemma shl_align_spec m e e' :
  exists m1 e1,
    shl_align m e e' = (m1, e1)
    /\ e1 = Z.min e e'
    /\ Z.pos m1 = Z.pos m * 2 ^ (e - e1).
Proof.
  unfold shl_align. destruct (e' - e) as [|p|p] eqn:E.
  - exists m, e. repeat split; [lia | rewrite Z.sub_diag; cbn; lia].
  - exists m, e. repeat split; [lia | rewrite Z.sub_diag; cbn; lia].
  - eexists. eexists. split; [reflexivity|]. split; [lia|].
    rewrite iter_xO. replace (e - e') with (Z.pos p) by lia. reflexivity.
Qed.

Lemma digits2_shift m k :
  0 <= k ->
  forall p, Z.pos p = Z.pos m * 2 ^ k ->
  Z.pos (digits2_pos p) = Z.pos (digits2_pos m) + k.
Proof.
  intros Hk p Hp. pose proof (digits2_bounds m) as [B1 B2].
  assert (0 < 2 ^ k) by (apply Z.pow_pos_nonneg; lia).
  apply digits2_unique. rewrite Hp. split.
  - replace (Z.pos (digits2_pos m) + k - 1) with (Z.pos (digits2_pos m) - 1 + k) by lia.
    rewrite Z.pow_add_r by lia. apply Z.mul_le_mono_nonneg_r; lia.
  - rewrite Z.pow_add_r by lia. apply Z.mul_lt_mono_pos_r; lia.
Qed.

Lemma digits2_le_of_lt m k : 0 <= k -> Z.pos m < 2 ^ k -> Z.pos (digits2_pos m) <= k.
Proof.
  intros Hk H. pose proof (digits2_bounds m) as [B1 _].
  destruct (Z.le_gt_cases (Z.pos (digits2_pos m)) k); [assumption|exfalso].
  assert (2 ^ k <= 2 ^ (Z.pos (digits2_pos m) - 1)) by (apply Z.pow_le_mono_r; lia).
  lia.
Qed.

Lemma binary_round_le_one q e :
  Z.pos q < 2 ^ (- e) ->
  -1074 <= e <= -53 ->
  exists m' e',
    binary_round prec emax false q e = S754_finite false m' e'
    /\ (e' < -52 \/ (e' = -52 /\ m' = two52)).
Proof.
  intros Hlt He. unfold binary_round.
  pose proof (digits2_le_of_lt q (- e) ltac:(lia) Hlt) as Hd.
  destruct (shl_align_spec q e (fexp prec emax (Z.pos (digits2_pos q) + e)))
    as (m1 & e1 & -> & He1 & Hm1).
  rewrite fexp64 in He1.
  assert (Hk : 0 <= e - e1) by lia.
  pose proof (digits2_shift q (e - e1) Hk m1 Hm1) as Hd1.
  apply binary_round_aux_le_one.
  - rewrite fexp64, Hd1. lia.
  - rewrite Hm1. replace (- e1) with (- e + (e - e1)) by lia.
    rewrite Z.pow_add_r by lia.
    apply Z.mul_lt_mono_pos_r; [apply Z.pow_pos_nonneg; lia | assumption].
  - lia.
Qed.

(** The residue [r * 2^e] of a binary64, on the grid. *)
Lemma aligned_spec s r e :
  Z.pos r < 2 ^ (- e) ->
  Z.pos (digits2_pos r) <= 53 ->
  -1074 <= e < 0 ->
  exists m' e',
    aligned s r e = S754_finite s m' e'
    /\ valid_binary (S754_finite s m' e') = true
    /\ Z.pos m' < 2 ^ (- e')
    /\ -1074 <= e' <= -53.
Proof.
  intros Hlt Hd He. unfold aligned.
  pose proof (digits2_le_of_lt r (- e) ltac:(lia) Hlt) as Hd'.
  destruct (shl_align_spec r e (fexp prec emax (Z.pos (digits2_pos r) + e)))
    as (m1 & e1 & -> & He1 & Hm1).
  rewrite fexp64 in He1.
  assert (Hk : 0 <= e - e1) by lia.
  pose proof (digits2_shift r (e - e1) Hk m1 Hm1) as Hd1.
  exists m1, e1. split; [reflexivity|]. split; [|split].
  - unfold valid_binary. cbn [SpecFloat.valid_binary]. unfold bounded, canonical_mantissa.
    rewrite fexp64, Hd1. apply andb_true_intro. split.
    + apply Z.eqb_eq. lia.
    + apply Z.leb_le. change (emax - prec) with 971. lia.
  - rewrite Hm1. replace (- e1) with (- e + (e - e1)) by lia.
    rewrite Z.pow_add_r by lia.
    apply Z.mul_lt_mono_pos_r; [apply Z.pow_pos_nonneg; lia | assumption].
  - lia.
Qed.

(** A finite binary64 has at most 53 bits and an exponent of at least -1074. *)
Lemma finite_canonical x s m e :
  Prim2SF x = S754_finite s m e ->
  Z.pos (digits2_pos m) <= 53 /\ -1074 <= e.
Proof.
  intros H. pose proof (Prim2SF_valid x) as V. rewrite H in V.
  unfold valid_binary in V. cbn [SpecFloat.valid_binary] in V.
  unfold bounded, canonical_mantissa in V.
  apply andb_prop in V. destruct V as [V _]. apply Z.eqb_eq in V.
  rewrite fexp64 in V. lia.
Qed.

Lemma Prim2SF_signed_zero s : Prim2SF (signed_zero s) = S754_zero s.
Proof. destruct s; reflexivity. Qed.

(** What [fmod1] returns: NaN for NaN and the infinities, otherwise a zero or a
    residue below one in magnitude, with the sign of the argument. *)
Lemma fmod1_spec x :
  match Prim2SF x with
  | S754_nan | S754_infinity _ => Prim2SF (fmod1 x) = S754_nan
  | S754_zero s => Prim2SF (fmod1 x) = S754_zero s
  | S754_finite s _ _ =>
      Prim2SF (fmod1 x) = S754_zero s
      \/ exists m' e',
           Prim2SF (fmod1 x) = S754_finite s m' e'
           /\ Z.pos m' < 2 ^ (- e') /\ -1074 <= e' <= -53
  end.
Proof.
  unfold fmod1. destruct (Prim2SF x) as [s|s| |s m e] eqn:E;
    try reflexivity; [exact E|].
  destruct (finite_canonical x s m e E) as [Hd He].
  destruct (Z.leb_spec 0 e) as [Hpos|Hneg].
  - left. apply Prim2SF_signed_zero.
  - assert (P : 0 < 2 ^ (- e)) by (apply Z.pow_pos_nonneg; lia).
    pose proof (Z.mod_pos_bound (Z.pos m) (2 ^ (- e)) P) as [R1 R2].
    destruct (Z.pos m mod 2 ^ (- e)) as [|r|r] eqn:Er.
    + left. apply Prim2SF_signed_zero.
    + right.
      assert (Hr : Z.pos r <= Z.pos m).
      { rewrite <- Er. apply Z.mod_le; lia. }
      assert (Hdr : Z.pos (digits2_pos r) <= 53).
      { pose proof (digits2_bounds m) as [_ B].
        apply digits2_le_of_lt; [lia|].
        assert (2 ^ Z.pos (digits2_pos m) <= 2 ^ 53) by (apply Z.pow_le_mono_r; lia).
        lia. }
      destruct (aligned_spec s r e R2 Hdr ltac:(lia)) as (m' & e' & -> & V & B1 & B2).
      exists m', e'. split; [apply Prim2SF_SF2Prim; exact V | split; assumption].
    + lia.
Qed.

Lemma Prim2SF_one : Prim2SF 1 = S754_finite false two52 (-52).
Proof. reflexivity. Qed.

Lemma Prim2SF_zero : Prim2SF 0 = S754_zero false.
Proof. reflexivity. Qed.

(** A finite float is neither NaN nor an infinity. *)
Lemma is_finite_spec x :
  is_finite x = true ->
  match Prim2SF x with
  | S754_nan | S754_infinity _ => False
  | _ => True
  end.
Proof.
  unfold is_finite, is_nan, is_infinity. intros H.
  apply negb_true_iff, orb_false_iff in H. destruct H as [Hn Hi].
  rewrite FloatAxioms.eqb_spec in Hn, Hi. rewrite abs_spec in Hi.
  destruct (Prim2SF x) as [s|s| |s m e]; try exact I.
  - destruct s; discriminate Hi.
  - discriminate Hn.
Qed.

(** Adding one to a negative residue: the sum is rounded to a binary64 between
    zero and one, one included. *)
Lemma add_one_to_negative_residue m e :
  Z.pos m < 2 ^ (- e) ->
  -1074 <= e <= -53 ->
  exists m' e',
    SF64add (S754_finite true m e) (S754_finite false two52 (-52))
    = S754_finite false m' e'
    /\ (e' < -52 \/ (e' = -52 /\ m' = two52)).
Proof.
  intros Hlt He. unfold SF64add, SFadd.
  replace (Z.min e (-52)) with e by lia.
  destruct (shl_align_spec m e e) as (m1 & e1 & -> & He1 & Hm1).
  destruct (shl_align_spec two52 (-52) e) as (m2 & e2 & -> & He2 & Hm2).
  cbn [fst cond_Zopp].
  replace (e - e1) with 0 in Hm1 by lia. cbn in Hm1.
  assert (H2 : Z.pos m2 = 2 ^ (- e)).
  { rewrite Hm2. change (Z.pos two52) with (2 ^ 52).
    rewrite <- Z.pow_add_r by lia. f_equal. lia. }
  replace (Z.min e e) with e in He1 by lia.
  destruct (- Z.pos m1 + Z.pos m2) as [|q|q] eqn:Eq; [lia| |lia].
  cbn [binary_normalize]. apply binary_round_le_one; lia.
Qed.

(** The residue numpy's [% 1.0] returns is never negative, and for a finite
    argument it lies between zero and one, one included. *)
Lemma remainder1_range x :
  (remainder1 x <? 0)%float = false
  /\ (is_finite x = true ->
      (0 <=? remainder1 x)%float = true /\ (remainder1 x <=? 1)%float = true).
Proof.
  pose proof (fmod1_spec x) as F. pose proof (is_finite_spec x) as Fin.
  unfold remainder1.
  rewrite (FloatAxioms.eqb_spec (fmod1 x) 0), (ltb_spec (fmod1 x) 0), Prim2SF_zero.
  destruct (Prim2SF x) as [s|s| |s m e].
  - rewrite F. cbn. split; [reflexivity|]. intros _. split; reflexivity.
  - rewrite F. cbn. rewrite ltb_spec, F. split; [reflexivity|].
    intros H. destruct (Fin H).
  - rewrite F. cbn. rewrite ltb_spec, F. split; [reflexivity|].
    intros H. destruct (Fin H).
  - destruct F as [F|(m' & e' & F & B1 & B2)].
    + rewrite F. cbn. split; [reflexivity|]. intros _. split; reflexivity.
    + rewrite F. destruct s; cbn [SFeqb SFltb SFcompare].
      * rewrite ltb_spec, !leb_spec, add_spec, F, Prim2SF_one, Prim2SF_zero.
        destruct (add_one_to_negative_residue m' e' B1 B2)
          as (m2 & e2 & -> & [L|[-> ->]]).
        -- cbn [SFltb SFleb SFcompare]. split; [reflexivity|]. intros _.
           split; [reflexivity|].
           destruct (Z.compare_spec e2 (-52)); [lia|reflexivity|lia].
        -- split; [reflexivity|]. intros _. split; reflexivity.
      * rewrite ltb_spec, !leb_spec, F, Prim2SF_one, Prim2SF_zero.
        cbn [SFltb SFleb SFcompare]. split; [reflexivity|]. intros _.
        split; [reflexivity|].
        destruct (Z.compare_spec e' (-52)); [lia|reflexivity|lia].
Qed.

End Binary64.

(** ** Frames: which locals a computation leaves alone *)

Section Frames.
Context {W : World}.
Local Open Scope py_scope.

Lemma preserves_ret {A} name (a : A) : preserves name (ret a).
Proof. intros st r st' H. inversion H. reflexivity. Qed.

Lemma preserves_raise {A} name e : preserves name (@raise W A e).
Proof. intros st r st' H. inversion H. reflexivity. Qed.

Lemma preserves_call {A} name (c : result A) : preserves name (call c).
Proof. intros st r st' H. inversion H. reflexivity. Qed.

Lemma preserves_emit name ev : preserves name (emit ev).
Proof. intros st r st' H. inversion H. reflexivity. Qed.

Lemma preserves_load name x : preserves name (load x).
Proof.
  intros st r st' H. unfold load in H.
  destruct (lookup_var x (vars st)); inversion H; reflexivity.
Qed.

Lemma preserves_assign name x v :
  String.eqb name x = false -> preserves name (assign x v).
Proof.
  intros Hx st r st' H. inversion H. cbn.
  rewrite String.eqb_sym, Hx. reflexivity.
Qed.

Lemma preserves_bind {A B} name (m : M A) (k : A -> M B) :
  preserves name m -> (forall a, preserves name (k a)) -> preserves name (bind m k).
Proof.
  intros Hm Hk st r st' H. unfold bind in H.
  destruct (m st) as [[a|e] st1] eqn:E.
  - rewrite (Hk a _ _ _ H). exact (Hm _ _ _ E).
  - inversion H; subst. exact (Hm _ _ _ E).
Qed.

Lemma preserves_try {A} name (m : M A) (h : exc -> M A) :
  preserves name m -> (forall e, preserves name (h e)) -> preserves name (try_except m h).
Proof.
  intros Hm Hh st r st' H. unfold try_except in H.
  destruct (m st) as [[a|e] st1] eqn:E.
  - inversion H; subst. exact (Hm _ _ _ E).
  - rewrite (Hh e _ _ _ H). exact (Hm _ _ _ E).
Qed.

Lemma preserves_type_error {A} name x : preserves name (@type_error W A x).
Proof. apply preserves_raise. Qed.

Lemma preserves_load_structure_tuple name x : preserves name (load_structure_tuple x).
Proof.
  apply preserves_bind; [apply preserves_load|].
  intros []; first [apply preserves_ret | apply preserves_type_error].
Qed.

Lemma preserves_load_structure name x : preserves name (load_structure x).
Proof.
  apply preserves_bind; [apply preserves_load|].
  intros []; first [apply preserves_ret | apply preserves_type_error].
Qed.

Lemma preserves_load_obj name x : preserves name (load_obj x).
Proof.
  apply preserves_bind; [apply preserves_load|].
  intros []; first [apply preserves_ret | apply preserves_type_error].
Qed.

Lemma preserves_load_str name x : preserves name (load_str x).
Proof.
  apply preserves_bind; [apply preserves_load|].
  intros []; first [apply preserves_ret | apply preserves_type_error].
Qed.

Ltac frame :=
  repeat first
    [ apply preserves_ret | apply preserves_raise | apply preserves_call
    | apply preserves_emit | apply preserves_load
    | apply preserves_load_structure_tuple | apply preserves_load_structure
    | apply preserves_load_obj | apply preserves_load_str
    | apply preserves_assign; first [assumption | reflexivity]
    | apply preserves_bind; [|intro]
    | apply preserves_try; [|intro]
    | match goal with |- preserves _ (if ?b then _ else _) => destruct b end
    | match goal with |- preserves _ (match ?x with _ => _ end) => destruct x end ].

Lemma structure_assembly_preserves name :
  existsb (String.eqb name)
    ["raw_code"; "inputstructure_cell_vectors"; "inputstructure_atoms_scaled";
     "inputstructure_atoms_cartesian"; "atoms_scaled"; "atoms_cartesian";
     "direct_vectors"; "xsfstructure"; "compute_time"] = false ->
  preserves name structure_assembly.
Proof.
  intros H. cbn in H.
  repeat (apply orb_false_elim in H; destruct H as [? H]).
  unfold structure_assembly.
  frame.
Qed.

(** Reading an unbound local in the final [dict(...)]. *)
Lemma build_dict_raises items st e st' :
  build_dict items st = (Raise e, st') ->
  Forall (fun km => (exists x, snd km = load x) \/ (exists v, snd km = ret v)) items ->
  exists x, e = unbound_local x /\ lookup_var x (vars st) = None /\ st' = st.
Proof.
  revert st e st'. induction items as [|[k m] items IH]; intros st e st' H HF.
  - discriminate H.
  - inversion HF as [|? ? Hm HF']; subst. cbn [build_dict] in H.
    unfold bind at 1 in H. cbn [snd] in Hm.
    destruct Hm as [[x ->]|[v ->]].
    + unfold load in H. destruct (lookup_var x (vars st)) eqn:E.
      * unfold bind at 1 in H.
        destruct (build_dict items st) as [[d|e1] st1] eqn:E1.
        -- discriminate H.
        -- inversion H; subst. eapply IH; eauto.
      * inversion H; subst. eauto.
    + unfold ret at 1 in H. unfold bind at 1 in H.
      destruct (build_dict items st) as [[d|e1] st1] eqn:E1.
      * discriminate H.
      * inversion H; subst. eapply IH; eauto.
Qed.

Lemma output_items_shape :
  Forall (fun km : string * M value =>
            (exists x, snd km = load x) \/ (exists v, snd km = ret v)) output_items.
Proof.
  unfold output_items.
  repeat (constructor; [cbn; first [left; eexists; reflexivity | right; eexists; reflexivity]|]).
  constructor.
Qed.

Lemma build_dict_unbound x st :
  In x ["raw_code"; "prediction_labels"; "metal_indices"; "predictions_output";
        "featurization_output"; "inputstructure_cell_vectors";
        "inputstructure_atoms_scaled"; "inputstructure_atoms_cartesian";
        "atoms_scaled"; "direct_vectors"; "atoms_cartesian"; "compute_time";
        "xsfstructure"; "feature_value_dict"] ->
  lookup_var x (vars st) = None ->
  exists y, build_dict output_items st = (Raise (unbound_local y), st).
Proof.
  intros Hin Hx.
  destruct (build_dict output_items st) as [[d|e] st1] eqn:E.
  - exfalso. unfold output_items, build_dict, bind, load, ret in E.
    repeat match type of E with
    | context [lookup_var ?k (vars st)] =>
        let o := fresh "o" in
        destruct (lookup_var k (vars st)) as [?|] eqn:o; [|discriminate E]
    end.
    cbn in Hin.
    repeat (destruct Hin as [<-|Hin]; [congruence|]). exact Hin.
  - destruct (build_dict_raises _ _ _ _ E output_items_shape) as (y & -> & _ & ->).
    eauto.
Qed.
End Frames.

(** ** Control flow of the two pipelines *)

Ltac unfold_core :=
  unfold run, process_structure_core, structure_read, structure_featurize,
    structure_predict, structure_assemble, process_precomputed_core,
    precomputed_read_structure, precomputed_read_pickle, assign_item,
    load_structure_tuple, load_structure, load_obj, load_str, load, assign,
    emit, call, try_except, bind, ret, raise, type_error.

Ltac simpl_core := cbn -[structure_assembly precomputed_assembly build_dict output_items].

Section Control.
Context {W : World}.
Local Open Scope py_scope.

(** The handler of [LargeStructureError] reads [structure_tuple], which the
    failed call never bound. *)
Lemma process_structure_core_large f ff cs req e :
  get_structure_tuple f ff = Raise e ->
  exc_class e = LargeStructureError ->
  run (process_structure_core f ff cs req)
  = (Raise (unbound_local "structure_tuple"), []).
Proof.
  intros H Hc. unfold_core. rewrite H. destruct e as [c m]. cbn in Hc. subst c.
  reflexivity.
Qed.

(** The other typed failures of the reader reach their message. *)
Lemma process_structure_core_overlap f ff cs req e :
  get_structure_tuple f ff = Raise e ->
  exc_class e = OverlapError ->
  run (process_structure_core f ff cs req)
  = (Raise (Exc FlaskRedirectException
                "Sorry, there seem to be overlapping errors in the input structure"),
     [LogMe f ff cs "overlap" [("form_data", VObj (form req))]]).
Proof.
  intros H Hc. unfold_core. rewrite H. destruct e as [c m]. cbn in Hc. subst c.
  reflexivity.
Qed.

(** The state in which the prediction stage leaves the frame when it fails
    with an exception other than [UnboundLocalError]. *)
Lemma prediction_failure_continues f ff cs req t s fa fvd mi fn e :
  get_structure_tuple f ff = Ok (t, s) ->
  _featurize_single s = Ok (fa, fvd, mi, fn) ->
  prediction_stage_raises fa fvd fn e ->
  is_Exception e = true ->
  exc_class e <> UnboundLocalError ->
  exists bound,
    lookup_var "featurization_output" bound = None /\
    process_structure_core f ff cs req (State [] [])
    = (emit (Debug "Prediction done in {}") ;;
       structure_assemble f ff cs ;;
       build_dict output_items)
        (State bound
               [Debug "Successfully read structure in {}";
                Debug "Featurization completed in {}";
                Print (exc_str e);
                LogMe f ff cs "predictionexception"
                      [("exception", VStr (exc_str e));
                       ("shape_array", VObj (array_shape fa))]]).
Proof.
  intros H1 H2 H3 He Hc.
  destruct H3 as [H3|(po & pl & ci & H3 & H4)].
  - eexists. split; cycle 1.
    + unfold_core. rewrite H1. simpl_core. rewrite H2. simpl_core. rewrite H3.
      destruct e as [c m]; destruct c; cbn in He, Hc; try congruence;
        simpl_core; reflexivity.
    + reflexivity.
  - eexists. split; cycle 1.
    + unfold_core. rewrite H1. simpl_core. rewrite H2. simpl_core. rewrite H3.
      simpl_core. rewrite H4.
      destruct e as [c m]; destruct c; cbn in He, Hc; try congruence;
        simpl_core; reflexivity.
    + reflexivity.
Qed.

Lemma structure_assemble_preserves f ff cs name :
  existsb (String.eqb name)
    ["raw_code"; "inputstructure_cell_vectors"; "inputstructure_atoms_scaled";
     "inputstructure_atoms_cartesian"; "atoms_scaled"; "atoms_cartesian";
     "direct_vectors"; "xsfstructure"; "compute_time"] = false ->
  preserves name (structure_assemble f ff cs).
Proof.
  intros H. unfold structure_assemble.
  apply preserves_try; [apply structure_assembly_preserves; exact H|].
  intros e. destruct (is_Exception e).
  - apply preserves_bind; [apply preserves_load|]. intros v.
    apply preserves_bind; [apply preserves_emit|]. intros _. apply preserves_raise.
  - apply preserves_raise.
Qed.

(** Once a stage left [featurization_output] unbound, the rest of
    [process_structure_core] cannot return: the assembly raises, or the final
    [dict(...)] reads an unbound local. *)
Lemma assemble_then_dict_raises f ff cs st :
  lookup_var "featurization_output" (vars st) = None ->
  exists e st',
    (emit (Debug "Prediction done in {}") ;;
     structure_assemble f ff cs ;;
     build_dict output_items) st = (Raise e, st').
Proof.
  intros H. unfold bind at 1. cbn [emit]. unfold bind at 1.
  match goal with |- context [structure_assemble f ff cs ?s1] =>
    destruct (structure_assemble f ff cs s1) as [[[]|e] st2] eqn:E
  end.
  - pose proof (structure_assemble_preserves f ff cs "featurization_output"
                  eq_refl _ _ _ E) as P.
    cbn [vars] in P. rewrite H in P.
    destruct (build_dict_unbound "featurization_output" st2) as [y Hy];
      [cbn; tauto | exact P | eauto].
  - eauto.
Qed.

Lemma prediction_failure_never_returns f ff cs req t s fa fvd mi fn e :
  get_structure_tuple f ff = Ok (t, s) ->
  _featurize_single s = Ok (fa, fvd, mi, fn) ->
  prediction_stage_raises fa fvd fn e ->
  exists e' tr, run (process_structure_core f ff cs req) = (Raise e', tr).
Proof.
  intros H1 H2 H3.
  destruct (is_Exception e) eqn:He.
  - destruct (exc_type_eqb (exc_class e) UnboundLocalError) eqn:Hc.
    + destruct e as [c m]; destruct c; try discriminate Hc.
      destruct H3 as [H3|(po & pl & ci & H3 & H4)];
        unfold_core; rewrite H1; simpl_core; rewrite H2; simpl_core;
        rewrite H3; simpl_core; [|rewrite H4; simpl_core]; eauto.
    + assert (Hc' : exc_class e <> UnboundLocalError)
        by (intros Heq; rewrite Heq in Hc; discriminate Hc).
      destruct (prediction_failure_continues f ff cs req t s fa fvd mi fn e
                  H1 H2 H3 He Hc') as (bound & Hb & Heq).
      unfold run. rewrite Heq.
      match goal with |- context [_ (State bound ?tr)] =>
        destruct (assemble_then_dict_raises f ff cs (State bound tr) Hb)
          as (e' & st' & ->)
      end.
      eauto.
  - destruct e as [c m]; destruct c; try discriminate He.
    destruct H3 as [H3|(po & pl & ci & H3 & H4)];
      unfold_core; rewrite H1; simpl_core; rewrite H2; simpl_core;
      rewrite H3; simpl_core; [|rewrite H4; simpl_core]; eauto.
Qed.

(** C10 (as amended): when the prediction stage raises [UnboundLocalError],
    [process_structure_core] logs it and raises [FlaskRedirectException] with a
    message that begins "Sorry, the featurization failed." and is the
    featurization message with one comma added after "e.g."; any other
    [Exception] is printed and logged, and execution goes on with the output
    assembly in a frame where [featurization_output] is unbound. *)
Theorem prediction_stage_handlers f ff cs req t s fa fvd mi fn e :
  get_structure_tuple f ff = Ok (t, s) ->
  _featurize_single s = Ok (fa, fvd, mi, fn) ->
  prediction_stage_raises fa fvd fn e ->
  is_Exception e = true ->
  (exc_class e = UnboundLocalError ->
   run (process_structure_core f ff cs req)
   = (Raise (Exc FlaskRedirectException prediction_message),
      [Debug "Successfully read structure in {}";
       Debug "Featurization completed in {}";
       LogMe f ff cs "predictionexception" [("exception", VStr (exc_str e))]]))
  /\ (exc_class e <> UnboundLocalError ->
      exists bound,
        lookup_var "featurization_output" bound = None /\
        process_structure_core f ff cs req (State [] [])
        = (emit (Debug "Prediction done in {}") ;;
           structure_assemble f ff cs ;;
           build_dict output_items)
            (State bound
                   [Debug "Successfully read structure in {}";
                    Debug "Featurization completed in {}";
                    Print (exc_str e);
                    LogMe f ff cs "predictionexception"
                          [("exception", VStr (exc_str e));
                           ("shape_array", VObj (array_shape fa))]]))
  /\ String.prefix "Sorry, the featurization failed." prediction_message = true
  /\ (exists a b, featurization_message = a ++ b
                  /\ prediction_message = a ++ "," ++ b).
Proof.
  intros H1 H2 H3 He. repeat split.
  - intros Hc. destruct e as [c m]. cbn in Hc. subst c.
    destruct H3 as [H3|(po & pl & ci & H3 & H4)];
      unfold_core; rewrite H1; simpl_core; rewrite H2; simpl_core;
      rewrite H3; simpl_core; [|rewrite H4; simpl_core]; reflexivity.
  - intros Hc. eapply prediction_failure_continues; eauto.
  - exists ("Sorry, the featurization failed. Make sure that your structure "
              ++ "is not pathological (e.g."),
           " containing overlapping atoms).".
    split; reflexivity.
Qed.
End Control.

(** ** Loading a precomputed record *)

Section Precomputed.
Context {W : World}.
Local Open Scope py_scope.

Lemma prefix_app (sub rest : string) : String.prefix sub (sub ++ rest) = true.
Proof.
  induction sub as [|c sub IH]; cbn; [destruct rest; reflexivity|].
  destruct (ascii_dec c c) as [_|N]; [exact IH | contradiction].
Qed.

Lemma str_contains_prefix sub rest : str_contains sub (sub ++ rest) = true.
Proof.
  pose proof (prefix_app sub rest) as H.
  destruct (sub ++ rest); cbn [str_contains]; rewrite H; reflexivity.
Qed.

Lemma str_contains_app_r sub a b :
  str_contains sub b = true -> str_contains sub (a ++ b) = true.
Proof.
  intros H. induction a as [|c a IH]; [exact H|].
  cbn [append str_contains]. destruct (String.prefix sub (String c (a ++ b)));
    [reflexivity | exact IH].
Qed.

(** C8 (as amended): when the structure file of a record cannot be read,
    [process_precomputed_core] raises [FlaskRedirectException] with a message
    that carries the file format ['cif'] and the cause; the handler does not
    put the id there, so the id is in the message where the cause quotes it.
    When the structure loads and the pickle or one of its eight keys cannot
    be read, the message carries the id and the cause.  Either way nothing is
    returned. *)
Theorem precomputed_load_errors name e :
  is_Exception e = true ->
  (str_contains name (exc_str e) = true ->
   str_contains name (structure_load_message e) = true)
  /\ str_contains name (payload_load_message name e) = true
  /\ (CifParser_get_structures_0 (structures_path name) = Raise e ->
   run (process_precomputed_core name)
   = (Raise (Exc FlaskRedirectException (structure_load_message e)),
      [Debug ("dealing with " ++ name);
       Debug "building path";
       Debug ("structurefilepath is " ++ structures_path name);
       Debug ("Exception " ++ exc_str e ++ " when parsing the input")]))
  /\ (forall s,
      CifParser_get_structures_0 (structures_path name) = Ok s ->
      read_payload name = Raise e ->
      run (process_precomputed_core name)
      = (Raise (Exc FlaskRedirectException (payload_load_message name e)),
         [Debug ("dealing with " ++ name);
          Debug "building path";
          Debug ("structurefilepath is " ++ structures_path name);
          Debug "read pymatgen structure";
          Debug "generated structure tuple";
          Debug "Successfully read structure in {}";
          Debug "reading pickle";
          Debug ("Exception " ++ exc_str e ++ " when parsing the input")])).
Proof.
  intros He. split; [|split; [|split]].
  - intros H. unfold structure_load_message. apply str_contains_app_r. exact H.
  - unfold payload_load_message. apply str_contains_app_r, str_contains_prefix.
  - intros H. unfold_core. fold (structures_path name). rewrite H.
    simpl_core. rewrite He. reflexivity.
  - intros s H1 H2. unfold read_payload in H2. unfold_core.
    fold (structures_path name). fold (precomputed_path name). rewrite H1. simpl_core.
    destruct (load_pickle (precomputed_path name)) as [d|e0].
    + simpl_core. unfold payload_keys in H2. cbn [list_comprehension] in H2.
      repeat match type of H2 with
      | context [dict_getitem d ?k] =>
          destruct (dict_getitem d k) as [?|?]; simpl_core;
          [| injection H2 as ->; rewrite He; reflexivity]
      end.
      discriminate H2.
    + injection H2 as ->. simpl_core. rewrite He. reflexivity.
Qed.
End Precomputed.

(** ** What a successful run returns *)

Section Success.
Context {W : World}.
Local Open Scope py_scope.

Lemma np_dot_ok positions c out :
  np_dot positions c = Ok out ->
  out = map (fun p => row_dot p c) positions /\ positions <> [].
Proof.
  destruct positions; cbn; intros H; [discriminate H|].
  injection H as <-. split; [reflexivity | discriminate].
Qed.

Lemma process_structure_core_returns f ff cs req bundle tr :
  run (process_structure_core f ff cs req) = (Ok bundle, tr) ->
  exists t s fa fvd mi fn po pl ci fo pr cart pcart refolded psym isym,
    get_structure_tuple f ff = Ok (t, s)
    /\ _featurize_single s = Ok (fa, fvd, mi, fn)
    /\ predictions fa (dict_keys fvd) = Ok (po, pl, ci)
    /\ get_explanations fa pl ci fn DEFAULT_APPROXIMATE = Ok fo
    /\ get_json_for_visualizer s = Ok pr
    /\ np_dot (st_scaled_coords t) (st_cell t) = Ok cart
    /\ np_dot (primitive_positions pr) (primitive_lattice pr) = Ok pcart
    /\ np_dot (map vec3_remainder1 (primitive_positions pr)) (primitive_lattice pr)
       = Ok refolded
    /\ list_comprehension (list_getitem chemical_symbols) (primitive_types pr) = Ok psym
    /\ list_comprehension (list_getitem chemical_symbols) (st_atomic_numbers t) = Ok isym
    /\ bundle = output_bundle t pr cart pcart refolded psym isym pl mi po fo fvd
    /\ tr = [Debug "Successfully read structure in {}";
             Debug "Featurization completed in {}";
             Debug "Prediction done in {}"].
Proof.
  intros H.
  destruct (get_structure_tuple f ff) as [[t s]|e1] eqn:H1.
  2:{ exfalso. revert H. unfold_core. rewrite H1.
      destruct e1 as [c m]; destruct c; simpl_core; discriminate. }
  destruct (_featurize_single s) as [[[[fa fvd] mi] fn]|e2] eqn:H2.
  2:{ exfalso. revert H. unfold_core. rewrite H1. simpl_core. rewrite H2.
      destruct e2 as [c m]; destruct c; simpl_core; discriminate. }
  destruct (predictions fa (dict_keys fvd)) as [[[po pl] ci]|e3] eqn:H3.
  2:{ exfalso.
      destruct (prediction_failure_never_returns f ff cs req t s fa fvd mi fn e3
                  H1 H2 (or_introl H3)) as (e' & tr' & Hr).
      rewrite Hr in H. discriminate H. }
  destruct (get_explanations fa pl ci fn DEFAULT_APPROXIMATE) as [fo|e4] eqn:H4.
  2:{ exfalso.
      destruct (prediction_failure_never_returns f ff cs req t s fa fvd mi fn e4
                  H1 H2 (or_intror (ex_intro _ po (ex_intro _ pl (ex_intro _ ci
                     (conj H3 H4)))))) as (e' & tr' & Hr).
      rewrite Hr in H. discriminate H. }
  revert H. unfold_core. rewrite H1. simpl_core. rewrite H2. simpl_core.
  rewrite H3. simpl_core. rewrite H4. simpl_core.
  unfold structure_assembly. unfold_core. simpl_core.
  destruct (get_json_for_visualizer s) as [pr|e5] eqn:H5.
  2:{ destruct e5 as [c m]; destruct c; simpl_core; discriminate. }
  simpl_core.
  destruct (np_dot (st_scaled_coords t) (st_cell t)) as [cart|e6] eqn:H6.
  2:{ destruct e6 as [c m]; destruct c; simpl_core; discriminate. }
  simpl_core.
  destruct (np_dot (primitive_positions pr) (primitive_lattice pr)) as [pcart|e7] eqn:H7.
  2:{ destruct e7 as [c m]; destruct c; simpl_core; discriminate. }
  simpl_core.
  destruct (np_dot (map vec3_remainder1 (primitive_positions pr)) (primitive_lattice pr))
    as [refolded|e8] eqn:H8.
  2:{ destruct e8 as [c m]; destruct c; simpl_core; discriminate. }
  simpl_core.
  destruct (list_comprehension (list_getitem chemical_symbols) (primitive_types pr))
    as [psym|e9] eqn:H9.
  2:{ destruct e9 as [c m]; destruct c; simpl_core; discriminate. }
  simpl_core.
  destruct (list_comprehension (list_getitem chemical_symbols) (st_atomic_numbers t))
    as [isym|e10] eqn:H10.
  2:{ destruct e10 as [c m]; destruct c; simpl_core; discriminate. }
  simpl_core. unfold build_dict, output_items. unfold_core. simpl_core.
  intros H. injection H as <- <-.
  exists t, s, fa, fvd, mi, fn, po, pl, ci, fo, pr, cart, pcart, refolded, psym, isym.
  repeat (split; [assumption || reflexivity|]).
  split; [|reflexivity].
  unfold output_bundle, xsf_lines, format_count.
  destruct (np_dot_ok _ _ _ H8) as [-> _]. rewrite !length_map.
  reflexivity.
Qed.

Lemma list_comprehension_ok {A B} (f : A -> result B) xs ys :
  list_comprehension f xs = Ok ys ->
  List.length ys = List.length xs
  /\ forall i x, nth_error xs i = Some x ->
       exists y, f x = Ok y /\ nth_error ys i = Some y.
Proof.
  revert ys. induction xs as [|x xs IH]; intros ys H; cbn in H.
  - injection H as <-. split; [reflexivity|]. intros [|i] x Hx; discriminate Hx.
  - destruct (f x) as [y|e] eqn:Ey; [|discriminate H].
    destruct (list_comprehension f xs) as [ys'|e]; [|discriminate H].
    injection H as <-. destruct (IH ys' eq_refl) as [Hl Hn].
    split; [cbn; congruence|].
    intros [|i] x0 Hx; cbn in Hx.
    + injection Hx as <-. exists y. split; [assumption | reflexivity].
    + exact (Hn i x0 Hx).
Qed.

Lemma nth_error_combine {A B} (l1 : list A) (l2 : list B) i a b :
  nth_error l1 i = Some a -> nth_error l2 i = Some b ->
  nth_error (combine l1 l2) i = Some (a, b).
Proof.
  revert l2 i. induction l1 as [|x l1 IH]; intros [|y l2] [|i] H1 H2;
    cbn in *; try discriminate.
  - congruence.
  - auto.
Qed.

Lemma refolded_lines pr refolded :
  np_dot (map vec3_remainder1 (primitive_positions pr)) (primitive_lattice pr)
  = Ok refolded ->
  List.length (primitive_types pr) = List.length (primitive_positions pr) ->
  let atom_lines :=
    map (fun np => format_atom (fst np) (snd np))
        (combine (primitive_types pr) refolded) in
  xsf_lines pr refolded = (crystal_header pr ++ atom_lines)%list
  /\ List.length atom_lines = List.length (primitive_positions pr)
  /\ forall i num p,
       nth_error (primitive_types pr) i = Some num ->
       nth_error (primitive_positions pr) i = Some p ->
       nth_error atom_lines i
       = Some (format_atom num
                 (row_dot (vec3_remainder1 p) (primitive_lattice pr))).
Proof.
  intros H Hl. destruct (np_dot_ok _ _ _ H) as [-> _]. cbn zeta.
  split; [reflexivity|]. split.
  - rewrite length_map, length_combine, !length_map. lia.
  - intros i num p Hnum Hp.
    rewrite nth_error_map.
    rewrite (nth_error_combine _ _ i num
               (row_dot (vec3_remainder1 p) (primitive_lattice pr)) Hnum).
    + reflexivity.
    + rewrite !nth_error_map, Hp. reflexivity.
Qed.

(** C3 (as amended): the crystal block is CRYSTAL, PRIMVEC, the three lattice
    vectors, PRIMCOORD, then the count line "<count> 1" with the number of
    primitive positions, and after it one line per atom, the atomic number
    followed by the Cartesian position of the coordinates taken mod 1.0. *)
Theorem crystal_block_layout f ff cs req bundle tr t s pr :
  run (process_structure_core f ff cs req) = (Ok bundle, tr) ->
  get_structure_tuple f ff = Ok (t, s) ->
  get_json_for_visualizer s = Ok pr ->
  List.length (primitive_types pr) = List.length (primitive_positions pr) ->
  exists atom_lines,
    dict_getitem bundle "xsfstructure"
    = Ok (VStr (String.concat newline
                  (["CRYSTAL"; "PRIMVEC";
                    format_vector (row1 (primitive_lattice pr));
                    format_vector (row2 (primitive_lattice pr));
                    format_vector (row3 (primitive_lattice pr));
                    "PRIMCOORD";
                    (str_int (Z.of_nat (List.length (primitive_positions pr)))
                       ++ " 1")%string]
                   ++ atom_lines)%list))
    /\ List.length atom_lines = List.length (primitive_positions pr)
    /\ forall i num p,
         nth_error (primitive_types pr) i = Some num ->
         nth_error (primitive_positions pr) i = Some p ->
         nth_error atom_lines i
         = Some (format_atom num
                   (row_dot (vec3_remainder1 p) (primitive_lattice pr))).
Proof.
  intros H Ht Hpr Hl.
  destruct (process_structure_core_returns _ _ _ _ _ _ H)
    as (t' & s' & fa & fvd & mi & fn & po & pl & ci & fo & pr' & cart & pcart
        & refolded & psym & isym & H1 & _ & _ & _ & H5 & _ & _ & H8 & _ & _ & -> & _).
  rewrite Ht in H1. injection H1 as <- <-. rewrite Hpr in H5. injection H5 as <-.
  destruct (refolded_lines pr refolded H8 Hl) as (Hx & Hlen & Hnth).
  eexists. split; [|split; [exact Hlen | exact Hnth]].
  refine (eq_trans (y := Ok (VStr (String.concat newline (xsf_lines pr refolded))))
                   _ _); [reflexivity | rewrite Hx; reflexivity].
Qed.




(** C5 (as amended): the refolding applies [% 1.0] to each component of the
    primitive fractional coordinates before the product with the primitive
    lattice, and the crystal block is built from that product; the residue is
    never negative, and for a finite coordinate it lies in [0, 1], one
    included. *)
Theorem refolding_range f ff cs req bundle tr t s pr :
  run (process_structure_core f ff cs req) = (Ok bundle, tr) ->
  get_structure_tuple f ff = Ok (t, s) ->
  get_json_for_visualizer s = Ok pr ->
  exists refolded,
    np_dot (map vec3_remainder1 (primitive_positions pr)) (primitive_lattice pr)
    = Ok refolded
    /\ dict_getitem bundle "xsfstructure"
       = Ok (VStr (String.concat newline (xsf_lines pr refolded)))
    /\ forall p x,
         In p (primitive_positions pr) ->
         In x (components p) ->
         In (remainder1 x) (components (vec3_remainder1 p))
         /\ (remainder1 x <? 0)%float = false
         /\ (is_finite x = true ->
             (0 <=? remainder1 x)%float = true
             /\ (remainder1 x <=? 1)%float = true).
Proof.
  intros H Ht Hpr.
  destruct (process_structure_core_returns _ _ _ _ _ _ H)
    as (t' & s' & fa & fvd & mi & fn & po & pl & ci & fo & pr' & cart & pcart
        & refolded & psym & isym & H1 & _ & _ & _ & H5 & _ & _ & H8 & _ & _ & -> & _).
  rewrite Ht in H1. injection H1 as <- <-. rewrite Hpr in H5. injection H5 as <-.
  exists refolded. split; [exact H8|]. split; [reflexivity|].
  intros p x _ Hx. split; [|apply remainder1_range].
  destruct p as [a b c]. cbn in Hx |- *.
  destruct Hx as [<-|[<-|[<-|[]]]]; tauto.
Qed.
End Success.

(** ** The iron cell *)

Section Iron.
Context {W : World}.

(** C7 (as amended): for the cell diag(1,1,1) with one atom of atomic number
    26 at (0,0,0), the Cartesian position is (0,0,0) and the crystal block is
    CRYSTAL / PRIMVEC / 1.0 0.0 0.0 / 0.0 1.0 0.0 / 0.0 0.0 1.0 / PRIMCOORD /
    1 1 / 26 0.0 0.0 0.0: the coordinates are floats and print as such. *)
Theorem iron_cell_output f ff cs req bundle tr s :
  run (process_structure_core f ff cs req) = (Ok bundle, tr) ->
  get_structure_tuple f ff = Ok (fe_cubic, s) ->
  get_json_for_visualizer s = Ok fe_path_results ->
  exists sym,
    list_getitem chemical_symbols 26 = Ok sym
    /\ dict_getitem bundle "inputstructure_atoms_cartesian"
       = Ok (VAtoms [AtomRow sym 0 0 0])
    /\ dict_getitem bundle "atoms_cartesian" = Ok (VAtoms [AtomRow sym 0 0 0])
    /\ dict_getitem bundle "xsfstructure"
       = Ok (VStr (String.concat newline
                     ["CRYSTAL"; "PRIMVEC"; "1.0 0.0 0.0"; "0.0 1.0 0.0";
                      "0.0 0.0 1.0"; "PRIMCOORD"; "1 1"; "26 0.0 0.0 0.0"])).
Proof.
  intros H Ht Hpr.
  destruct (process_structure_core_returns _ _ _ _ _ _ H)
    as (t' & s' & fa & fvd & mi & fn & po & pl & ci & fo & pr' & cart & pcart
        & refolded & psym & isym & H1 & _ & _ & _ & H5 & H6 & H7 & H8 & H9 & H10
        & -> & _).
  rewrite Ht in H1. injection H1 as <- <-. rewrite Hpr in H5. injection H5 as <-.
  unfold fe_path_results in *.
  vm_compute in H6. injection H6 as <-.
  vm_compute in H7. injection H7 as <-.
  vm_compute in H8. injection H8 as <-.
  cbn [primitive_types st_atomic_numbers fe_cubic list_comprehension] in H9, H10.
  destruct (list_getitem chemical_symbols 26) as [sym|e] eqn:Hs; [|discriminate H9].
  injection H9 as <-. injection H10 as <-.
  exists sym. repeat split.
Qed.
End Iron.

(** C7, witness: the iron cell through the whole pipeline. *)
Lemma iron_cell_output_witness :
  exists bundle tr,
    run (W:=scenario_world fe_scenario)
        (process_structure_core "data_fe" "cif" "process_structure"
                                (post_request fe_scenario))
    = (Ok bundle, tr)
    /\ exists sym,
        list_getitem ase_chemical_symbols 26 = Ok sym
        /\ dict_getitem bundle "inputstructure_atoms_cartesian"
           = Ok (VAtoms [AtomRow sym 0 0 0])
        /\ dict_getitem bundle "atoms_cartesian" = Ok (VAtoms [AtomRow sym 0 0 0])
        /\ dict_getitem bundle "xsfstructure"
           = Ok (VStr (String.concat newline
                         ["CRYSTAL"; "PRIMVEC"; "1.0 0.0 0.0"; "0.0 1.0 0.0";
                          "0.0 0.0 1.0"; "PRIMCOORD"; "1 1"; "26 0.0 0.0 0.0"])).
Proof.
  eexists. eexists. split; [vm_compute; reflexivity|].
  eapply (iron_cell_output (W:=scenario_world fe_scenario)
            "data_fe" "cif" "process_structure" (post_request fe_scenario));
    [vm_compute; reflexivity | reflexivity | reflexivity].
Defined.

(** C7, counterexample: the block of the iron cell is not the one with the
    lines 1 0 0 / 0 1 0 / 0 0 1 and 26 0 0 0. *)
Lemma iron_cell_lines_are_floats :
  exists bundle tr xsf,
    run (W:=scenario_world fe_scenario)
        (process_structure_core "data_fe" "cif" "process_structure"
                                (post_request fe_scenario))
    = (Ok bundle, tr)
    /\ dict_getitem bundle "xsfstructure" = Ok (VStr xsf)
    /\ String.eqb xsf
         (String.concat newline
            ["CRYSTAL"; "PRIMVEC"; "1 0 0"; "0 1 0"; "0 0 1"; "PRIMCOORD";
             "1 1"; "26 0 0 0"]) = false.
Proof.
  do 3 eexists. split; [vm_compute; reflexivity|].
  split; [vm_compute; reflexivity|]. vm_compute. reflexivity.
Qed.

(** C3, witness: the crystal block of the iron cell. *)
Lemma crystal_block_layout_witness :
  exists bundle tr,
    run (W:=scenario_world fe_scenario)
        (process_structure_core "data_fe" "cif" "process_structure"
                                (post_request fe_scenario))
    = (Ok bundle, tr)
    /\ exists atom_lines,
        dict_getitem bundle "xsfstructure"
        = Ok (VStr (String.concat newline
                      (["CRYSTAL"; "PRIMVEC"; "1.0 0.0 0.0"; "0.0 1.0 0.0";
                        "0.0 0.0 1.0"; "PRIMCOORD"; "1 1"] ++ atom_lines)%list))
        /\ List.length atom_lines = 1%nat
        /\ forall i num p,
             nth_error [26%Z] i = Some num ->
             nth_error [V3 0 0 0] i = Some p ->
             nth_error atom_lines i
             = Some (format_atom (W:=scenario_world fe_scenario) num
                       (row_dot (vec3_remainder1 p) (st_cell fe_cubic))).
Proof.
  eexists. eexists. split; [vm_compute; reflexivity|].
  refine (crystal_block_layout (W:=scenario_world fe_scenario)
            "data_fe" "cif" "process_structure" (post_request fe_scenario)
            _ _ fe_cubic fe_cubic fe_path_results _ _ _ _);
    [vm_compute; reflexivity | reflexivity | reflexivity | reflexivity].
Defined.

(** C3, counterexample: in the block of the iron cell the count line "1 1"
    comes right after PRIMCOORD and the atom line is the last line; the block
    does not end with the count line. *)
Lemma count_line_precedes_atom_lines :
  exists bundle tr xsf,
    run (W:=scenario_world fe_scenario)
        (process_structure_core "data_fe" "cif" "process_structure"
                                (post_request fe_scenario))
    = (Ok bundle, tr)
    /\ dict_getitem bundle "xsfstructure" = Ok (VStr xsf)
    /\ str_contains (newline ++ "PRIMCOORD" ++ newline ++ "1 1" ++ newline
                       ++ "26 0.0 0.0 0.0") xsf = true
    /\ str_ends_with (newline ++ "26 0.0 0.0 0.0") xsf = true
    /\ str_ends_with (newline ++ "1 1") xsf = false.
Proof.
  do 3 eexists. split; [vm_compute; reflexivity|].
  split; [vm_compute; reflexivity|]. repeat split; vm_compute; reflexivity.
Qed.



(** ** The failure paths, run *)

(** C5, witness: the iron cell. *)
Lemma refolding_range_witness :
  exists bundle tr,
    run (W:=scenario_world fe_scenario)
        (process_structure_core "data_fe" "cif" "process_structure"
                                (post_request fe_scenario))
    = (Ok bundle, tr)
    /\ exists refolded,
        np_dot (map vec3_remainder1 [V3 0 0 0]) (st_cell fe_cubic) = Ok refolded
        /\ dict_getitem bundle "xsfstructure"
           = Ok (VStr (String.concat newline
                         (xsf_lines (W:=scenario_world fe_scenario)
                                    fe_path_results refolded)))
        /\ forall p x,
             In p [V3 0 0 0] ->
             In x (components p) ->
             In (remainder1 x) (components (vec3_remainder1 p))
             /\ (remainder1 x <? 0)%float = false
             /\ (is_finite x = true ->
                 (0 <=? remainder1 x)%float = true
                 /\ (remainder1 x <=? 1)%float = true).
Proof.
  eexists. eexists. split; [vm_compute; reflexivity|].
  refine (refolding_range (W:=scenario_world fe_scenario)
            "data_fe" "cif" "process_structure" (post_request fe_scenario)
            _ _ fe_cubic fe_cubic fe_path_results _ _ _);
    [vm_compute; reflexivity | reflexivity | reflexivity].
Defined.

(** C5, counterexample: the finite coordinate [-2^-60] has the residue
    [-2^-60] under [fmod]; adding 1.0 rounds to 1.0, which is not below one, and
    the atom is written at x = 1.0. *)
Lemma refolded_coordinate_reaches_one :
  is_finite (-0x1p-60) = true
  /\ (-0x1p-60 <? 0)%float = true
  /\ vec3_remainder1 (V3 (-0x1p-60) 0 0) = V3 1 0 0
  /\ (remainder1 (-0x1p-60) <? 1)%float = false
  /\ exists bundle tr xsf,
       run (W:=scenario_world below_origin)
           (process_structure_core "data_fe" "cif" "process_structure"
                                   (post_request below_origin))
       = (Ok bundle, tr)
       /\ dict_getitem bundle "xsfstructure" = Ok (VStr xsf)
       /\ str_ends_with (newline ++ "26 1.0 0.0 0.0") xsf = true.
Proof.
  split; [reflexivity|]. split; [reflexivity|].
  split; [vm_compute; reflexivity|]. split; [vm_compute; reflexivity|].
  do 3 eexists. split; [vm_compute; reflexivity|].
  split; [vm_compute; reflexivity|]. vm_compute. reflexivity.
Qed.

(** C8, witness: the record ABAVIJ when its structure file is missing, and
    when its pickle is. *)
Lemma precomputed_load_errors_witness :
  run (W:=scenario_world missing_cif) (process_precomputed_core "ABAVIJ")
  = (Raise (Exc FlaskRedirectException
                ("I tried my best, but I wasn't able to load your file in "
                   ++ "format 'cif'... because of [Errno 2] No such file or "
                   ++ "directory: "
                   ++ "'/app/compute/precomputed/structures/ABAVIJ.cif'")),
     [Debug "dealing with ABAVIJ";
      Debug "building path";
      Debug "structurefilepath is /app/compute/precomputed/structures/ABAVIJ.cif";
      Debug ("Exception [Errno 2] No such file or directory: "
               ++ "'/app/compute/precomputed/structures/ABAVIJ.cif'"
               ++ " when parsing the input")])
  /\ run (W:=scenario_world missing_pickle) (process_precomputed_core "ABAVIJ")
     = (Raise (Exc FlaskRedirectException
                   ("I tried my best, but I wasn't able to load your result "
                      ++ "for 'ABAVIJ'... because of [Errno 2] No such file or "
                      ++ "directory: "
                      ++ "'/app/compute/precomputed/precomputed/ABAVIJ.pkl'")),
        [Debug "dealing with ABAVIJ";
         Debug "building path";
         Debug "structurefilepath is /app/compute/precomputed/structures/ABAVIJ.cif";
         Debug "read pymatgen structure";
         Debug "generated structure tuple";
         Debug "Successfully read structure in {}";
         Debug "reading pickle";
         Debug ("Exception [Errno 2] No such file or directory: "
                  ++ "'/app/compute/precomputed/precomputed/ABAVIJ.pkl'"
                  ++ " when parsing the input")]).
Proof.
  split.
  - apply (proj1 (proj2 (proj2
             (precomputed_load_errors (W:=scenario_world missing_cif) "ABAVIJ"
                (file_not_found "/app/compute/precomputed/structures/ABAVIJ.cif")
                eq_refl)))).
    reflexivity.
  - apply (proj2 (proj2 (proj2
             (precomputed_load_errors (W:=scenario_world missing_pickle) "ABAVIJ"
                (file_not_found "/app/compute/precomputed/precomputed/ABAVIJ.pkl")
                eq_refl))) fe_cubic); reflexivity.
Defined.

(** C8, counterexample: the structure file of ABAVIJ holds no structure; the
    message names the format and the cause, and the id is nowhere in it. *)
Lemma structure_load_error_omits_id :
  exists msg tr,
    run (W:=scenario_world unreadable_cif) (process_precomputed_core "ABAVIJ")
    = (Raise (Exc FlaskRedirectException msg), tr)
    /\ str_contains "ABAVIJ" msg = false
    /\ str_contains "Invalid cif file with no structures!" msg = true.
Proof. eexists. eexists. split; [vm_compute; reflexivity|]. split; reflexivity. Qed.

(** C10, witness: [predictions] raises an [UnboundLocalError]. *)
Lemma prediction_stage_handlers_witness :
  run (W:=scenario_world prediction_unbound)
      (process_structure_core "data_fe" "cif" "process_structure"
                              (post_request prediction_unbound))
  = (Raise (Exc FlaskRedirectException prediction_message),
     [Debug "Successfully read structure in {}";
      Debug "Featurization completed in {}";
      LogMe "data_fe" "cif" "process_structure" "predictionexception"
            [("exception",
              VStr "local variable 'prediction' referenced before assignment")]]).
Proof.
  apply (proj1 (prediction_stage_handlers
                  (W:=scenario_world prediction_unbound)
                  "data_fe" "cif" "process_structure"
                  (post_request prediction_unbound) fe_cubic fe_cubic
                  "feature_array" "feature_value_dict" "metal_indices"
                  "feature_names" (unbound_local "prediction")
                  eq_refl eq_refl (or_introl eq_refl) eq_refl)).
  reflexivity.
Defined.

(** C10, counterexample: the message raised for an [UnboundLocalError] of the
    prediction stage is not the message of a featurization failure. *)
Lemma prediction_message_differs :
  exists m1 m2 tr1 tr2,
    run (W:=scenario_world prediction_unbound)
        (process_structure_core "data_fe" "cif" "process_structure"
                                (post_request prediction_unbound))
    = (Raise (Exc FlaskRedirectException m1), tr1)
    /\ run (W:=scenario_world featurization_fails)
           (process_structure_core "data_fe" "cif" "process_structure"
                                   (post_request featurization_fails))
       = (Raise (Exc FlaskRedirectException m2), tr2)
    /\ String.eqb m1 m2 = false.
Proof.
  do 4 eexists. split; [vm_compute; reflexivity|].
  split; [vm_compute; reflexivity|]. reflexivity.
Qed.

(** C1: after a successful featurization, [predictions] raises a [ValueError].
    [process_structure_core] prints and logs it, goes on to "Prediction done",
    runs the output assembly (the crystal block is bound) and then fails in
    the final [dict(...)] on the unbound [prediction_labels]; the view shows
    the [UnboundLocalError] text, not a prediction-failure message. *)
Theorem prediction_failure_falls_through :
  exists (bound : list (string * @value (scenario_world prediction_fails))) xsf,
    process_structure_core (W:=scenario_world prediction_fails)
      "data_fe" "cif" "process_structure" (post_request prediction_fails)
      (State [] [])
    = (Raise (unbound_local "prediction_labels"),
       State bound
         [Debug "Successfully read structure in {}";
          Debug "Featurization completed in {}";
          Print "bad features";
          LogMe "data_fe" "cif" "process_structure" "predictionexception"
                [("exception", VStr "bad features");
                 ("shape_array",
                  VObj (W:=scenario_world prediction_fails) "shape(feature_array)")];
          Debug "Prediction done in {}"])
    /\ lookup_var "xsfstructure" bound = Some (VStr xsf)
    /\ lookup_var "compute_time" bound = Some VTime
    /\ run (W:=scenario_world prediction_fails)
           (process_structure (post_request prediction_fails))
       = (Ok (Redirect "input_structure"),
          [Debug "Successfully read structure in {}";
           Debug "Featurization completed in {}";
           Print "bad features";
           LogMe "data_fe" "cif" "process_structure" "predictionexception"
                 [("exception", VStr "bad features");
                  ("shape_array",
                  VObj (W:=scenario_world prediction_fails) "shape(feature_array)")];
           Debug "Prediction done in {}";
           Flash ("Unable to process the structure, sorry... local variable "
                    ++ "'prediction_labels' referenced before assignment")]).
Proof.
  do 2 eexists. split; [vm_compute; reflexivity|].
  split; [vm_compute; reflexivity|]. split; vm_compute; reflexivity.
Qed.

(** C2: three atoms against a ceiling of two.  The reader raises
    [LargeStructureError]; its handler in [process_structure_core] reads
    [structure_tuple] before anything was bound to it, so neither the log entry
    nor the message with the limit and the count is produced, and the
    [UnboundLocalError] leaves the function. *)
Theorem large_structure_message_unreachable :
  get_structure_tuple (World:=scenario_world large_scenario) "data_fe" "cif"
  = Raise (Exc LargeStructureError "3")
  /\ run (W:=scenario_world large_scenario)
         (process_structure_core "data_fe" "cif" "process_structure"
                                 (post_request large_scenario))
     = (Raise (unbound_local "structure_tuple"), [])
  /\ run (W:=scenario_world large_scenario)
         (process_structure (post_request large_scenario))
     = (Ok (Redirect "input_structure"),
        [Flash ("Unable to process the structure, sorry... local variable "
                  ++ "'structure_tuple' referenced before assignment")]).
Proof.
  split; [reflexivity|]. split.
  - apply process_structure_core_large with (e := Exc LargeStructureError "3");
      reflexivity.
  - vm_compute; reflexivity.
Qed.

(** C4: the primitive reduction fails inside the assembly.  The live path logs
    the exception under "codeexception" and re-raises it; the precomputed path
    writes a debug line, drops the exception, and fails in the final
    [dict(...)] on the unbound [raw_code]. *)
Theorem precomputed_assembly_failure_masked :
  run (W:=scenario_world primitive_fails)
      (process_structure_core "data_fe" "cif" "process_structure"
                              (post_request primitive_fails))
  = (Raise (Exc ValueError "no primitive cell"),
     [Debug "Successfully read structure in {}";
      Debug "Featurization completed in {}";
      Debug "Prediction done in {}";
      LogMe "data_fe" "cif" "process_structure" "codeexception"
            [("exception", VStr "no primitive cell");
             ("form_data", VObj (W:=scenario_world primitive_fails) "form")]])
  /\ run (W:=scenario_world primitive_fails) (process_precomputed_core "ABAVIJ")
     = (Raise (unbound_local "raw_code"),
        [Debug "dealing with ABAVIJ";
         Debug "building path";
         Debug "structurefilepath is /app/compute/precomputed/structures/ABAVIJ.cif";
         Debug "read pymatgen structure";
         Debug "generated structure tuple";
         Debug "Successfully read structure in {}";
         Debug "reading pickle";
         Debug "Successfully read pickle with precomputed results";
         Debug "Exception no primitive cell when parsing the input"])
  /\ @precomputed_assembly (scenario_world primitive_fails)
     = @structure_assembly (scenario_world primitive_fails).
Proof. split; [vm_compute; reflexivity|]. split; [vm_compute|]; reflexivity. Qed.

(** * Further properties of the code *)

(** ** Failures of the live pipeline, stage by stage *)

Section LiveFailures.
Context {W : World}.
Local Open Scope py_scope.

(** X1: when the reader raises, [process_structure_core] logs one entry and
    raises a [FlaskRedirectException]: for an unknown format the message names
    the format (reason "unknownformat"), for overlapping atoms it is the fixed
    overlap message (reason "overlap"), and for any other [Exception] except
    [LargeStructureError] the message carries the format and the cause (reason
    "exception").  No later stage runs. *)
Theorem reader_failures_reported f ff cs req e :
  get_structure_tuple f ff = Raise e ->
  is_Exception e = true ->
  (exc_class e = UnknownFormatError ->
   run (process_structure_core f ff cs req)
   = (Raise (Exc FlaskRedirectException ("Unknown format '" ++ ff ++ "'")),
      [LogMe f ff cs "unknownformat" [("form_data", VObj (form req))]]))
  /\ (exc_class e = OverlapError ->
      run (process_structure_core f ff cs req)
      = (Raise (Exc FlaskRedirectException
                    "Sorry, there seem to be overlapping errors in the input structure"),
         [LogMe f ff cs "overlap" [("form_data", VObj (form req))]]))
  /\ (exc_class e <> UnknownFormatError ->
      exc_class e <> OverlapError ->
      exc_class e <> LargeStructureError ->
      run (process_structure_core f ff cs req)
      = (Raise (Exc FlaskRedirectException
                    ("I tried my best, but I wasn't able to load your "
                       ++ "file in format '" ++ ff ++ "'... because of "
                       ++ exc_str e)),
         [LogMe f ff cs "exception"
                [("exception", VStr (exc_str e));
                 ("form_data", VObj (form req))]])).
Proof.
  intros H He. destruct e as [c m].
  repeat split; intros; unfold_core; rewrite H;
    destruct c; cbn in *; try congruence; reflexivity.
Qed.

(** X2: when the featurizer raises an [Exception] on a structure that was
    read, [process_structure_core] logs it under "featurizationexception" and
    raises a [FlaskRedirectException] with the featurization message; the
    prediction and the assembly do not run. *)
Theorem featurization_failure_reported f ff cs req t s e :
  get_structure_tuple f ff = Ok (t, s) ->
  _featurize_single s = Raise e ->
  is_Exception e = true ->
  run (process_structure_core f ff cs req)
  = (Raise (Exc FlaskRedirectException featurization_message),
     [Debug "Successfully read structure in {}";
      LogMe f ff cs "featurizationexception" [("exception", VStr (exc_str e))]]).
Proof.
  intros H1 H2 He. unfold_core. rewrite H1. simpl_core. rewrite H2.
  simpl_core. rewrite He. reflexivity.
Qed.

(** X3: an exception that does not derive from [Exception] (a
    [KeyboardInterrupt], say) raised by the reader, the featurizer, the
    prediction stage or the primitive reduction leaves
    [process_structure_core] unchanged, and nothing is logged for it. *)
Theorem interrupts_pass_through f ff cs req e :
  is_Exception e = false ->
  (get_structure_tuple f ff = Raise e ->
   run (process_structure_core f ff cs req) = (Raise e, []))
  /\ (forall t s,
      get_structure_tuple f ff = Ok (t, s) ->
      _featurize_single s = Raise e ->
      run (process_structure_core f ff cs req)
      = (Raise e, [Debug "Successfully read structure in {}"]))
  /\ (forall t s fa fvd mi fn,
      get_structure_tuple f ff = Ok (t, s) ->
      _featurize_single s = Ok (fa, fvd, mi, fn) ->
      prediction_stage_raises fa fvd fn e ->
      run (process_structure_core f ff cs req)
      = (Raise e, [Debug "Successfully read structure in {}";
                   Debug "Featurization completed in {}"]))
  /\ (forall t s fa fvd mi fn po pl ci fo,
      get_structure_tuple f ff = Ok (t, s) ->
      _featurize_single s = Ok (fa, fvd, mi, fn) ->
      predictions fa (dict_keys fvd) = Ok (po, pl, ci) ->
      get_explanations fa pl ci fn DEFAULT_APPROXIMATE = Ok fo ->
      get_primitive_structure s = Raise e ->
      run (process_structure_core f ff cs req) = (Raise e, structure_trace)).
Proof.
  intros He. destruct e as [c m]. destruct c; try discriminate He.
  repeat split.
  - intros H. unfold_core. rewrite H. reflexivity.
  - intros t s H1 H2. unfold_core. rewrite H1. simpl_core. rewrite H2. reflexivity.
  - intros t s fa fvd mi fn H1 H2 [H3|(po & pl & ci & H3 & H4)];
      unfold_core; rewrite H1; simpl_core; rewrite H2; simpl_core; rewrite H3;
      simpl_core; [|rewrite H4]; reflexivity.
  - intros t s fa fvd mi fn po pl ci fo H1 H2 H3 H4 H5.
    unfold_core. rewrite H1. simpl_core. rewrite H2. simpl_core. rewrite H3.
    simpl_core. rewrite H4. simpl_core.
    unfold structure_assembly, get_json_for_visualizer. unfold_core. simpl_core.
    rewrite H5. reflexivity.
Qed.

Lemma np_dot_raises positions c e :
  np_dot positions c = Raise e ->
  e = Exc ValueError "shapes (0,) and (3,3) not aligned: 0 (dim 0) != 3 (dim 0)".
Proof. destruct positions; cbn; intros H; [injection H as <-; reflexivity | discriminate H]. Qed.

Lemma list_getitem_raises table num e :
  list_getitem table num = Raise e -> e = Exc IndexError "list index out of range".
Proof.
  unfold list_getitem.
  destruct (_ && _)%bool; [destruct (nth_error _ _); [discriminate|]|];
    intros H; injection H as <-; reflexivity.
Qed.

Lemma symbol_lookup_raises table numbers e :
  list_comprehension (list_getitem table) numbers = Raise e ->
  e = Exc IndexError "list index out of range".
Proof.
  induction numbers as [|num numbers IH]; cbn; [discriminate|].
  destruct (list_getitem table num) eqn:E.
  - destruct (list_comprehension (list_getitem table) numbers); [discriminate|].
    intros H. injection H as <-. apply IH. reflexivity.
  - intros H. injection H as <-. exact (list_getitem_raises _ _ _ E).
Qed.

(** What the assembly of [process_structure_core] does in a frame that holds
    the structure: it binds its outputs and touches nothing else, or it fails
    with the exception of the primitive reduction, of [np.dot] or of the
    symbol lookup, which its handler logs and raises again. *)
Lemma structure_assemble_outcome f ff cs bound tr t s fd :
  lookup_var "structure_tuple" bound = Some (VStructureTuple t) ->
  lookup_var "s" bound = Some (VStructure s) ->
  lookup_var "start_time" bound = Some VTime ->
  lookup_var "form_data" bound = Some (VObj fd) ->
  (exists bound' raw,
     structure_assemble f ff cs (State bound tr) = (Ok tt, State bound' tr)
     /\ lookup_var "raw_code" bound' = Some (VStr raw)
     /\ forall x,
          In x ["prediction_labels"; "metal_indices"; "predictions_output";
                "featurization_output"] ->
          lookup_var x bound' = lookup_var x bound)
  \/ (exists e' bound',
        structure_assemble f ff cs (State bound tr)
        = (Raise e',
           State bound'
             (tr ++ if is_Exception e'
                    then [LogMe f ff cs "codeexception"
                                [("exception", VStr (exc_str e'));
                                 ("form_data", VObj fd)]]
                    else [])%list)
        /\ (get_primitive_structure s = Raise e'
            \/ e' = Exc ValueError
                        "shapes (0,) and (3,3) not aligned: 0 (dim 0) != 3 (dim 0)"
            \/ e' = Exc IndexError "list index out of range")).
Proof.
  intros B1 B2 B3 B4.
  unfold structure_assemble, structure_assembly, get_json_for_visualizer.
  unfold_core. simpl_core. rewrite B1. simpl_core. rewrite B2. simpl_core.
  destruct (get_primitive_structure s) as [s'|e5] eqn:H5.
  2:{ right. simpl_core. exists e5, bound.
      destruct (is_Exception e5) eqn:He5; simpl_core.
      - rewrite B4. simpl_core. split; [reflexivity | tauto].
      - rewrite app_nil_r. split; [reflexivity | tauto]. }
  simpl_core.
  destruct (np_dot (st_scaled_coords t) (st_cell t)) as [cart|e6] eqn:H6.
  2:{ right. rewrite (np_dot_raises _ _ _ H6). simpl_core. rewrite B4.
      simpl_core. eexists (Exc ValueError _). eexists.
      split; [reflexivity | tauto]. }
  simpl_core.
  destruct (np_dot (st_scaled_coords (tuple_from_pymatgen s'))
                   (st_cell (tuple_from_pymatgen s'))) as [pcart|e7] eqn:H7.
  2:{ right. rewrite (np_dot_raises _ _ _ H7). simpl_core. rewrite B4.
      simpl_core. eexists (Exc ValueError _). eexists.
      split; [reflexivity | tauto]. }
  simpl_core.
  destruct (np_dot (map vec3_remainder1 (st_scaled_coords (tuple_from_pymatgen s')))
                   (st_cell (tuple_from_pymatgen s'))) as [refolded|e8] eqn:H8.
  2:{ right. rewrite (np_dot_raises _ _ _ H8). simpl_core. rewrite B4.
      simpl_core. eexists (Exc ValueError _). eexists.
      split; [reflexivity | tauto]. }
  simpl_core.
  destruct (list_comprehension (list_getitem chemical_symbols)
              (st_atomic_numbers (tuple_from_pymatgen s'))) as [psym|e9] eqn:H9.
  2:{ right. rewrite (symbol_lookup_raises _ _ _ H9). simpl_core. rewrite B4.
      simpl_core. eexists (Exc IndexError _). eexists.
      split; [reflexivity | tauto]. }
  simpl_core.
  destruct (list_comprehension (list_getitem chemical_symbols)
              (st_atomic_numbers t)) as [isym|e10] eqn:H10.
  2:{ right. rewrite (symbol_lookup_raises _ _ _ H10). simpl_core. rewrite B4.
      simpl_core. eexists (Exc IndexError _). eexists.
      split; [reflexivity | tauto]. }
  simpl_core. rewrite B3. simpl_core.
  left. do 2 eexists. split; [reflexivity|]. split; [reflexivity|].
  intros x Hx. cbn in Hx.
  repeat (destruct Hx as [<-|Hx]; [reflexivity|]). destruct Hx.
Qed.

(** The frame in which the prediction stage leaves [process_structure_core]
    when its generic handler has run. *)
Lemma prediction_failure_frame f ff cs req t s fa fvd mi fn e :
  get_structure_tuple f ff = Ok (t, s) ->
  _featurize_single s = Ok (fa, fvd, mi, fn) ->
  prediction_stage_raises fa fvd fn e ->
  is_Exception e = true ->
  exc_class e <> UnboundLocalError ->
  exists bound,
    process_structure_core f ff cs req (State [] [])
    = (emit (Debug "Prediction done in {}") ;;
       structure_assemble f ff cs ;;
       build_dict output_items)
        (State bound
               [Debug "Successfully read structure in {}";
                Debug "Featurization completed in {}";
                Print (exc_str e);
                LogMe f ff cs "predictionexception"
                      [("exception", VStr (exc_str e));
                       ("shape_array", VObj (array_shape fa))]])
    /\ lookup_var "structure_tuple" bound = Some (VStructureTuple t)
    /\ lookup_var "s" bound = Some (VStructure s)
    /\ lookup_var "start_time" bound = Some VTime
    /\ lookup_var "form_data" bound = Some (VObj (form req))
    /\ (lookup_var "prediction_labels" bound = None
        \/ exists pl po,
             lookup_var "prediction_labels" bound = Some (VObj pl)
             /\ lookup_var "metal_indices" bound = Some (VObj mi)
             /\ lookup_var "predictions_output" bound = Some (VObj po)
             /\ lookup_var "featurization_output" bound = None).
Proof.
  intros H1 H2 H3 He Hc.
  destruct H3 as [H3|(po & pl & ci & H3 & H4)].
  - eexists. split.
    + unfold_core. rewrite H1. simpl_core. rewrite H2. simpl_core. rewrite H3.
      destruct e as [c m]; destruct c; cbn in He, Hc; try congruence;
        simpl_core; reflexivity.
    + repeat (split; [reflexivity|]). left. reflexivity.
  - eexists. split.
    + unfold_core. rewrite H1. simpl_core. rewrite H2. simpl_core. rewrite H3.
      simpl_core. rewrite H4.
      destruct e as [c m]; destruct c; cbn in He, Hc; try congruence;
        simpl_core; reflexivity.
    + repeat (split; [reflexivity|]). right. exists pl, po.
      repeat split; reflexivity.
Qed.

(** X4: an [Exception] other than [UnboundLocalError] in the prediction
    stage is printed and logged under "predictionexception", "Prediction
    done" is written, and [process_structure_core] then always raises: when
    the assembly fails, the exception of the assembly (that of the primitive
    reduction, the [ValueError] of [np.dot] on an empty cell or the
    [IndexError] of the symbol lookup), logged under "codeexception" if it
    is an [Exception]; when the assembly succeeds, the [UnboundLocalError]
    of the final [dict(...)] on [prediction_labels] or on
    [featurization_output].  The feature array is taken to have a [shape]. *)
Theorem prediction_failure_is_never_reported f ff cs req t s fa fvd mi fn e :
  get_structure_tuple f ff = Ok (t, s) ->
  _featurize_single s = Ok (fa, fvd, mi, fn) ->
  prediction_stage_raises fa fvd fn e ->
  is_Exception e = true ->
  exc_class e <> UnboundLocalError ->
  exists e' rest,
    run (process_structure_core f ff cs req)
    = (Raise e',
       ([Debug "Successfully read structure in {}";
         Debug "Featurization completed in {}";
         Print (exc_str e);
         LogMe f ff cs "predictionexception"
               [("exception", VStr (exc_str e));
                ("shape_array", VObj (array_shape fa))];
         Debug "Prediction done in {}"] ++ rest)%list)
    /\ ((rest = []
         /\ (e' = unbound_local "prediction_labels"
             \/ e' = unbound_local "featurization_output"))
        \/ (rest = (if is_Exception e'
                    then [LogMe f ff cs "codeexception"
                                [("exception", VStr (exc_str e'));
                                 ("form_data", VObj (form req))]]
                    else [])
            /\ (get_primitive_structure s = Raise e'
                \/ e' = Exc ValueError
                            "shapes (0,) and (3,3) not aligned: 0 (dim 0) != 3 (dim 0)"
                \/ e' = Exc IndexError "list index out of range"))).
Proof.
  intros H1 H2 H3 He Hc.
  destruct (prediction_failure_frame f ff cs req t s fa fvd mi fn e H1 H2 H3 He Hc)
    as (bound & Heq & B1 & B2 & B3 & B4 & B5).
  unfold run. rewrite Heq. clear Heq.
  unfold bind at 1. cbn [emit vars trace app]. unfold bind at 1.
  match goal with |- context [structure_assemble f ff cs (State bound ?tr5)] =>
    destruct (structure_assemble_outcome f ff cs bound tr5 t s (form req)
                B1 B2 B3 B4)
      as [(bound' & raw & -> & R & K)|(e' & bound' & -> & D)]
  end.
  - exists (match lookup_var "prediction_labels" bound with
            | Some _ => unbound_local "featurization_output"
            | None => unbound_local "prediction_labels"
            end), [].
    assert (K1 := K "prediction_labels" ltac:(cbn; tauto)).
    assert (K2 := K "metal_indices" ltac:(cbn; tauto)).
    assert (K3 := K "predictions_output" ltac:(cbn; tauto)).
    assert (K4 := K "featurization_output" ltac:(cbn; tauto)).
    unfold build_dict, output_items. unfold_core. simpl_core. rewrite R.
    simpl_core.
    destruct B5 as [N|(pl & po & P1 & P2 & P3 & P4)].
    + rewrite K1, N. simpl_core. split; [reflexivity|]. left. tauto.
    + rewrite K1, P1. simpl_core. rewrite K2, P2. simpl_core.
      rewrite K3, P3. simpl_core. rewrite K4, P4. simpl_core.
      split; [reflexivity|]. left. tauto.
  - exists e'. eexists. split; [reflexivity|]. right. split; [reflexivity | exact D].
Qed.

End LiveFailures.

(** ** When the live pipeline returns *)

Section LiveSuccess.
Context {W : World}.
Local Open Scope py_scope.

Lemma list_comprehension_total {A B} (f : A -> result B) xs :
  (forall x, In x xs -> exists y, f x = Ok y) ->
  exists ys, list_comprehension f xs = Ok ys.
Proof.
  induction xs as [|x xs IH]; intros H; cbn; [eauto|].
  destruct (H x (or_introl eq_refl)) as [y ->].
  destruct IH as [ys ->]; [intros; apply H; right; assumption|]. eauto.
Qed.

Lemma list_getitem_in_range table z sym :
  list_getitem table z = Ok sym ->
  (- Z.of_nat (List.length table) <= z < Z.of_nat (List.length table))%Z.
Proof.
  unfold list_getitem.
  set (i := if (z <? 0)%Z then (z + Z.of_nat (List.length table))%Z else z).
  assert (Hi : i = if (z <? 0)%Z then (z + Z.of_nat (List.length table))%Z else z)
    by reflexivity.
  destruct (Z.leb_spec 0 i); [|discriminate].
  destruct (Z.ltb_spec i (Z.of_nat (List.length table))); [|discriminate].
  intros _. destruct (Z.ltb_spec z 0); lia.
Qed.

Lemma list_getitem_total table z :
  (- Z.of_nat (List.length table) <= z < Z.of_nat (List.length table))%Z ->
  exists sym, list_getitem table z = Ok sym.
Proof.
  intros H. unfold list_getitem.
  set (i := if (z <? 0)%Z then (z + Z.of_nat (List.length table))%Z else z).
  assert (Hi : (0 <= i < Z.of_nat (List.length table))%Z).
  { unfold i. destruct (Z.ltb_spec z 0); lia. }
  destruct (Z.leb_spec 0 i); [|lia].
  destruct (Z.ltb_spec i (Z.of_nat (List.length table))); [|lia].
  cbn [andb].
  destruct (nth_error table (Z.to_nat i)) eqn:E; [eauto|].
  apply nth_error_None in E. lia.
Qed.

Lemma np_dot_total positions c :
  positions <> [] -> np_dot positions c = Ok (map (fun p => row_dot p c) positions).
Proof. destruct positions; [contradiction | reflexivity]. Qed.

(** X5: [process_structure_core] returns whenever its collaborators do and
    the data allow it: if the reader, the featurizer, the predictor, the
    explainer and the primitive reduction succeed, the input and the primitive
    cell hold at least one site each, and every atomic number indexes
    [chemical_symbols], the function returns the bundle built from those
    values and writes the three debug lines only. *)
Theorem process_structure_core_succeeds
    f ff cs req t s fa fvd mi fn po pl ci fo pr :
  get_structure_tuple f ff = Ok (t, s) ->
  _featurize_single s = Ok (fa, fvd, mi, fn) ->
  predictions fa (dict_keys fvd) = Ok (po, pl, ci) ->
  get_explanations fa pl ci fn DEFAULT_APPROXIMATE = Ok fo ->
  get_json_for_visualizer s = Ok pr ->
  st_scaled_coords t <> [] ->
  primitive_positions pr <> [] ->
  (forall z, In z (st_atomic_numbers t) \/ In z (primitive_types pr) ->
             indexes_symbols z) ->
  exists psym isym,
    list_comprehension (list_getitem chemical_symbols) (primitive_types pr) = Ok psym
    /\ list_comprehension (list_getitem chemical_symbols) (st_atomic_numbers t)
       = Ok isym
    /\ run (process_structure_core f ff cs req)
       = (Ok (output_bundle t pr
                (map (fun p => row_dot p (st_cell t)) (st_scaled_coords t))
                (map (fun p => row_dot p (primitive_lattice pr))
                     (primitive_positions pr))
                (map (fun p => row_dot p (primitive_lattice pr))
                     (map vec3_remainder1 (primitive_positions pr)))
                psym isym pl mi po fo fvd),
          structure_trace).
Proof.
  intros H1 H2 H3 H4 H5 N1 N2 Hr.
  destruct (list_comprehension_total (list_getitem chemical_symbols)
              (primitive_types pr)) as [psym Hp].
  { intros z Hz. apply list_getitem_total, Hr. right. exact Hz. }
  destruct (list_comprehension_total (list_getitem chemical_symbols)
              (st_atomic_numbers t)) as [isym Hi].
  { intros z Hz. apply list_getitem_total, Hr. left. exact Hz. }
  exists psym, isym. split; [exact Hp|]. split; [exact Hi|].
  assert (N3 : map vec3_remainder1 (primitive_positions pr) <> []).
  { destruct (primitive_positions pr); [contradiction | discriminate]. }
  unfold_core. rewrite H1. simpl_core. rewrite H2. simpl_core.
  rewrite H3. simpl_core. rewrite H4. simpl_core.
  unfold structure_assembly. unfold_core. simpl_core.
  rewrite H5. simpl_core.
  rewrite (np_dot_total _ _ N1). simpl_core.
  rewrite (np_dot_total _ _ N2). simpl_core.
  rewrite (np_dot_total _ _ N3). simpl_core.
  rewrite Hp. simpl_core. rewrite Hi. simpl_core.
  unfold build_dict, output_items. unfold_core. simpl_core.
  unfold output_bundle, xsf_lines, format_count, structure_trace.
  rewrite !length_map. reflexivity.
Qed.

(** X6: conversely, a bundle is returned only for an input with at least one
    site, whose primitive cell has at least one site, and whose atomic
    numbers, input and primitive, all index [chemical_symbols]. *)
Theorem returned_bundle_needs_indexable_numbers f ff cs req bundle tr t s pr :
  run (process_structure_core f ff cs req) = (Ok bundle, tr) ->
  get_structure_tuple f ff = Ok (t, s) ->
  get_json_for_visualizer s = Ok pr ->
  st_scaled_coords t <> []
  /\ primitive_positions pr <> []
  /\ forall z, In z (st_atomic_numbers t) \/ In z (primitive_types pr) ->
               indexes_symbols z.
Proof.
  intros H Ht Hpr.
  destruct (process_structure_core_returns _ _ _ _ _ _ H)
    as (t' & s' & fa & fvd & mi & fn & po & pl & ci & fo & pr' & cart & pcart
        & refolded & psym & isym & H1 & _ & _ & _ & H5 & H6 & H7 & _ & H9 & H10 & _).
  rewrite Ht in H1. injection H1 as <- <-. rewrite Hpr in H5. injection H5 as <-.
  split; [exact (proj2 (np_dot_ok _ _ _ H6))|].
  split; [exact (proj2 (np_dot_ok _ _ _ H7))|].
  intros z Hz.
  destruct Hz as [Hz|Hz]; apply In_nth_error in Hz; destruct Hz as [i Hi].
  - destruct (proj2 (list_comprehension_ok _ _ _ H10) i z Hi) as (sym & Hs & _).
    exact (list_getitem_in_range _ _ _ Hs).
  - destruct (proj2 (list_comprehension_ok _ _ _ H9) i z Hi) as (sym & Hs & _).
    exact (list_getitem_in_range _ _ _ Hs).
Qed.

End LiveSuccess.

(** ** Refolding a coordinate that is already inside the cell *)

Lemma below_one_exponent x m e :
  Prim2SF x = S754_finite false m e ->
  SFltb (S754_finite false m e) (S754_finite false two52 (-52)) = true ->
  (e <= -53)%Z /\ (Z.pos m < 2 ^ (- e))%Z
  /\ fexp prec emax (Z.pos (digits2_pos m) + e) = e.
Proof.
  intros E H1.
  destruct (finite_canonical x false m e E) as [Hd He].
  pose proof (Prim2SF_valid x) as V. rewrite E in V.
  unfold valid_binary in V. cbn [SpecFloat.valid_binary] in V.
  unfold bounded, canonical_mantissa in V.
  apply andb_prop in V. destruct V as [V _]. apply Z.eqb_eq in V.
  pose proof (digits2_bounds m) as [B1 B2].
  assert (He53 : (e <= -53)%Z).
  { unfold SFltb, SFcompare in H1. rewrite fexp64 in V.
    destruct (Z.compare_spec e (-52)) as [Heq|Hlt|Hgt]; [|lia|discriminate H1].
    exfalso. subst e.
    assert (D53 : Z.pos (digits2_pos m) = 53%Z) by lia.
    destruct (Pos.compare_cont Eq m two52) eqn:C; try discriminate H1.
    assert (L : (m < two52)%positive) by exact C.
    rewrite D53 in B1.
    assert (P52 : (2 ^ (53 - 1))%Z = Z.pos two52) by (vm_compute; reflexivity).
    rewrite P52 in B1. assert (H : (two52 <= m)%positive) by exact B1.
    exact (Pos.lt_irrefl _ (Pos.lt_le_trans _ _ _ L H)). }
  split; [exact He53|]. split; [|exact V].
  assert (2 ^ Z.pos (digits2_pos m) <= 2 ^ (- e))%Z by (apply Z.pow_le_mono_r; lia).
  lia.
Qed.

(** X7: the modulo of the refolding leaves a coordinate strictly between 0
    and 1 exactly as it is: [x % 1.0 == x], bit for bit, for every binary64
    [x] with [0 < x < 1]. *)
Theorem remainder1_fixes_unit_interval x :
  (0 <? x)%float = true -> (x <? 1)%float = true -> remainder1 x = x.
Proof.
  intros H0 H1. rewrite ltb_spec in H0, H1.
  rewrite Prim2SF_zero in H0. rewrite Prim2SF_one in H1.
  destruct (Prim2SF x) as [s|s| |s m e] eqn:E;
    try discriminate H0; try (destruct s; discriminate).
  destruct s; [discriminate H0|].
  destruct (below_one_exponent x m e E H1) as (He & Hm & V).
  assert (F : fmod1 x = x).
  { unfold fmod1. rewrite E.
    destruct (Z.leb_spec 0 e); [lia|].
    rewrite Z.mod_small by lia. unfold aligned, shl_align. rewrite V, Z.sub_diag.
    rewrite <- E. apply SF2Prim_Prim2SF. }
  unfold remainder1. rewrite F.
  rewrite FloatAxioms.eqb_spec, ltb_spec, E, Prim2SF_zero. reflexivity.
Qed.

(** ** The precomputed pipeline once the record has loaded *)

Section PrecomputedRuns.
Context {W : World}.
Local Open Scope py_scope.

(** The frame of [process_precomputed_core] once the record has loaded. *)
Lemma precomputed_loaded name s vals :
  CifParser_get_structures_0 (structures_path name) = Ok s ->
  read_payload name = Ok vals ->
  exists fa fvd mi fn ms po pl fo,
    vals = [fa; fvd; mi; fn; ms; po; pl; fo]
    /\ process_precomputed_core name (State [] [])
       = (try_except precomputed_assembly
            (fun e =>
               if is_Exception e then
                 emit (Debug ("Exception " ++ exc_str e ++ " when parsing the input"))
               else raise e) ;;
          build_dict output_items)
           (State [("featurization_output", VObj fo);
                   ("prediction_labels", VObj pl);
                   ("predictions_output", VObj po);
                   ("metal_sites", VObj ms);
                   ("feature_names", VObj fn);
                   ("metal_indices", VObj mi);
                   ("feature_value_dict", VObj fvd);
                   ("feature_array", VObj fa);
                   ("structure_tuple", VStructureTuple (tuple_from_pymatgen s));
                   ("s", VStructure s);
                   ("fileformat", VStr "cif");
                   ("start_time", VTime)]
                  (precomputed_trace name)).
Proof.
  intros H1 H2. unfold read_payload in H2.
  destruct (load_pickle (precomputed_path name)) as [d|e0] eqn:Hd; [|discriminate H2].
  unfold payload_keys in H2. cbn [list_comprehension] in H2.
  repeat match type of H2 with
  | context [dict_getitem d ?k] =>
      let E := fresh "E" in
      destruct (dict_getitem d k) as [?|?] eqn:E; [|discriminate H2]
  end.
  injection H2 as <-.
  do 8 eexists. split; [reflexivity|].
  unfold_core. fold (structures_path name). fold (precomputed_path name).
  rewrite H1. simpl_core. rewrite Hd. simpl_core.
  rewrite E, E0, E1, E2, E3, E4, E5, E6. simpl_core. reflexivity.
Qed.

(** X8: once the structure file and the payload of a record have loaded, the
    only [Exception] [process_precomputed_core] can raise is an
    [UnboundLocalError] of its final [dict(...)]: whatever the assembly raises
    is dropped by its handler. *)
Theorem precomputed_raises_only_unbound_locals name s vals e tr :
  CifParser_get_structures_0 (structures_path name) = Ok s ->
  read_payload name = Ok vals ->
  run (process_precomputed_core name) = (Raise e, tr) ->
  is_Exception e = true ->
  exists x, e = unbound_local x.
Proof.
  intros H1 H2 H He.
  destruct (precomputed_loaded name s vals H1 H2)
    as (fa & fvd & mi & fn & ms & po & pl & fo & _ & Heq).
  unfold run in H. rewrite Heq in H. clear Heq.
  unfold bind at 1, try_except in H.
  match type of H with context [precomputed_assembly ?st] =>
    destruct (precomputed_assembly st) as [[[]|e1] st1]
  end.
  - destruct (build_dict output_items st1) as [[b|e2] st2] eqn:B; [discriminate H|].
    injection H as -> _.
    destruct (build_dict_raises _ _ _ _ B output_items_shape) as (x & -> & _).
    eauto.
  - destruct (is_Exception e1) eqn:He1.
    + cbn [emit] in H.
      match type of H with context [build_dict output_items ?st] =>
        destruct (build_dict output_items st) as [[b|e2] st2] eqn:B
      end; [discriminate H|].
      injection H as -> _.
      destruct (build_dict_raises _ _ _ _ B output_items_shape) as (x & -> & _).
      eauto.
    + unfold raise in H. injection H as -> _. congruence.
Qed.

(** X9: for every loaded record whose primitive reduction raises an
    [Exception], [process_precomputed_core] writes the cause to the debug log
    only and raises [UnboundLocalError] on [raw_code]. *)
Theorem precomputed_reduction_failure_masked name s vals e :
  CifParser_get_structures_0 (structures_path name) = Ok s ->
  read_payload name = Ok vals ->
  get_primitive_structure s = Raise e ->
  is_Exception e = true ->
  run (process_precomputed_core name)
  = (Raise (unbound_local "raw_code"),
     (precomputed_trace name
        ++ [Debug ("Exception " ++ exc_str e ++ " when parsing the input")])%list).
Proof.
  intros H1 H2 H3 He.
  destruct (precomputed_loaded name s vals H1 H2)
    as (fa & fvd & mi & fn & ms & po & pl & fo & _ & Heq).
  unfold run. rewrite Heq. clear Heq.
  unfold precomputed_assembly, get_json_for_visualizer, build_dict, output_items.
  unfold_core. simpl_core. rewrite H3. simpl_core. rewrite He. reflexivity.
Qed.

Lemma process_precomputed_core_returns name bundle tr :
  run (process_precomputed_core name) = (Ok bundle, tr) ->
  exists s fa fvd mi fn ms po pl fo pr cart pcart refolded psym isym,
    CifParser_get_structures_0 (structures_path name) = Ok s
    /\ read_payload name = Ok [fa; fvd; mi; fn; ms; po; pl; fo]
    /\ get_json_for_visualizer s = Ok pr
    /\ np_dot (st_scaled_coords (tuple_from_pymatgen s))
              (st_cell (tuple_from_pymatgen s)) = Ok cart
    /\ np_dot (primitive_positions pr) (primitive_lattice pr) = Ok pcart
    /\ np_dot (map vec3_remainder1 (primitive_positions pr)) (primitive_lattice pr)
       = Ok refolded
    /\ list_comprehension (list_getitem chemical_symbols) (primitive_types pr) = Ok psym
    /\ list_comprehension (list_getitem chemical_symbols)
                          (st_atomic_numbers (tuple_from_pymatgen s)) = Ok isym
    /\ bundle = output_bundle (tuple_from_pymatgen s) pr cart pcart refolded
                              psym isym pl mi po fo fvd
    /\ tr = precomputed_trace name.
Proof.
  intros H.
  destruct (CifParser_get_structures_0 (structures_path name)) as [s|e1] eqn:H1.
  2:{ exfalso. revert H. unfold_core. fold (structures_path name). rewrite H1.
      destruct e1 as [c m]; destruct c; simpl_core; discriminate. }
  destruct (read_payload name) as [vals|e2] eqn:H2.
  2:{ exfalso. revert H. unfold read_payload in H2. unfold_core.
      fold (structures_path name). fold (precomputed_path name).
      rewrite H1. simpl_core.
      destruct (load_pickle (precomputed_path name)) as [d|e0].
      - simpl_core. unfold payload_keys in H2. cbn [list_comprehension] in H2.
        repeat match type of H2 with
        | context [dict_getitem d ?k] =>
            destruct (dict_getitem d k) as [?|?]; simpl_core;
            [| injection H2 as ->; destruct (is_Exception e2); discriminate]
        end.
        discriminate H2.
      - injection H2 as ->. simpl_core. destruct (is_Exception e2); discriminate. }
  destruct (precomputed_loaded name s vals H1 H2)
    as (fa & fvd & mi & fn & ms & po & pl & fo & -> & Heq).
  unfold run in H. rewrite Heq in H. clear Heq. revert H.
  unfold precomputed_assembly, build_dict, output_items. unfold_core. simpl_core.
  destruct (get_json_for_visualizer s) as [pr|e5] eqn:H5.
  2:{ destruct e5 as [c m]; destruct c; simpl_core; discriminate. }
  simpl_core.
  destruct (np_dot (st_scaled_coords (tuple_from_pymatgen s))
                   (st_cell (tuple_from_pymatgen s))) as [cart|e6] eqn:H6.
  2:{ destruct e6 as [c m]; destruct c; simpl_core; discriminate. }
  simpl_core.
  destruct (np_dot (primitive_positions pr) (primitive_lattice pr)) as [pcart|e7] eqn:H7.
  2:{ destruct e7 as [c m]; destruct c; simpl_core; discriminate. }
  simpl_core.
  destruct (np_dot (map vec3_remainder1 (primitive_positions pr)) (primitive_lattice pr))
    as [refolded|e8] eqn:H8.
  2:{ destruct e8 as [c m]; destruct c; simpl_core; discriminate. }
  simpl_core.
  destruct (list_comprehension (list_getitem chemical_symbols) (primitive_types pr))
    as [psym|e9] eqn:H9.
  2:{ destruct e9 as [c m]; destruct c; simpl_core; discriminate. }
  simpl_core.
  destruct (list_comprehension (list_getitem chemical_symbols)
                               (st_atomic_numbers (tuple_from_pymatgen s)))
    as [isym|e10] eqn:H10.
  2:{ destruct e10 as [c m]; destruct c; simpl_core; discriminate. }
  simpl_core.
  intros H. injection H as <- <-.
  exists s, fa, fvd, mi, fn, ms, po, pl, fo, pr, cart, pcart, refolded, psym, isym.
  repeat (split; [assumption || reflexivity|]).
  split; [|reflexivity].
  unfold output_bundle, xsf_lines, format_count.
  destruct (np_dot_ok _ _ _ H8) as [-> _]. rewrite !length_map.
  reflexivity.
Qed.

(** X10: for the same structure, a returned precomputed bundle and a
    returned live bundle have the same keys in the same order, and agree on
    the model version and on every table, code listing and crystal block the
    assembly computes from the structure; they can differ only in the elapsed
    time and in the five values taken from the pickle or from the model. *)
Theorem precomputed_bundle_matches_live name f ff cs req s b1 tr1 b2 tr2 :
  CifParser_get_structures_0 (structures_path name) = Ok s ->
  get_structure_tuple f ff = Ok (tuple_from_pymatgen s, s) ->
  run (process_precomputed_core name) = (Ok b1, tr1) ->
  run (process_structure_core f ff cs req) = (Ok b2, tr2) ->
  map fst b1 = map fst b2
  /\ forall key, In key assembly_keys -> dict_getitem b1 key = dict_getitem b2 key.
Proof.
  intros Hs Ht R1 R2.
  destruct (process_precomputed_core_returns _ _ _ R1)
    as (s1 & fa1 & fvd1 & mi1 & fn1 & ms1 & po1 & pl1 & fo1 & pr1 & cart1 & pcart1
        & refolded1 & psym1 & isym1 & A1 & _ & A3 & A4 & A5 & A6 & A7 & A8 & -> & _).
  destruct (process_structure_core_returns _ _ _ _ _ _ R2)
    as (t2 & s2 & fa & fvd & mi & fn & po & pl & ci & fo & pr2 & cart2 & pcart2
        & refolded2 & psym2 & isym2 & B1 & _ & _ & _ & B5 & B6 & B7 & B8 & B9 & B10
        & -> & _).
  rewrite Hs in A1. injection A1 as <-. rewrite Ht in B1. injection B1 as <- <-.
  rewrite A3 in B5. injection B5 as <-.
  rewrite A4 in B6. injection B6 as <-.
  rewrite A5 in B7. injection B7 as <-.
  rewrite A6 in B8. injection B8 as <-.
  rewrite A7 in B9. injection B9 as <-.
  rewrite A8 in B10. injection B10 as <-.
  split; [reflexivity|].
  intros key Hk. cbn in Hk.
  repeat (destruct Hk as [<-|Hk]; [reflexivity|]). destruct Hk.
Qed.

Lemma has_char_app c a b : has_char c (a ++ b) = has_char c a || has_char c b.
Proof.
  induction a as [|x a IH]; cbn; [reflexivity|]. rewrite IH, orb_assoc. reflexivity.
Qed.

Lemma str_replace_removes old new s :
  has_char old new = false -> has_char old (str_replace old new s) = false.
Proof.
  intros H. induction s as [|a s IH]; cbn; [reflexivity|].
  destruct (Ascii.eqb a old) eqn:E.
  - rewrite has_char_app, H, IH. reflexivity.
  - cbn. rewrite E, IH. reflexivity.
Qed.

Lemma str_replace_keeps_out c old new s :
  has_char c new = false -> has_char c s = false ->
  has_char c (str_replace old new s) = false.
Proof.
  intros H. induction s as [|a s IH]; cbn; [reflexivity|].
  intros Hs. apply orb_false_iff in Hs. destruct Hs as [Ha Hs].
  destruct (Ascii.eqb a old).
  - rewrite has_char_app, H, IH by assumption. reflexivity.
  - cbn. rewrite Ha, IH by assumption. reflexivity.
Qed.

Lemma output_bundle_raw_code t pr cart pcart refolded psym isym pl mi po fo fvd :
  exists raw,
    dict_getitem (output_bundle t pr cart pcart refolded psym isym pl mi po fo fvd)
                 "raw_code" = Ok (VStr raw)
    /\ has_char " " raw = false
    /\ has_char (ascii_of_nat 10) raw = false.
Proof.
  eexists. split; [reflexivity|]. split.
  - apply str_replace_removes. reflexivity.
  - apply str_replace_keeps_out; [reflexivity|].
    apply str_replace_removes. reflexivity.
Qed.

(** X11: every bundle either pipeline returns has exactly the fifteen keys
    of the final [dict(...)], in that order, and its [raw_code] is a string
    with no space and no line feed, whatever [json.dumps] and the escaping
    produced: both were replaced by markup. *)
Theorem raw_code_has_no_space_or_newline name f ff cs req bundle tr :
  run (process_structure_core f ff cs req) = (Ok bundle, tr)
  \/ run (process_precomputed_core name) = (Ok bundle, tr) ->
  map fst bundle = output_keys
  /\ exists raw,
      dict_getitem bundle "raw_code" = Ok (VStr raw)
      /\ has_char " " raw = false
      /\ has_char (ascii_of_nat 10) raw = false.
Proof.
  intros [H|H].
  - destruct (process_structure_core_returns _ _ _ _ _ _ H)
      as (t & s & fa & fvd & mi & fn & po & pl & ci & fo & pr & cart & pcart
          & refolded & psym & isym & _ & _ & _ & _ & _ & _ & _ & _ & _ & _ & -> & _).
    split; [reflexivity | apply output_bundle_raw_code].
  - destruct (process_precomputed_core_returns _ _ _ H)
      as (s & fa & fvd & mi & fn & ms & po & pl & fo & pr & cart & pcart
          & refolded & psym & isym & _ & _ & _ & _ & _ & _ & _ & _ & -> & _).
    split; [reflexivity | apply output_bundle_raw_code].
Qed.

End PrecomputedRuns.

(** ** The trace of a request and the answer of a view *)

Section Views.
Context {W : World}.
Local Open Scope py_scope.

Lemma emits_silent {A} P (m : M A) :
  (forall st r st', m st = (r, st') -> trace st' = trace st) -> emits P m.
Proof.
  intros H st r st' E. exists []. rewrite app_nil_r. split; [eauto | constructor].
Qed.

Lemma emits_ret {A} P (a : A) : emits P (ret a).
Proof. apply emits_silent. intros st r st' H. inversion H. reflexivity. Qed.

Lemma emits_raise {A} P e : emits P (@raise W A e).
Proof. apply emits_silent. intros st r st' H. inversion H. reflexivity. Qed.

Lemma emits_call {A} P (c : result A) : emits P (call c).
Proof. apply emits_silent. intros st r st' H. inversion H. reflexivity. Qed.

Lemma emits_assign P x v : emits P (assign x v).
Proof. apply emits_silent. intros st r st' H. inversion H. reflexivity. Qed.

Lemma emits_load P x : emits P (load x).
Proof.
  apply emits_silent. intros st r st' H. unfold load in H.
  destruct (lookup_var x (vars st)); inversion H; reflexivity.
Qed.

Lemma emits_emit (P : event -> Prop) ev : P ev -> emits P (emit ev).
Proof.
  intros HP st r st' H. inversion H. exists [ev]. split; [reflexivity|].
  constructor; [assumption | constructor].
Qed.

Lemma emits_bind {A B} P (m : M A) (k : A -> M B) :
  emits P m -> (forall a, emits P (k a)) -> emits P (bind m k).
Proof.
  intros Hm Hk st r st' H. unfold bind in H.
  destruct (m st) as [[a|e] st1] eqn:E.
  - destruct (Hm _ _ _ E) as (ev1 & T1 & F1).
    destruct (Hk a _ _ _ H) as (ev2 & T2 & F2).
    exists (ev1 ++ ev2)%list. rewrite T2, T1, app_assoc. split; [reflexivity|].
    apply Forall_app. split; assumption.
  - inversion H; subst. exact (Hm _ _ _ E).
Qed.

Lemma emits_try {A} P (m : M A) (h : exc -> M A) :
  emits P m -> (forall e, emits P (h e)) -> emits P (try_except m h).
Proof.
  intros Hm Hh st r st' H. unfold try_except in H.
  destruct (m st) as [[a|e] st1] eqn:E.
  - inversion H; subst. exact (Hm _ _ _ E).
  - destruct (Hm _ _ _ E) as (ev1 & T1 & F1).
    destruct (Hh e _ _ _ H) as (ev2 & T2 & F2).
    exists (ev1 ++ ev2)%list. rewrite T2, T1, app_assoc. split; [reflexivity|].
    apply Forall_app. split; assumption.
Qed.

Lemma emits_invoke {A} P (m : M A) : emits P m -> emits P (invoke m).
Proof.
  intros Hm st r st' H. unfold invoke in H.
  destruct (m (State [] (trace st))) as [r1 st1] eqn:E.
  inversion H; subst. cbn [trace]. exact (Hm _ _ _ E).
Qed.

Lemma emits_weaken {A} (P Q : event -> Prop) (m : M A) :
  (forall ev, P ev -> Q ev) -> emits P m -> emits Q m.
Proof.
  intros HPQ Hm st r st' H. destruct (Hm _ _ _ H) as (evs & T & F).
  exists evs. split; [exact T|]. exact (Forall_impl Q HPQ F).
Qed.

Ltac trace_step :=
  first
    [ apply emits_ret | apply emits_raise | apply emits_call | apply emits_assign
    | apply emits_load | apply emits_emit; exact I
    | apply emits_bind; [|intro] | apply emits_try; [|intro]
    | apply emits_invoke
    | match goal with |- emits _ (if ?b then _ else _) => destruct b end
    | match goal with |- emits _ (match ?x with _ => _ end) => destruct x end
    | match goal with |- emits _ (let '(_, _) := ?x in _) => destruct x end ].

Lemma emits_build_dict P items :
  Forall (fun km : string * M value => emits P (snd km)) items ->
  emits P (build_dict items).
Proof.
  induction 1 as [|[k m] items Hm _ IH]; cbn [build_dict]; [apply emits_ret|].
  apply emits_bind; [exact Hm|]. intros v.
  apply emits_bind; [exact IH|]. intros d. apply emits_ret.
Qed.

Lemma emits_output_items P : emits P (build_dict output_items).
Proof.
  apply emits_build_dict. unfold output_items.
  repeat (constructor; [cbn [snd]; first [apply emits_load | apply emits_ret]|]).
  constructor.
Qed.

Lemma process_precomputed_core_debug_only name :
  emits is_debug (process_precomputed_core name).
Proof.
  unfold process_precomputed_core, precomputed_read_structure,
    precomputed_read_pickle, precomputed_assembly, assign_item,
    load_structure_tuple, load_structure, load_obj, load_str, type_error.
  repeat first [apply emits_output_items | trace_step].
Qed.

Lemma process_structure_core_never_flashes f ff cs req :
  emits not_flash (process_structure_core f ff cs req).
Proof.
  unfold process_structure_core, structure_read, structure_featurize,
    structure_predict, structure_assemble, structure_assembly,
    load_structure_tuple, load_structure, load_obj, load_str, type_error.
  repeat first [apply emits_output_items | trace_step].
Qed.

Lemma count_flash_app a b : count_flash (a ++ b) = (count_flash a + count_flash b)%nat.
Proof. unfold count_flash. rewrite filter_app, length_app. reflexivity. Qed.

Lemma count_flash_none evs : Forall not_flash evs -> count_flash evs = 0%nat.
Proof.
  induction 1 as [|ev evs H _ IH]; [reflexivity|].
  unfold count_flash in *. cbn. destruct ev; cbn; try assumption. destruct H.
Qed.

(** X12: whatever the record and however it fails, [process_precomputed_core]
    writes debug lines only, and a [process_precomputed] request writes
    nothing but debug lines and what the view flashes: no failure of the
    precomputed path reaches the request log ([logme]) or the console. *)
Theorem precomputed_failures_reach_only_the_debug_log name :
  Forall is_debug (snd (run (process_precomputed_core name)))
  /\ forall req, Forall debug_or_flash (snd (run (process_precomputed name req))).
Proof.
  split.
  - unfold run.
    destruct (process_precomputed_core name (State [] [])) as [r st] eqn:E.
    destruct (process_precomputed_core_debug_only name _ _ _ E) as (evs & T & F).
    cbn [snd trace] in *. rewrite T. exact F.
  - intros req. unfold run.
    destruct (process_precomputed name req (State [] [])) as [r st] eqn:E.
    assert (V : emits debug_or_flash (process_precomputed name req)).
    { unfold process_precomputed.
      destruct (String.eqb (method req) "GET"); [|apply emits_ret].
      apply emits_try.
      - apply emits_bind; [|intros; apply emits_ret].
        apply emits_invoke.
        apply (emits_weaken is_debug); [|apply process_precomputed_core_debug_only].
        intros [] H; try exact I; destruct H.
      - intros e. destruct (exc_class e); repeat trace_step. }
    destruct (V _ _ _ E) as (evs & T & F).
    cbn [snd trace] in *. rewrite T. exact F.
Qed.

(** X13: the one [Exception] that leaves [process_structure] is that of
    decoding the upload, which stands before the [try]: a POST whose structure
    file is not UTF-8 raises the [UnicodeDecodeError] with nothing logged or
    flashed, and every other [Exception] is caught.  [process_precomputed]
    lets no [Exception] out. *)
Theorem views_escaping_exceptions req name e tr :
  (run (process_structure req) = (Raise e, tr) ->
   is_Exception e = true ->
   method req = "POST"
   /\ tr = []
   /\ exists upload,
        dict_getitem (files req) "structurefile" = Ok upload
        /\ decode_utf8 upload = Raise e)
  /\ (forall upload,
      method req = "POST" ->
      dict_getitem (files req) "structurefile" = Ok upload ->
      decode_utf8 upload = Raise e ->
      run (process_structure req) = (Raise e, []))
  /\ (run (process_precomputed name req) = (Raise e, tr) ->
      is_Exception e = false).
Proof.
  split; [|split].
  - unfold run, process_structure.
    destruct (String.eqb (method req) "POST") eqn:Hm; [|discriminate].
    apply String.eqb_eq in Hm.
    destruct (dict_getitem (files req) "structurefile") as [upload|];
      [|discriminate].
    unfold bind at 1, call at 1.
    destruct (decode_utf8 upload) as [filecontent|e0] eqn:Hd.
    + unfold try_except. unfold bind at 1.
      destruct (invoke _ _) as [[data|e1] st]; [discriminate|].
      unfold structure_view_handler.
      destruct e1 as [c m]; destruct c; cbn; try discriminate.
      intros H. injection H as <- _. discriminate.
    + intros H _. injection H as <- <-. eauto.
  - intros upload Hm Hf Hd. unfold run, process_structure.
    rewrite Hm, Hf. unfold bind, call. rewrite Hd. reflexivity.
  - unfold run, process_precomputed.
    destruct (String.eqb (method req) "GET"); [|discriminate].
    unfold try_except. unfold bind at 1.
    destruct (invoke _ _) as [[data|e0] st]; [discriminate|].
    destruct e0 as [c m]; destruct c; cbn; try discriminate.
    intros H. injection H as <- _. reflexivity.
Qed.

(** X14: a POST with a structure file that [process_structure] answers is
    answered in one of two ways, and the upload was UTF-8: the visualizer
    template rendered with the bundle [process_structure_core] returns for
    the decoded text, nothing added to the trace; or a redirect to the
    structure form after the core raised, with exactly one flashed message
    added to what the core logged. *)
Theorem process_structure_outcomes req upload resp tr :
  method req = "POST" ->
  dict_getitem (files req) "structurefile" = Ok upload ->
  run (process_structure req) = (Ok resp, tr) ->
  exists filecontent,
    decode_utf8 upload = Ok filecontent
    /\ ((exists bundle,
           resp = Render (get_visualizer_template req) bundle
           /\ run (process_structure_core filecontent "cif" "process_structure" req)
              = (Ok bundle, tr))
        \/ (exists e tr0 msg,
              resp = Redirect "input_structure"
              /\ run (process_structure_core filecontent "cif"
                                             "process_structure" req)
                 = (Raise e, tr0)
              /\ tr = (tr0 ++ [Flash msg])%list)).
Proof.
  intros Hm Hf. unfold run, process_structure. rewrite Hm, Hf.
  unfold bind at 1, call at 1.
  destruct (decode_utf8 upload) as [filecontent|e0]; [|discriminate].
  exists filecontent. split; [reflexivity|]. revert H.
  unfold try_except, bind, invoke, ret. cbn -[process_structure_core].
  destruct (process_structure_core _ _ _ _ _) as [[bundle|e] st].
  - intros H. injection H as <- <-. left. eauto.
  - intros H. right. exists e, (trace st).
    destruct e as [c m]; destruct c; cbn in H; try discriminate H;
      injection H as <- <-; eauto.
Qed.

(** X15: what the user sees after a POST with a structure file that is
    UTF-8: the bundle [process_structure_core] returns for the decoded text
    rendered in the visualizer template; the message of a
    [FlaskRedirectException] flashed as it is; and an [UnboundLocalError] of
    the core flashed behind "Unable to process the structure, sorry... ". *)
Theorem process_structure_renders_core_bundle req upload filecontent :
  method req = "POST" ->
  dict_getitem (files req) "structurefile" = Ok upload ->
  decode_utf8 upload = Ok filecontent ->
  (forall bundle tr,
     run (process_structure_core filecontent "cif" "process_structure" req)
     = (Ok bundle, tr) ->
     run (process_structure req)
     = (Ok (Render (get_visualizer_template req) bundle), tr))
  /\ (forall msg tr,
     run (process_structure_core filecontent "cif" "process_structure" req)
     = (Raise (Exc FlaskRedirectException msg), tr) ->
     run (process_structure req)
     = (Ok (Redirect "input_structure"), (tr ++ [Flash msg])%list))
  /\ (forall e tr,
     run (process_structure_core filecontent "cif" "process_structure" req)
     = (Raise e, tr) ->
     exc_class e = UnboundLocalError ->
     run (process_structure req)
     = (Ok (Redirect "input_structure"),
        (tr ++ [Flash ("Unable to process the structure, sorry... " ++ exc_str e)])%list)).
Proof.
  intros Hm Hf Hd. unfold run, process_structure. rewrite Hm, Hf.
  unfold bind at 1, call at 1. rewrite Hd.
  unfold try_except, bind, invoke, ret. cbn -[process_structure_core].
  repeat split.
  - intros bundle tr H.
    destruct (process_structure_core _ _ _ _ _) as [r st]. injection H as -> <-.
    reflexivity.
  - intros msg tr H.
    destruct (process_structure_core _ _ _ _ _) as [r st]. injection H as -> <-.
    reflexivity.
  - intros e tr H Hc.
    destruct (process_structure_core _ _ _ _ _) as [r st]. injection H as -> <-.
    destruct e as [c m]. cbn in Hc. subst c. reflexivity.
Qed.

(** X16: a request flashes at most one message, in either view and whatever
    the collaborators do; the pipelines themselves never flash. *)
Theorem views_flash_at_most_once req name :
  (count_flash (snd (run (process_structure req))) <= 1)%nat
  /\ (count_flash (snd (run (process_precomputed name req))) <= 1)%nat.
Proof.
  split.
  - unfold run, process_structure.
    destruct (String.eqb (method req) "POST"); [|cbn; lia].
    destruct (dict_getitem (files req) "structurefile") as [upload|];
      [|cbn; lia].
    unfold bind at 1, call at 1.
    destruct (decode_utf8 upload) as [filecontent|e0]; [|cbn; lia].
    unfold try_except. unfold bind at 1.
    destruct (invoke _ _) as [[data|e] st] eqn:E;
      destruct (emits_invoke not_flash _
                  (process_structure_core_never_flashes filecontent "cif"
                     "process_structure" req) _ _ _ E) as (evs & T & F);
      cbn [trace app] in T.
    + cbn [ret snd trace]. rewrite T, (count_flash_none _ F). lia.
    + unfold structure_view_handler.
      destruct e as [c m]; destruct c;
        cbn [exc_class is_Exception bind emit ret raise snd trace exc_str];
        rewrite ?count_flash_app, T, (count_flash_none _ F); cbn; lia.
  - unfold run, process_precomputed.
    destruct (String.eqb (method req) "GET"); [|cbn; lia].
    unfold try_except. unfold bind at 1.
    assert (N : emits not_flash (process_precomputed_core name)).
    { apply (emits_weaken is_debug); [|apply process_precomputed_core_debug_only].
      intros [] H; try exact I; destruct H. }
    destruct (invoke _ _) as [[data|e] st] eqn:E;
      destruct (emits_invoke not_flash _ N _ _ _ E) as (evs & T & F);
      cbn [trace app] in T.
    + cbn [ret snd trace]. rewrite T, (count_flash_none _ F). lia.
    + destruct e as [c m]; destruct c;
        cbn [exc_class is_Exception bind emit ret raise snd trace exc_str];
        rewrite ?count_flash_app, T, (count_flash_none _ F); cbn; lia.
Qed.

(** X17: [process_example_structure] answers a POST as [process_structure]
    answers an upload that decodes to the text of the example's file, same
    response and same trace.
    An example name missing from [EXAMPLEMAPPING] and an example file that
    cannot be read are not handled: the [KeyError] or the error of [open]
    leaves the view as it is, with nothing flashed. *)
Theorem example_view_is_an_upload_of_the_example mapping open_read fields req :
  method req = "POST" ->
  (forall e,
     dict_getitem mapping (form_get fields "examplestructure" "<none>") = Raise e ->
     run (process_example_structure mapping open_read fields req) = (Raise e, []))
  /\ (forall example e,
     dict_getitem mapping (form_get fields "examplestructure" "<none>") = Ok example ->
     open_read (os_path_join THIS_DIR ["compute"; "examples"; example]) = Raise e ->
     run (process_example_structure mapping open_read fields req) = (Raise e, []))
  /\ (forall example filecontent upload,
     dict_getitem mapping (form_get fields "examplestructure" "<none>") = Ok example ->
     open_read (os_path_join THIS_DIR ["compute"; "examples"; example])
     = Ok filecontent ->
     decode_utf8 upload = Ok filecontent ->
     run (process_example_structure mapping open_read fields req)
     = run (process_structure (with_upload req upload))).
Proof.
  intros Hm. unfold run, process_example_structure, process_structure.
  cbn [with_upload method files environ form]. rewrite Hm.
  change (String.eqb "POST" "POST") with true. cbv iota.
  repeat split.
  - intros e H. unfold bind, call. rewrite H. reflexivity.
  - intros example e H1 H2. unfold bind at 1, call at 1. rewrite H1.
    unfold bind at 1, call at 1. rewrite H2. reflexivity.
  - intros example filecontent upload H1 H2 H3.
    unfold bind at 1, call at 1. rewrite H1.
    unfold bind at 1, call at 1. rewrite H2.
    replace (dict_getitem [("structurefile", upload)] "structurefile")
      with (@Ok string upload) by reflexivity.
    unfold bind at 2, call at 1. rewrite H3.
    reflexivity.
Qed.

End Views.

(** ** [setup.py]: detecting the version *)

Lemma partition_before sep s : has_char sep (fst (fst (partition sep s))) = false.
Proof.
  induction s as [|c s IH]; cbn; [reflexivity|].
  destruct (Ascii.eqb c sep) eqn:E; [reflexivity|].
  destruct (partition sep s) as [[b f] a]. cbn in *. rewrite E, IH. reflexivity.
Qed.

Lemma partition_after_sub c sep s :
  has_char c s = false -> has_char c (snd (partition sep s)) = false.
Proof.
  induction s as [|a s IH]; cbn; [reflexivity|].
  intros H. apply orb_false_iff in H. destruct H as [Ha Hs].
  destruct (Ascii.eqb a sep); [exact Hs|].
  destruct (partition sep s) as [[b f] r]. cbn in *. exact (IH Hs).
Qed.

Lemma partition_whole sep s :
  has_char sep s = false -> partition sep s = (s, EmptyString, EmptyString).
Proof.
  induction s as [|a s IH]; cbn; [reflexivity|].
  intros H. apply orb_false_iff in H. destruct H as [Ha Hs].
  rewrite Ha, (IH Hs). reflexivity.
Qed.

Lemma str_replace_absent old new s :
  has_char old s = false -> str_replace old new s = s.
Proof.
  induction s as [|a s IH]; cbn; [reflexivity|].
  intros H. apply orb_false_iff in H. destruct H as [Ha Hs].
  rewrite Ha, (IH Hs). reflexivity.
Qed.

Lemma str_app_assoc (a b c : string) : (a ++ b) ++ c = a ++ (b ++ c).
Proof. induction a as [|x a IH]; cbn; [reflexivity | rewrite IH; reflexivity]. Qed.

Lemma str_replace_app old new a b :
  str_replace old new (a ++ b) = str_replace old new a ++ str_replace old new b.
Proof.
  induction a as [|c a IH]; cbn; [reflexivity|].
  rewrite IH. destruct (Ascii.eqb c old); [|reflexivity].
  rewrite str_app_assoc. reflexivity.
Qed.

Lemma lstrip_sub c s : has_char c s = false -> has_char c (lstrip s) = false.
Proof.
  induction s as [|a s IH]; cbn; [reflexivity|].
  intros H. destruct (is_space a); [|exact H].
  apply orb_false_iff in H. exact (IH (proj2 H)).
Qed.

Lemma rstrip_sub c s : has_char c s = false -> has_char c (rstrip s) = false.
Proof.
  induction s as [|a s IH]; cbn; [reflexivity|].
  intros H. apply orb_false_iff in H. destruct H as [Ha Hs].
  specialize (IH Hs). destruct (rstrip s) as [|b k].
  - destruct (is_space a); cbn; [reflexivity | rewrite Ha; reflexivity].
  - cbn in *. rewrite Ha. exact IH.
Qed.

Lemma lstrip_idem s : lstrip (lstrip s) = lstrip s.
Proof.
  induction s as [|a s IH]; cbn; [reflexivity|].
  destruct (is_space a) eqn:E; [exact IH|]. cbn. rewrite E. reflexivity.
Qed.

Lemma rstrip_idem s : rstrip (rstrip s) = rstrip s.
Proof.
  induction s as [|a s IH]; cbn; [reflexivity|].
  destruct (rstrip s) as [|b k] eqn:R.
  - destruct (is_space a) eqn:E; cbn; [reflexivity | rewrite E; reflexivity].
  - cbn [rstrip]. cbn [rstrip] in IH. rewrite IH. reflexivity.
Qed.

(** Stripping the left end does not uncover white space at the right end. *)
Lemma rstrip_lstrip s : rstrip s = s -> rstrip (lstrip s) = lstrip s.
Proof.
  induction s as [|a s IH]; cbn; [reflexivity|].
  intros H. destruct (is_space a) eqn:E.
  - destruct (rstrip s) as [|b k] eqn:R.
    + discriminate H.
    + injection H as H. apply IH. exact H.
  - cbn. rewrite E. exact H.
Qed.

Lemma rstrip_app_space s c : is_space c = true -> rstrip (s ++ String c "") = rstrip s.
Proof.
  intros E. induction s as [|a s IH]; cbn; [rewrite E; reflexivity|].
  rewrite IH. reflexivity.
Qed.

(** X18: a version is detected only when exactly one line of the file
    starts with [__version__], and a detected version holds no double quote,
    no [#] and no white space at either end. *)
Theorem detected_version_is_clean lines v :
  detect_version lines = Ok v ->
  List.length (filter (String.prefix "__version__") lines) = 1%nat
  /\ has_char dquote v = false
  /\ has_char "#" v = false
  /\ lstrip v = v
  /\ rstrip v = v.
Proof.
  unfold detect_version. intros H.
  destruct (filter (String.prefix "__version__") lines) as [|l [|l2 ls]];
    cbn [map] in H; try discriminate H.
  injection H as <-. unfold strip. repeat split.
  - apply lstrip_sub, rstrip_sub, str_replace_removes. reflexivity.
  - apply lstrip_sub, rstrip_sub, str_replace_keeps_out; [reflexivity|].
    apply partition_after_sub, partition_before.
  - apply lstrip_idem.
  - apply rstrip_lstrip, rstrip_idem.
Qed.

(** X19: round trip: if one line of the file is [__version__ = "v"] and no
    other line starts with [__version__], the detected version is [v], for
    every [v] without a double quote, a [#] or white space at its ends. *)
Theorem version_round_trip before after v :
  forallb (fun l => negb (String.prefix "__version__" l)) (before ++ after) = true ->
  has_char dquote v = false ->
  has_char "#" v = false ->
  lstrip v = v ->
  rstrip v = v ->
  detect_version (before ++ version_line v :: after) = Ok v.
Proof.
  intros Hf Hq Hh Hl Hr. unfold detect_version.
  assert (F : filter (String.prefix "__version__") (before ++ version_line v :: after)
              = [version_line v]).
  { rewrite forallb_app in Hf. apply andb_prop in Hf. destruct Hf as [F1 F2].
    rewrite filter_app. cbn [filter].
    assert (N : forall ls, forallb (fun l => negb (String.prefix "__version__" l)) ls = true ->
                           filter (String.prefix "__version__") ls = []).
    { induction ls as [|l ls IH]; [reflexivity|]. cbn. intros H.
      apply andb_prop in H. destruct H as [H1 H2].
      apply negb_true_iff in H1. rewrite H1. exact (IH H2). }
    rewrite (N _ F1), (N _ F2). reflexivity. }
  rewrite F. cbn [map].
  assert (P : partition "#" (version_line v) = (version_line v, "", "")).
  { apply partition_whole. unfold version_line.
    rewrite has_char_app. cbn. rewrite has_char_app. cbn. rewrite Hh. reflexivity. }
  rewrite P. cbn [fst]. unfold version_line. cbn [append partition Ascii.eqb Bool.eqb snd].
  change (str_replace dquote ""
            (String " " (String dquote (v ++ String dquote newline))))
    with (String " " (str_replace dquote "" (v ++ String dquote newline))).
  rewrite str_replace_app, (str_replace_absent _ _ _ Hq).
  change (str_replace dquote "" (String dquote newline)) with newline.
  unfold strip, newline. cbn [rstrip].
  rewrite rstrip_app_space by reflexivity. rewrite Hr.
  destruct v as [|c v]; [reflexivity|].
  change (lstrip (String " " (String c v))) with (lstrip (String c v)).
  rewrite Hl. reflexivity.
Qed.

(** ** The further properties, run *)

(** X1, witness: the iron cell submitted as "xyz". *)
Lemma reader_failures_reported_witness :
  run (W:=scenario_world fe_scenario)
      (process_structure_core "data_fe" "xyz" "process_structure"
                              (post_request fe_scenario))
  = (Raise (Exc FlaskRedirectException "Unknown format 'xyz'"),
     [LogMe "data_fe" "xyz" "process_structure" "unknownformat"
            [("form_data", VObj (W:=scenario_world fe_scenario) "form")]]).
Proof.
  exact (proj1 (reader_failures_reported (W:=scenario_world fe_scenario)
                  "data_fe" "xyz" "process_structure" (post_request fe_scenario)
                  (Exc UnknownFormatError "xyz") eq_refl eq_refl) eq_refl).
Defined.

(** X2, witness: the featurizer finds no metal site. *)
Lemma featurization_failure_reported_witness :
  run (W:=scenario_world featurization_fails)
      (process_structure_core "data_fe" "cif" "process_structure"
                              (post_request featurization_fails))
  = (Raise (Exc FlaskRedirectException featurization_message),
     [Debug "Successfully read structure in {}";
      LogMe "data_fe" "cif" "process_structure" "featurizationexception"
            [("exception", VStr "no metal site")]]).
Proof.
  exact (featurization_failure_reported (W:=scenario_world featurization_fails)
           "data_fe" "cif" "process_structure" (post_request featurization_fails)
           fe_cubic fe_cubic (Exc ValueError "no metal site")
           eq_refl eq_refl eq_refl).
Defined.

(** X3, witness: the parser is interrupted. *)
Lemma interrupts_pass_through_witness :
  run (W:=scenario_world interrupted)
      (process_structure_core "data_fe" "cif" "process_structure"
                              (post_request interrupted))
  = (Raise (Exc KeyboardInterrupt ""), []).
Proof.
  exact (proj1 (interrupts_pass_through (W:=scenario_world interrupted)
                  "data_fe" "cif" "process_structure" (post_request interrupted)
                  (Exc KeyboardInterrupt "") eq_refl) eq_refl).
Defined.

(** X4, witness: the model rejects the features of the iron cell. *)
Lemma prediction_failure_is_never_reported_witness :
  run (W:=scenario_world prediction_fails)
      (process_structure_core "data_fe" "cif" "process_structure"
                              (post_request prediction_fails))
  = (Raise (unbound_local "prediction_labels"),
     [Debug "Successfully read structure in {}";
      Debug "Featurization completed in {}";
      Print "bad features";
      LogMe "data_fe" "cif" "process_structure" "predictionexception"
            [("exception", VStr "bad features");
             ("shape_array",
              VObj (W:=scenario_world prediction_fails) "shape(feature_array)")];
      Debug "Prediction done in {}"])
  /\ exists e' rest,
    run (W:=scenario_world prediction_fails)
        (process_structure_core "data_fe" "cif" "process_structure"
                                (post_request prediction_fails))
    = (Raise e',
       ([Debug "Successfully read structure in {}";
         Debug "Featurization completed in {}";
         Print "bad features";
         LogMe "data_fe" "cif" "process_structure" "predictionexception"
               [("exception", VStr "bad features");
                ("shape_array",
                 VObj (W:=scenario_world prediction_fails) "shape(feature_array)")];
         Debug "Prediction done in {}"] ++ rest)%list)
    /\ ((rest = []
         /\ (e' = unbound_local "prediction_labels"
             \/ e' = unbound_local "featurization_output"))
        \/ (rest = (if is_Exception e'
                    then [LogMe "data_fe" "cif" "process_structure" "codeexception"
                                [("exception", VStr (exc_str e'));
                                 ("form_data",
                                  VObj (W:=scenario_world prediction_fails) "form")]]
                    else [])
            /\ (get_primitive_structure (World:=scenario_world prediction_fails)
                  fe_cubic = Raise e'
                \/ e' = Exc ValueError
                            "shapes (0,) and (3,3) not aligned: 0 (dim 0) != 3 (dim 0)"
                \/ e' = Exc IndexError "list index out of range"))).
Proof.
  split; [vm_compute; reflexivity|].
  apply (prediction_failure_is_never_reported (W:=scenario_world prediction_fails)
           "data_fe" "cif" "process_structure" (post_request prediction_fails)
           fe_cubic fe_cubic "feature_array" "feature_value_dict" "metal_indices"
           "feature_names" (Exc ValueError "bad features"));
    [reflexivity | reflexivity | left; reflexivity | reflexivity | discriminate].
Defined.

(** X5, witness: the iron cell. *)
Lemma process_structure_core_succeeds_witness :
  exists psym isym,
    list_comprehension (list_getitem ase_chemical_symbols) [26%Z] = Ok psym
    /\ list_comprehension (list_getitem ase_chemical_symbols) [26%Z] = Ok isym
    /\ run (W:=scenario_world fe_scenario)
           (process_structure_core "data_fe" "cif" "process_structure"
                                   (post_request fe_scenario))
       = (Ok (output_bundle (W:=scenario_world fe_scenario)
                fe_cubic fe_path_results
                (map (fun p => row_dot p (st_cell fe_cubic)) [V3 0 0 0])
                (map (fun p => row_dot p (st_cell fe_cubic)) [V3 0 0 0])
                (map (fun p => row_dot p (st_cell fe_cubic))
                     (map vec3_remainder1 [V3 0 0 0]))
                psym isym "prediction_labels" "metal_indices"
                "predictions_output" "featurization_output" "feature_value_dict"),
          structure_trace (W:=scenario_world fe_scenario)).
Proof.
  apply (process_structure_core_succeeds (W:=scenario_world fe_scenario)
           "data_fe" "cif" "process_structure" (post_request fe_scenario)
           fe_cubic fe_cubic "feature_array" "feature_value_dict" "metal_indices"
           "feature_names" "predictions_output" "prediction_labels" "class_idx"
           "featurization_output" fe_path_results);
    try reflexivity; try discriminate.
  intros z [[<-|[]]|[<-|[]]]; unfold indexes_symbols; cbn; lia.
Defined.

(** X6, witness: the iron cell. *)
Lemma returned_bundle_needs_indexable_numbers_witness :
  exists bundle tr,
    run (W:=scenario_world fe_scenario)
        (process_structure_core "data_fe" "cif" "process_structure"
                                (post_request fe_scenario))
    = (Ok bundle, tr)
    /\ st_scaled_coords fe_cubic <> []
    /\ primitive_positions fe_path_results <> []
    /\ forall z,
         In z (st_atomic_numbers fe_cubic) \/ In z (primitive_types fe_path_results) ->
         indexes_symbols (W:=scenario_world fe_scenario) z.
Proof.
  eexists. eexists. split; [vm_compute; reflexivity|].
  refine (returned_bundle_needs_indexable_numbers (W:=scenario_world fe_scenario)
            "data_fe" "cif" "process_structure" (post_request fe_scenario)
            _ _ fe_cubic fe_cubic fe_path_results _ _ _);
    [vm_compute; reflexivity | reflexivity | reflexivity].
Defined.

(** X7, witness: one half. *)
Lemma remainder1_fixes_unit_interval_witness : remainder1 0.5 = 0.5%float.
Proof. apply remainder1_fixes_unit_interval; reflexivity. Defined.

(** X8, witness: the record ABAVIJ when the primitive reduction fails. *)
Lemma precomputed_raises_only_unbound_locals_witness :
  exists e tr,
    run (W:=scenario_world primitive_fails) (process_precomputed_core "ABAVIJ")
    = (Raise e, tr)
    /\ is_Exception e = true
    /\ exists x, e = unbound_local x.
Proof.
  eexists. eexists. split; [vm_compute; reflexivity|]. split; [reflexivity|].
  refine (precomputed_raises_only_unbound_locals (W:=scenario_world primitive_fails)
            "ABAVIJ" fe_cubic _ _ _ _ _ _ _);
    [reflexivity | vm_compute; reflexivity | vm_compute; reflexivity | reflexivity].
Defined.

(** X9, witness: the same record. *)
Lemma precomputed_reduction_failure_masked_witness :
  run (W:=scenario_world primitive_fails) (process_precomputed_core "ABAVIJ")
  = (Raise (unbound_local "raw_code"),
     (precomputed_trace (W:=scenario_world primitive_fails) "ABAVIJ"
        ++ [Debug "Exception no primitive cell when parsing the input"])%list).
Proof.
  refine (precomputed_reduction_failure_masked (W:=scenario_world primitive_fails)
            "ABAVIJ" fe_cubic _ (Exc ValueError "no primitive cell") _ _ _ _);
    [reflexivity | vm_compute; reflexivity | reflexivity | reflexivity].
Defined.

(** X10, witness: the iron cell, uploaded and as the record ABAVIJ. *)
Lemma precomputed_bundle_matches_live_witness :
  exists b1 tr1 b2 tr2,
    run (W:=scenario_world fe_scenario) (process_precomputed_core "ABAVIJ")
    = (Ok b1, tr1)
    /\ run (W:=scenario_world fe_scenario)
           (process_structure_core "data_fe" "cif" "process_structure"
                                   (post_request fe_scenario))
       = (Ok b2, tr2)
    /\ map fst b1 = map fst b2
    /\ forall key, In key assembly_keys -> dict_getitem b1 key = dict_getitem b2 key.
Proof.
  do 4 eexists. split; [vm_compute; reflexivity|].
  split; [vm_compute; reflexivity|].
  refine (precomputed_bundle_matches_live (W:=scenario_world fe_scenario)
            "ABAVIJ" "data_fe" "cif" "process_structure" (post_request fe_scenario)
            fe_cubic _ _ _ _ _ _ _ _);
    [reflexivity | reflexivity | vm_compute; reflexivity | vm_compute; reflexivity].
Defined.

(** X11, witness: the iron cell. *)
Lemma raw_code_has_no_space_or_newline_witness :
  exists bundle tr,
    run (W:=scenario_world fe_scenario)
        (process_structure_core "data_fe" "cif" "process_structure"
                                (post_request fe_scenario))
    = (Ok bundle, tr)
    /\ map fst bundle = output_keys
    /\ exists raw,
        dict_getitem bundle "raw_code" = Ok (VStr raw)
        /\ has_char " " raw = false
        /\ has_char (ascii_of_nat 10) raw = false.
Proof.
  eexists. eexists. split; [vm_compute; reflexivity|].
  refine (raw_code_has_no_space_or_newline (W:=scenario_world fe_scenario)
            "ABAVIJ" "data_fe" "cif" "process_structure" (post_request fe_scenario)
            _ _ (or_introl _)).
  vm_compute; reflexivity.
Defined.

(** X13, witness: an upload that is not UTF-8. *)
Lemma views_escaping_exceptions_witness :
  run (W:=scenario_world undecodable) (process_structure undecodable_request)
  = (Raise (Exc (OtherError "UnicodeDecodeError")
                ("'utf-8' codec can't decode byte 0xff in position 0: "
                   ++ "invalid start byte")),
     []).
Proof.
  exact (proj1 (proj2 (views_escaping_exceptions (W:=scenario_world undecodable)
                         undecodable_request "ABAVIJ"
                         (Exc (OtherError "UnicodeDecodeError")
                              ("'utf-8' codec can't decode byte 0xff in "
                                 ++ "position 0: invalid start byte"))
                         []))
               (String (ascii_of_nat 255) EmptyString) eq_refl eq_refl eq_refl).
Defined.

(** X14, witness: the iron cell uploaded. *)
Lemma process_structure_outcomes_witness :
  exists resp tr,
    run (W:=scenario_world fe_scenario) (process_structure (post_request fe_scenario))
    = (Ok resp, tr)
    /\ exists filecontent,
    decode_utf8 (World:=scenario_world fe_scenario) "data_fe" = Ok filecontent
    /\ ((exists bundle,
           resp = Render (get_visualizer_template (post_request fe_scenario)) bundle
           /\ run (W:=scenario_world fe_scenario)
                  (process_structure_core filecontent "cif" "process_structure"
                                          (post_request fe_scenario))
              = (Ok bundle, tr))
        \/ (exists e tr0 msg,
              resp = Redirect "input_structure"
              /\ run (W:=scenario_world fe_scenario)
                     (process_structure_core filecontent "cif" "process_structure"
                                             (post_request fe_scenario))
                 = (Raise e, tr0)
              /\ tr = (tr0 ++ [Flash msg])%list)).
Proof.
  eexists. eexists. split; [vm_compute; reflexivity|].
  refine (process_structure_outcomes (W:=scenario_world fe_scenario)
            (post_request fe_scenario) "data_fe" _ _ _ _ _);
    [reflexivity | reflexivity | vm_compute; reflexivity].
Defined.

(** X15, witness: the upload whose featurization fails. *)
Lemma process_structure_renders_core_bundle_witness :
  run (W:=scenario_world featurization_fails)
      (process_structure (post_request featurization_fails))
  = (Ok (Redirect "input_structure"),
     [Debug "Successfully read structure in {}";
      LogMe "data_fe" "cif" "process_structure" "featurizationexception"
            [("exception", VStr "no metal site")];
      Flash featurization_message]).
Proof.
  refine (proj1 (proj2 (process_structure_renders_core_bundle
                          (W:=scenario_world featurization_fails)
                          (post_request featurization_fails) "data_fe" "data_fe"
                          eq_refl eq_refl eq_refl))
                featurization_message
                [Debug "Successfully read structure in {}";
                 LogMe "data_fe" "cif" "process_structure" "featurizationexception"
                       [("exception", VStr "no metal site")]] _).
  vm_compute; reflexivity.
Defined.

(** X17, witness: the example "fe", stored as [fe.cif]. *)
Lemma example_view_is_an_upload_of_the_example_witness :
  run (W:=scenario_world fe_scenario)
      (process_example_structure [("fe", "fe.cif")] (fun _ => Ok "data_fe")
         [("examplestructure", "fe")] (post_request fe_scenario))
  = run (W:=scenario_world fe_scenario)
        (process_structure (with_upload (post_request fe_scenario) "data_fe")).
Proof.
  exact (proj2 (proj2 (example_view_is_an_upload_of_the_example
                         (W:=scenario_world fe_scenario)
                         [("fe", "fe.cif")] (fun _ => Ok "data_fe")
                         [("examplestructure", "fe")] (post_request fe_scenario)
                         eq_refl))
               "fe.cif" "data_fe" "data_fe" eq_refl eq_refl eq_refl).
Defined.

(** X18, witness: a version line with a comment. *)
Lemma detected_version_is_clean_witness :
  detect_version ["import os"; "__version__ = 'v0.1.3'  # release"] = Ok "'v0.1.3'"
  /\ List.length (filter (String.prefix "__version__")
                         ["import os"; "__version__ = 'v0.1.3'  # release"]) = 1%nat
  /\ has_char dquote "'v0.1.3'" = false
  /\ has_char "#" "'v0.1.3'" = false
  /\ lstrip "'v0.1.3'" = "'v0.1.3'"
  /\ rstrip "'v0.1.3'" = "'v0.1.3'".
Proof.
  split; [reflexivity|].
  apply (detected_version_is_clean
           ["import os"; "__version__ = 'v0.1.3'  # release"] "'v0.1.3'").
  reflexivity.
Defined.

(** X19, witness: version 0.1.3 between a comment and another assignment. *)
Lemma version_round_trip_witness :
  detect_version
    ["# coding: utf-8"; newline; version_line "0.1.3"; "__author__ = x" ++ newline]
  = Ok "0.1.3".
Proof.
  apply (version_round_trip ["# coding: utf-8"; newline]
           ["__author__ = x" ++ newline] "0.1.3"); reflexivity.
Defined.
